(** * data_analyer_main.py: loader, analyzer and reporter

    A shallow embedding of [src/data_analyer_main.py].  The program is a
    straight pipeline

      check_file_type  ->  explain_file  ->  generate_pdf

    driven by [data_analyzer] and by the command-line entry point.  Its
    collaborators (pandas readers, the hosted model, the PDF renderer, the
    clock and the random sources) are gathered in a record [Env]; everything
    the program itself does (control flow, string handling, the retry loop,
    exception propagation, writes to the working directory) is executable
    Rocq code over an explicit [World]. *)

From Stdlib Require Import ZArith Ascii String List Bool Lia.
From Stdlib Require Import Floats.SpecFloat.
From Stdlib Require Import DecimalString DecimalNat.
From stdpp Require Import base option list gmap strings.

Local Open Scope Z_scope.
Local Open Scope nat_scope.

(* ================================================================== *)
(** ** Python strings *)
(* ================================================================== *)

Module Py.

(** [s.startswith(p)] *)
Fixpoint startswith (s p : string) {struct p} : bool :=
  match p with
  | EmptyString => true
  | String a p' =>
      match s with
      | EmptyString => false
      | String b s' => if Ascii.eqb a b then startswith s' p' else false
      end
  end.

(** [s.endswith(suf)]: [s] is [suf], or its tail ends with [suf]. *)
Fixpoint endswith (s suf : string) : bool :=
  String.eqb s suf ||
  match s with
  | EmptyString => false
  | String _ s' => endswith s' suf
  end.

(** [sub in s] *)
Fixpoint contains (s sub : string) : bool :=
  startswith s sub ||
  match s with
  | EmptyString => false
  | String _ s' => contains s' sub
  end.

(** The propositional reading of [sub in s]. *)
Definition occurs (sub s : string) : Prop :=
  ∃ pre post, s = pre +:+ sub +:+ post.

(** [s.replace(old, new)] for a non-empty [old]: one scan from the left;
    where [old] starts at the cursor, [new] is emitted and the cursor
    jumps over the match ([skip] counts the characters of the match still
    to jump over); otherwise the character under the cursor is emitted.
    Text produced by an earlier step is never scanned again. *)
Fixpoint replace_from (old new : string) (skip : nat) (s : string) : string :=
  match s with
  | EmptyString => EmptyString
  | String c s' =>
      match skip with
      | S k => replace_from old new k s'
      | O =>
          if startswith s old
          then new +:+ replace_from old new (String.length old - 1) s'
          else String c (replace_from old new 0 s')
      end
  end.

(** For the empty pattern Python puts [new] before every character and at
    the end. *)
Fixpoint interleave (new s : string) : string :=
  match s with
  | EmptyString => new
  | String c s' => new +:+ String c (interleave new s')
  end.

Definition replace (s old new : string) : string :=
  match old with
  | EmptyString => interleave new s
  | String _ _ => replace_from old new 0 s
  end.

(** [s.split(sep)[0]] for a non-empty [sep]: everything before the first
    occurrence of [sep], the whole of [s] when there is none. *)
Fixpoint split_head (s sep : string) : string :=
  match s with
  | EmptyString => EmptyString
  | String c s' => if startswith s sep then EmptyString else String c (split_head s' sep)
  end.

(** [c.lower()] and [s.lower()] on ASCII text. *)
Definition lower_char (c : ascii) : ascii :=
  let n := nat_of_ascii c in
  if (65 <=? n) && (n <=? 90) then ascii_of_nat (n + 32) else c.

Fixpoint lower (s : string) : string :=
  match s with
  | EmptyString => EmptyString
  | String c s' => String (lower_char c) (lower s')
  end.

(** The characters written with a backslash or between other quotes in
    the source: the double quote and the line feed. *)
Definition quote : string := String (ascii_of_nat 34) EmptyString.
Definition nl : string := String (ascii_of_nat 10) EmptyString.

(** [str(n)] for a natural number. *)
Definition str_nat (n : nat) : string :=
  NilZero.string_of_uint (Nat.to_uint n).

(** ["%02d" % n] and ["%04d" % n]: zero padding on the left. *)
Fixpoint zeros (k : nat) : string :=
  match k with
  | O => EmptyString
  | S k' => String "0" (zeros k')
  end.

Definition zfill (width n : nat) : string :=
  let s := str_nat n in zeros (width - String.length s) +:+ s.

End Py.

(* ================================================================== *)
(** ** float64 values and ["{:.2f}".format(x)] *)
(* ================================================================== *)

(** A float64 is kept as its IEEE-754 decomposition ([spec_float] of the
    Standard Library): zero, infinity, NaN, or [(-1)^s * m * 2^e]. *)

Definition round_half_even (num : Z) (den : Z) : Z :=
  let q := (num / den)%Z in
  let r := (num mod den)%Z in
  match (2 * r ?= den)%Z with
  | Lt => q
  | Gt => (q + 1)%Z
  | Eq => if Z.even q then q else (q + 1)%Z
  end.

(** [|x| * 100], correctly rounded to an integer (ties to even), for
    [|x| = m * 2^e]. *)
Definition hundredths (m : positive) (e : Z) : Z :=
  if (0 <=? e)%Z then (Z.pos m * 2 ^ e * 100)%Z
  else round_half_even (Z.pos m * 100) (2 ^ (- e)).

Definition sign_text (s : bool) : string := if s then "-" else EmptyString.

(** The text CPython produces for ["{:.2f}".format(x)]. *)
Definition format_2f (x : spec_float) : string :=
  match x with
  | S754_nan => "nan"
  | S754_infinity s => sign_text s +:+ "inf"
  | S754_zero s => sign_text s +:+ "0.00"
  | S754_finite s m e =>
      let n := hundredths m e in
      sign_text s +:+ Py.str_nat (Z.to_nat (n / 100)) +:+ "."
        +:+ Py.zfill 2 (Z.to_nat (n mod 100))
  end.

(* ================================================================== *)
(** ** The pandas data model *)
(* ================================================================== *)

(** A column is a typed array.  Only [float64] is selected by
    [select_dtypes(include='float64')]; [float32] is a different dtype. *)
Inductive Series :=
| SFloat64 (xs : list spec_float)
| SFloat32 (xs : list spec_float)
| SInt64 (xs : list Z)
| SBool (xs : list bool)
| SObject (xs : list (option string)).

Inductive dtype := float64 | float32 | int64 | bool_ | object.

#[global] Instance dtype_eq_dec : EqDecision dtype.
Proof. solve_decision. Defined.

Definition series_dtype (s : Series) : dtype :=
  match s with
  | SFloat64 _ => float64
  | SFloat32 _ => float32
  | SInt64 _ => int64
  | SBool _ => bool_
  | SObject _ => object
  end.

(** A cell, as [to_csv] sees it. *)
Inductive value :=
| VFloat (x : spec_float)
| VInt (z : Z)
| VBool (b : bool)
| VStr (s : string)
| VNone.

Definition object_value (o : option string) : value :=
  match o with Some s => VStr s | None => VNone end.

Definition series_values (s : Series) : list value :=
  match s with
  | SFloat64 xs | SFloat32 xs => VFloat <$> xs
  | SInt64 xs => VInt <$> xs
  | SBool xs => VBool <$> xs
  | SObject xs => object_value <$> xs
  end.

(** [pd.isna]: NaN in a float column, None in an object column. *)
Definition isna (v : value) : bool :=
  match v with
  | VNone => true
  | VFloat S754_nan => true
  | _ => false
  end.

(** Positional row selection on a list: the entries at [ps], in the order
    of [ps]. *)
Definition iloc {A} (ps : list nat) (xs : list A) : list A :=
  omap (λ p, xs !! p) ps.

Definition series_iloc (ps : list nat) (s : Series) : Series :=
  match s with
  | SFloat64 xs => SFloat64 (iloc ps xs)
  | SFloat32 xs => SFloat32 (iloc ps xs)
  | SInt64 xs => SInt64 (iloc ps xs)
  | SBool xs => SBool (iloc ps xs)
  | SObject xs => SObject (iloc ps xs)
  end.

(** A table: row labels and named columns. *)
Record DataFrame := mkDataFrame {
  index : list nat;
  columns : list (string * Series)
}.

Definition nrows (df : DataFrame) : nat := length (index df).

Definition df_iloc (ps : list nat) (df : DataFrame) : DataFrame :=
  {| index := iloc ps (index df);
     columns := prod_map id (series_iloc ps) <$> columns df |}.

(** The cell of column [s] in row position [i]. *)
Definition cell (s : Series) (i : nat) : value :=
  default VNone (series_values s !! i).

Definition row_at (df : DataFrame) (i : nat) : list value :=
  (λ c, cell c.2 i) <$> columns df.

Definition row_complete (df : DataFrame) (i : nat) : bool :=
  forallb (λ v, negb (isna v)) (row_at df i).

(** [df.dropna()]: the rows in which no cell is missing. *)
Definition dropna (df : DataFrame) : DataFrame :=
  df_iloc (filter (λ i, row_complete df i = true) (seq 0 (nrows df))) df.

(** [df.select_dtypes(include='float64').columns] *)
Definition float64_columns (df : DataFrame) : list string :=
  (filter (λ c, series_dtype c.2 = float64) (columns df)).*1.

(** [df[col]]: every column that carries the label.  With one such column
    pandas returns it as a Series; with several it returns them together
    as a DataFrame. *)
Definition getitem (df : DataFrame) (col : string) : list Series :=
  (filter (λ c : string * Series, c.1 = col) (columns df)).*2.

(** [df[col] = s] for a Series [s]: the data under the label is replaced
    in place. *)
Definition setitem (df : DataFrame) (col : string) (s : Series) : DataFrame :=
  {| index := index df;
     columns := (λ c, if decide (c.1 = col) then (c.1, s) else c) <$> columns df |}.

(** [str(z)] for an integer. *)
Definition str_Z (z : Z) : string :=
  match z with
  | Zneg _ => "-" +:+ Py.str_nat (Z.abs_nat z)
  | _ => Py.str_nat (Z.to_nat z)
  end.

(** The text [to_csv] writes for a cell.  A missing value is written as
    the empty text ([na_rep] is left at its default), so in the file it is
    the same as a cell that holds the empty text.  [repr] is the text
    numpy gives a float of the column's dtype. *)
Definition render (repr : dtype → spec_float → string) (dt : dtype) (v : value) : string :=
  match v with
  | VFloat x => if isna v then EmptyString else repr dt x
  | VInt z => str_Z z
  | VBool b => if b then "True" else "False"
  | VStr s => s
  | VNone => EmptyString
  end.

Definition field (repr : dtype → spec_float → string) (s : Series) (i : nat) : string :=
  render repr (series_dtype s) (cell s i).

Definition fields_at (repr : dtype → spec_float → string) (df : DataFrame) (i : nat)
  : list string :=
  (λ c, field repr c.2 i) <$> columns df.

(** [df.to_csv(path, sep=',', index=False)]: a header line with the column
    labels, then one record per row holding the fields of the columns only
    (the row labels are not written).  The file is kept as the rows the
    csv writer is given: the text of every field, before the writer quotes
    the fields that need it and joins them with the separator. *)
Record csv := mkCsv {
  csv_sep : string;
  csv_header : list string;
  csv_records : list (list string)
}.

Definition to_csv_text (repr : dtype → spec_float → string) (df : DataFrame) (sep : string)
  : csv :=
  {| csv_sep := sep;
     csv_header := (columns df).*1;
     csv_records := fields_at repr df <$> seq 0 (nrows df) |}.

(** Sampling without replacement: [n] draws from the pool of positions,
    each draw removing the chosen position.  [rand k] is the [k]-th raw
    number of the generator. *)
Fixpoint choose (rand : nat → nat) (k n : nat) (pool : list nat) : list nat :=
  match n with
  | O => []
  | S n' =>
      let i := rand k mod length pool in
      match pool !! i with
      | Some p => p :: choose rand (S k) n' (delete i pool)
      | None => []
      end
  end.

(** The sample size is a literal of the source; keep it folded. *)
Arguments choose : simpl never.

(* ================================================================== *)
(** ** PDF documents, files, exceptions, the world *)
(* ================================================================== *)

(** [markdown_pdf.Section(text, toc=...)] and [markdown_pdf.MarkdownPdf]. *)
Record PdfSection := mkSection {
  sec_text : string;
  sec_toc : bool
}.

Record MarkdownPdf := mkPdf {
  toc_level : nat;
  sections : list PdfSection;
  meta : gmap string string
}.

(** What a path of the working directory holds. *)
Inductive content :=
| Blob (bytes : string)
| CsvText (c : csv)
| PdfDoc (d : MarkdownPdf).

Inductive exn :=
| FileNotFoundError (msg : string)
| ValueError (msg : string)
| TypeError (msg : string)
| NameError (msg : string)
| AttributeError (msg : string)
| Exception_ (msg : string)
| SystemExit (code : nat)
| LibraryError (msg : string).

Inductive result (A : Type) :=
| Ok (a : A)
| Raise (e : exn).
Arguments Ok {A} a.
Arguments Raise {A} e.

(** [genai.GenerativeModel(model_name, generation_config, safety_settings)] *)
Record GenerativeModel := mkModel {
  model_name : string;
  model_generation_config : list (string * string);
  model_safety_settings : list (string * string)
}.

(** The response object; [text] is [None] when the accessor raises. *)
Record GenerateContentResponse := mkResponse {
  text : option string
}.

Inductive event :=
| EPrint (line : string)
| ESleep (seconds : nat)
| EConfigure (api_key : string)
| EGenerate (model : GenerativeModel) (prompt : string) (data : content)
| ESavePdf (path : string).

Record World := mkWorld {
  files : gmap string content;   (* the working directory *)
  trace : list event;            (* what happened, oldest first *)
  draws : nat                    (* random numbers consumed so far *)
}.

Definition is_generate (e : event) : bool :=
  match e with EGenerate _ _ _ => true | _ => false end.

Definition is_save (e : event) : bool :=
  match e with ESavePdf _ => true | _ => false end.

(** Number of requests sent to the model service so far. *)
Definition requests (w : World) : nat :=
  length (List.filter is_generate (trace w)).

Definition log (e : event) (w : World) : World :=
  {| files := files w; trace := trace w ++ [e]; draws := draws w |}.

Definition store (path : string) (c : content) (w : World) : World :=
  {| files := <[path := c]> (files w); trace := trace w; draws := draws w |}.

Definition consume (n : nat) (w : World) : World :=
  {| files := files w; trace := trace w; draws := draws w + n |}.

(** Computations: they read and change the world and return or raise. *)
Definition M (A : Type) : Type := World → result A * World.

#[global] Instance M_ret : MRet M := λ A a w, (Ok a, w).

#[global] Instance M_bind : MBind M := λ A B f m w,
  match m w with
  | (Ok a, w') => f a w'
  | (Raise e, w') => (Raise e, w')
  end.

Definition raise {A} (e : exn) : M A := λ w, (Raise e, w).

(** [try: body  except: handler] with a bare [except]. *)
Definition try_except {A} (body handler : M A) : M A := λ w,
  match body w with
  | (Ok a, w') => (Ok a, w')
  | (Raise _, w') => handler w'
  end.

(** The outcome of a computation as a value (for [try] with [break]). *)
Definition attempt {A} (body : M A) : M (result A) := λ w,
  let '(r, w') := body w in (Ok r, w').

Definition lift {A} (r : result A) : M A := λ w, (r, w).

Definition print (line : string) : M unit := λ w, (Ok tt, log (EPrint line) w).

Definition sleep (seconds : nat) : M unit := λ w, (Ok tt, log (ESleep seconds) w).

(** [os.path.exists] *)
Definition path_exists (path : string) : M bool := λ w,
  (Ok (bool_decide (is_Some (files w !! path))), w).

(** [open(path).read()] *)
Definition read_file (path : string) : M content := λ w,
  match files w !! path with
  | Some c => (Ok c, w)
  | None => (Raise (FileNotFoundError path), w)
  end.

(* ================================================================== *)
(** ** The collaborators *)
(* ================================================================== *)

Record datetime := mkDatetime {
  year : nat; month : nat; day : nat;
  hour : nat; minute : nat; second : nat
}.

(** What argparse does with a command line, for a parser whose options
    are all required and take one text: every option has a value, the help
    message is shown, or the usage is wrong. *)
Inductive parsed :=
| Parsed (value : string → string)
| HelpShown
| UsageError.

Record Env := mkEnv {
  (** [datetime.now()] when the module is loaded *)
  now : datetime;
  (** the pandas readers, on the bytes of the file *)
  pd_read_csv : content → result DataFrame;
  pd_read_parquet : content → result DataFrame;
  pd_read_json : content → result DataFrame;
  (** what the callback ["{:.2f}".format(x)] does on a cell *)
  format_cell : value → result string;
  (** the text numpy writes for a float of a given dtype *)
  float_repr : dtype → spec_float → string;
  (** the random generator behind [df.sample] *)
  random : nat → nat;
  (** the model service: outcome of request number [k] *)
  generate_content_at : nat → GenerativeModel → string → content → result GenerateContentResponse;
  (** [str(uuid.uuid4())], from the random draw number *)
  uuid4_at : nat → string;
  (** the renderer: [add_section] and [save] return or raise *)
  pdf_initial_meta : gmap string string;
  pdf_add_section : PdfSection → result unit;
  pdf_save : MarkdownPdf → string → result unit;
  (** argparse: the help message, and what it does with the command
      lines whose treatment depends on the Python release *)
  format_help : string;
  argparse_other : list string → parsed
}.

(** [now.strftime("%Y-%m-%d - %H:%M:%S")] *)
Definition strftime (d : datetime) : string :=
  Py.zfill 4 (year d) +:+ "-" +:+ Py.zfill 2 (month d) +:+ "-" +:+ Py.zfill 2 (day d)
    +:+ " - " +:+ Py.zfill 2 (hour d) +:+ ":" +:+ Py.zfill 2 (minute d) +:+ ":"
    +:+ Py.zfill 2 (second d).

(** ["{:.2f}".format(x)] as CPython evaluates it: floats, and the integer
    types that convert to float, are rendered; text and None are refused. *)
Definition python_format (v : value) : result string :=
  match v with
  | VFloat x => Ok (format_2f x)
  | VInt z => Ok (str_Z z +:+ ".00")
  | VBool b => Ok (if b then "1.00" else "0.00")
  | VStr _ => Raise (ValueError "Unknown format code 'f' for object of type 'str'")
  | VNone => Raise (TypeError "unsupported format string passed to NoneType.__format__")
  end.

(* ================================================================== *)
(** ** Module-level settings *)
(* ================================================================== *)

Definition generation_config : list (string * string) :=
  [ ("temperature", "1"); ("top_p", "0.95"); ("top_k", "0");
    ("max_output_tokens", "8192") ].

Definition safety_settings : list (string * string) :=
  [ ("HARM_CATEGORY_HARASSMENT", "BLOCK_ONLY_HIGH");
    ("HARM_CATEGORY_HATE_SPEECH", "BLOCK_ONLY_HIGH");
    ("HARM_CATEGORY_SEXUALLY_EXPLICIT", "BLOCK_ONLY_HIGH");
    ("HARM_CATEGORY_DANGEROUS_CONTENT", "BLOCK_ONLY_HIGH") ].

(** [genai.GenerativeModel(model_name="gemini-1.5-pro-latest", ...)] *)
Definition gemini : GenerativeModel :=
  mkModel "gemini-1.5-pro-latest" generation_config safety_settings.

Definition intermediate_path : string := "file_to_analyze.csv".

Definition prompt1 : string :=
  "Explains this CSV file and all its columns. Indicates the potential uses of this data and which columns could cause problems. Do not show the results in any table.".

Definition prompt2 : string :=
  "Discuss the pros and cons of different data visualization techniques for data analysis of this csv file in Python. Select only the ones you think are relevant.".

Definition prompt3 : string :=
  "Explain how to optimize missing data, outliers, and duplicate data in pandas using best coding practices.".

Definition retry_message : string :=
  "Error: The model is not working properly. Retrying the connection...".

Definition fatal_message : string :=
  "The model is not working properly. Try again later.".

Definition part_message : string :=
  "Error: The model is not working properly. A part of the report could not be created.".

Definition missing2 : string :=
  "Missing part: Data visualization techniques for data analysis of this file.".

Definition missing3 : string :=
  "Missing part: Optimize missing data analysis performance in pandas.".

Definition sample_error : string :=
  "Cannot take a larger sample than population when 'replace=False'".

(* ================================================================== *)
(** ** The program *)
(* ================================================================== *)

Section Program.

Context (E : Env).

Definition actual_date : string := strftime (now E).

(** *** check_file_type *)

(** A pandas reader applied to the file at [path]. *)
Definition read_with (reader : content → result DataFrame) (path : string) : M DataFrame :=
  c ← read_file path; lift (reader c).

(** [pd.read_avro(path)]: pandas has no such function, so looking the
    name up raises before anything is read. *)
Definition pd_read_avro (path : string) : M DataFrame :=
  raise (AttributeError "module 'pandas' has no attribute 'read_avro'").

(** [df[col].apply(lambda x: "{:.2f}".format(x))]: the callback runs on
    every cell; the new column holds the texts. *)
Fixpoint apply_cells (vs : list value) : result (list string) :=
  match vs with
  | [] => Ok []
  | v :: vs' =>
      match format_cell E v with
      | Raise e => Raise e
      | Ok t =>
          match apply_cells vs' with
          | Raise e => Raise e
          | Ok ts => Ok (t :: ts)
          end
      end
  end.

Definition series_apply (s : Series) : result Series :=
  match apply_cells (series_values s) with
  | Ok ts => Ok (SObject (Some <$> ts))
  | Raise e => Raise e
  end.

(** What the callback raises when it is given a whole column: a Series
    does not take the format [.2f]. *)
Definition series_format_error : exn :=
  TypeError "unsupported format string passed to Series.__format__".

(** The body of the [for] loop over the float64 labels.  [df] is changed
    in place, one column per iteration, so the frame left behind by an
    exception holds the columns assigned before it.  When the label names
    several columns, [df[col]] is a DataFrame and its [apply] hands the
    callback each column, which the callback refuses; on a table without
    rows [apply] does not call it and the columns stay as they are. *)
Fixpoint format_loop (labels : list string) (df : DataFrame) : DataFrame * result unit :=
  match labels with
  | [] => (df, Ok tt)
  | col :: rest =>
      match getitem df col with
      | [] => (df, Raise (LibraryError col))
      | [s] =>
          match series_apply s with
          | Ok s' => format_loop rest (setitem df col s')
          | Raise e => (df, Raise e)
          end
      | _ :: _ :: _ =>
          if nrows df =? 0 then format_loop rest df
          else (df, Raise series_format_error)
      end
  end.

(** [try: for col in ...: df[col] = ...  except: print(...)] *)
Definition format_floats (df : DataFrame) : M DataFrame :=
  let '(df', r) := format_loop (float64_columns df) df in
  match r with
  | Ok _ => mret df'
  | Raise _ => print "Cannot format float values.";; mret df'
  end.

(** [df.sample(n)] *)
Definition sample (df : DataFrame) (n : nat) : M DataFrame := λ w,
  if nrows df <? n then (Raise (ValueError sample_error), w)
  else (Ok (df_iloc (choose (random E) (draws w) n (seq 0 (nrows df))) df),
        consume n w).

(** [df.to_csv(path, sep=sep, index=False)] *)
Definition to_csv (df : DataFrame) (path sep : string) : M unit := λ w,
  (Ok tt, store path (CsvText (to_csv_text (float_repr E) df sep)) w).

Definition check_file_type (file_name : string) : M unit :=
  found ← path_exists file_name;
  df ← (if negb found then
          raise (FileNotFoundError ("File " +:+ file_name +:+ " not found"))
        else if Py.endswith file_name ".csv" then read_with (pd_read_csv E) file_name
        else if Py.endswith file_name ".parquet" then read_with (pd_read_parquet E) file_name
        else if Py.endswith file_name ".avro" then pd_read_avro file_name
        else if Py.endswith file_name ".json" then read_with (pd_read_json E) file_name
        else raise (ValueError ("File type " +:+ file_name +:+ " not supported")));
  let df := dropna df in
  df ← format_floats df;
  df ← sample df 250;
  to_csv df intermediate_path ",".

(** *** generate_pdf *)

Definition add_section (pdf : MarkdownPdf) (s : PdfSection) : M MarkdownPdf :=
  lift (pdf_add_section E s);;
  mret {| toc_level := toc_level pdf; sections := sections pdf ++ [s]; meta := meta pdf |}.

Definition set_meta (pdf : MarkdownPdf) (key val : string) : MarkdownPdf :=
  {| toc_level := toc_level pdf; sections := sections pdf;
     meta := <[key := val]> (meta pdf) |}.

Definition uuid4 : M string := λ w,
  (Ok (uuid4_at E (draws w)), consume 1 w).

Definition write_pdf (pdf : MarkdownPdf) (path : string) : M unit := λ w,
  (Ok tt, log (ESavePdf path) (store path (PdfDoc pdf) w)).

Definition save (pdf : MarkdownPdf) (path : string) : M unit :=
  lift (pdf_save E pdf path);;
  write_pdf pdf path.

Definition generate_pdf (file_name text_md : string) : M string :=
  let pdf := {| toc_level := 2; sections := []; meta := pdf_initial_meta E |} in
  pdf ← add_section pdf (mkSection text_md false);
  let pdf := set_meta pdf "title" ("Analysis of " +:+ file_name) in
  id4 ← uuid4;
  let file_pdf := "data-analysis-" +:+ id4 +:+ ".pdf" in
  save pdf file_pdf;;
  mret file_pdf.

(** *** explain_file *)

Definition configure (api_key : string) : M unit := λ w,
  (Ok tt, log (EConfigure api_key) w).

(** [model.generate_content([prompt, csv_data])]: one request. *)
Definition generate_content (model : GenerativeModel) (prompt : string) (csv_data : content)
  : M GenerateContentResponse := λ w,
  (generate_content_at E (requests w) model prompt csv_data,
   log (EGenerate model prompt csv_data) w).

(** [response.text] *)
Definition response_text (response : GenerateContentResponse) : M string :=
  match text response with
  | Some t => mret t
  | None => raise (ValueError "response.text")
  end.

(** The [while response_try != 0] loop.  It returns the counter and the
    response variable as the loop leaves them. *)
Fixpoint first_request (model : GenerativeModel) (csv_data : content) (response_try : nat)
  : M (nat * option GenerateContentResponse) :=
  match response_try with
  | O => mret (0, None)
  | S n =>
      r ← attempt (generate_content model prompt1 csv_data);
      match r with
      | Ok response => mret (response_try, Some response)
      | Raise _ =>
          print retry_message;;
          sleep 5;;
          first_request model csv_data n
      end
  end.

Definition header (file_name : string) : string :=
  let file_name_formatted := Py.split_head file_name "/" in
  "<div style=" +:+ Py.quote +:+ "text-align: right" +:+ Py.quote +:+ "> "
    +:+ actual_date +:+ " </div><br>"
    +:+ "<div style=" +:+ Py.quote +:+ "font-style: italic" +:+ Py.quote +:+ "> "
    +:+ file_name_formatted +:+ " </div>" +:+ Py.nl +:+ Py.nl
    +:+ "__________"
    +:+ Py.nl +:+ Py.nl.

Definition explain_file (file_name google_api_key : string) : M string :=
  configure google_api_key;;
  csv_data ← read_file intermediate_path;
  let model := gemini in
  '(response_try, response) ← first_request model csv_data 3;
  (if decide (response_try = 0) then raise (Exception_ fatal_message) else mret tt);;
  response ← match response with
             | Some r => mret r
             | None => raise (NameError "response")
             end;
  let text_md := header file_name in
  t ← response_text response;
  let text_md := text_md +:+ " " +:+ Py.replace t "CSV" EmptyString in
  text_md ← try_except
    (print "Generating data visualization techniques for data analysis of this file...";;
     response ← generate_content model prompt2 csv_data;
     t ← response_text response;
     mret (text_md +:+ Py.nl +:+ Py.replace t "CSV" EmptyString))
    (print part_message;;
     print missing2;;
     mret text_md);
  text_md ← try_except
    (print "Generating data optimization report in pandas...";;
     response ← generate_content model prompt3 csv_data;
     t ← response_text response;
     mret (text_md +:+ Py.nl +:+ Py.replace t "CSV" EmptyString))
    (print part_message;;
     print missing3;;
     mret text_md);
  mret text_md.

(** *** data_analyzer *)

Definition data_analyzer (file_name google_api_key : string) : M unit :=
  print "Analyzing the format of the file...";;
  check_file_type file_name;;
  print "File type analyzed successfully.";;
  print "Analyzing the data of the file. This may take a few minutes...";;
  text_md ← explain_file file_name google_api_key;
  print "File data analyzed successfully.";;
  print "Generating the report...";;
  file_report ← generate_pdf file_name text_md;
  print "Report generated successfully.";;
  print ("Report " +:+ file_report +:+ " saved in the current directory.").

End Program.

(* ================================================================== *)
(** ** The command line *)
(* ================================================================== *)

(** [str.lstrip("-")] *)
Fixpoint lstrip_dash (s : string) : string :=
  match s with
  | String "-" s' => lstrip_dash s'
  | _ => s
  end.

(** The attribute argparse stores an option under: the option string
    without its leading dashes, inner dashes turned into underscores. *)
Definition dest (flag : string) : string :=
  Py.replace (lstrip_dash flag) "-" "_".

(** The options declared with [add_argument(flag, type=str, required=True)],
    in the order of the source.  argparse adds [-h] and [--help]. *)
Definition parser : list string := [ "--file_name"; "--api_key" ].

Definition long_options (parser : list string) : list string := "--help" :: parser.

(** How argparse reads one argument string: a value, the help option, a
    declared option (each with the text after [=] when there is one), or
    an option it does not know. *)
Inductive arg_class :=
| AValue (s : string)
| AHelp (explicit : option string)
| AStore (flag : string) (explicit : option string)
| AUnknown.

(** [s.split("=", 1)] *)
Fixpoint split_eq (s : string) : string * option string :=
  match s with
  | EmptyString => (EmptyString, None)
  | String c s' =>
      if Ascii.eqb c "=" then (EmptyString, Some s')
      else let '(p, e) := split_eq s' in (String c p, e)
  end.

Definition is_digit (c : ascii) : bool :=
  let n := nat_of_ascii c in (48 <=? n) && (n <=? 57).

(** An argument that starts with two dashes: the part before [=] names a
    declared option, in full or by a prefix that fits one option only
    (abbreviations are allowed by default); failing that the argument is a
    value when it holds a space and an unknown option otherwise.  A prefix
    that fits several options is left to [argparse_other]. *)
Definition classify_long (parser : list string) (s : string) : option arg_class :=
  let '(p, e) := split_eq s in
  let action := λ o, if String.eqb o "--help" then AHelp e else AStore o e in
  if existsb (String.eqb p) (long_options parser) then Some (action p)
  else match filter (λ o, Py.startswith o p = true) (long_options parser) with
       | [o] => Some (action o)
       | [] => Some (if Py.contains s " " then AValue s else AUnknown)
       | _ => None
       end.

(** An argument that starts with one dash: [-h] is the help option;
    [-h] followed by more characters and arguments that may be read as
    negative numbers are left to [argparse_other]; the others are values
    when they hold a space and unknown options otherwise. *)
Definition classify_short (s : string) (c : ascii) : option arg_class :=
  if String.eqb s "-h" then Some (AHelp None)
  else if Ascii.eqb c "h" || is_digit c || Ascii.eqb c "." then None
  else Some (if Py.contains s " " then AValue s else AUnknown).

(** The separator [--] is left to [argparse_other]; the empty argument, a
    lone dash and every argument that does not start with a dash are
    values. *)
Definition classify (parser : list string) (s : string) : option arg_class :=
  if String.eqb s "--" then None
  else match s with
       | String "-" (String "-" _) => classify_long parser s
       | String "-" (String c _) => classify_short s c
       | _ => Some (AValue s)
       end.

(** Where the scan of the arguments ends. *)
Inductive arg_scan :=
| Scanned (ns : gmap string string) (extras : bool)
| ScanHelp
| ScanError.

(** The arguments are taken from left to right.  A declared option takes
    the text after its [=], or else the next argument, which must be a
    value; a later occurrence replaces an earlier one.  The help option
    ends the scan where it stands, and is an error when it is given a
    text.  Values that no option takes and unknown options are kept as
    extras. *)
Fixpoint consume_args (args : list arg_class) (ns : gmap string string) (extras : bool) : arg_scan :=
  match args with
  | [] => Scanned ns extras
  | AValue _ :: rest => consume_args rest ns true
  | AUnknown :: rest => consume_args rest ns true
  | AHelp None :: _ => ScanHelp
  | AHelp (Some _) :: _ => ScanError
  | AStore flag (Some v) :: rest => consume_args rest (<[dest flag := v]> ns) extras
  | AStore flag None :: AValue v :: rest => consume_args rest (<[dest flag := v]> ns) extras
  | AStore _ None :: _ => ScanError
  end.

(** What [parse_args] ends with. *)
Inductive parse_result :=
| Namespace (ns : gmap string string)
| Help
| Usage.

(** After the scan: a required option that was not given, or an extra
    argument, is a usage error. *)
Definition finish (parser : list string) (s : arg_scan) : parse_result :=
  match s with
  | Scanned ns extras =>
      if extras then Usage
      else if forallb (λ flag, bool_decide (is_Some (ns !! dest flag))) parser
           then Namespace ns
           else Usage
  | ScanHelp => Help
  | ScanError => Usage
  end.

Definition argparse_core (parser : list string) (argv : list string) : option parse_result :=
  args ← mapM (classify parser) argv;
  Some (finish parser (consume_args args ∅ false)).

(** The namespace in which every declared option has a value. *)
Definition namespace_of (parser : list string) (value : string → string)
  : gmap string string :=
  list_to_map ((λ flag, (dest flag, value flag)) <$> parser).

Definition outcome_of (parser : list string) (p : parsed) : parse_result :=
  match p with
  | Parsed value => Namespace (namespace_of parser value)
  | HelpShown => Help
  | UsageError => Usage
  end.

(** [parser.parse_args()] on the arguments [argv] ([sys.argv[1:]]).  The
    help message goes to the standard output and ends the process with
    status 0; a usage error ends it with status 2 (its message goes to
    the standard error, which the world does not record). *)
Definition parse_args (E : Env) (parser : list string) (argv : list string)
  : M (gmap string string) :=
  match default (outcome_of parser (argparse_other E argv)) (argparse_core parser argv) with
  | Namespace ns => mret ns
  | Help => print (format_help E);; raise (SystemExit 0)
  | Usage => raise (SystemExit 2)
  end.

(** [args.name] *)
Definition getattr (args : gmap string string) (name : string) : M string :=
  match args !! name with
  | Some v => mret v
  | None => raise (AttributeError
      ("'Namespace' object has no attribute '" +:+ name +:+ "'"))
  end.

(** The block under [if __name__ == "__main__":].  The two attribute reads
    are the arguments of the call and are evaluated before it. *)
Definition main (E : Env) (argv : list string) : M unit :=
  args ← parse_args E parser argv;
  file_name ← getattr args "file_name";
  google_api_key ← getattr args "google_api_key";
  data_analyzer E file_name google_api_key;;
  let model := gemini in
  mret tt.

(* ================================================================== *)
(** ** Vocabulary of the statements *)
(* ================================================================== *)

(** The world after the events [es] were appended to the trace. *)
Definition logs (es : list event) (w : World) : World :=
  {| files := files w; trace := trace w ++ es; draws := draws w |}.

(** What one failed attempt of the first request leaves in the trace. *)
Definition failed_attempt (csv_data : content) : list event :=
  [EGenerate gemini prompt1 csv_data; EPrint retry_message; ESleep 5].


Definition is_print (e : event) : bool :=
  match e with EPrint _ => true | _ => false end.

Definition supported_extensions : list string :=
  [".csv"; ".parquet"; ".avro"; ".json"].

Definition supported (file_name : string) : bool :=
  existsb (Py.endswith file_name) supported_extensions.

(** [v] spells the extension [ext] with at least one letter in upper case. *)
Definition case_variant (v ext : string) : Prop :=
  Py.lower v = ext ∧ v ≠ ext.

(** What the branch of [.avro] files does with the content of a file:
    it raises, pandas having no [read_avro]. *)
Definition no_read_avro : content → result DataFrame :=
  λ _, Raise (AttributeError "module 'pandas' has no attribute 'read_avro'").

(** The reader the chain of [endswith] tests selects. *)
Definition reader_of (E : Env) (file_name : string) : option (content → result DataFrame) :=
  if Py.endswith file_name ".csv" then Some (pd_read_csv E)
  else if Py.endswith file_name ".parquet" then Some (pd_read_parquet E)
  else if Py.endswith file_name ".avro" then Some no_read_avro
  else if Py.endswith file_name ".json" then Some (pd_read_json E)
  else None.

(** The file exists, has a supported extension, and its reader returns the
    table [df]. *)
Definition loads (E : Env) (file_name : string) (w : World) (df : DataFrame) : Prop :=
  ∃ c reader, files w !! file_name = Some c
    ∧ reader_of E file_name = Some reader
    ∧ reader c = Ok df.

(** The document [generate_pdf] hands to [save], and the name it picks. *)
Definition report_document (E : Env) (file_name text_md : string) : MarkdownPdf :=
  {| toc_level := 2;
     sections := [mkSection text_md false];
     meta := <["title" := "Analysis of " +:+ file_name]> (pdf_initial_meta E) |}.

Definition report_path (E : Env) (w : World) : string :=
  "data-analysis-" +:+ uuid4_at E (draws w) +:+ ".pdf".

(** What the loader does once the reader has returned [df]: the value and
    the world it ends with. *)
Definition loader_outcome (E : Env) (w : World) (df : DataFrame) : result unit * World :=
  let d := dropna df in
  let '(d', r) := format_loop E (float64_columns d) d in
  let w1 := match r with
            | Ok _ => w
            | Raise _ => log (EPrint "Cannot format float values.") w
            end in
  if nrows d' <? 250 then (Raise (ValueError sample_error), w1)
  else (Ok tt,
        store intermediate_path
          (CsvText (to_csv_text (float_repr E)
             (df_iloc (choose (random E) (draws w1) 250 (seq 0 (nrows d'))) d') ","))
          (consume 250 w1)).

(** The text an optional request contributes: none when the call raises
    or the text of the response cannot be read. *)
Definition section_text (r : result GenerateContentResponse) : option string :=
  match r with
  | Ok response => text response
  | Raise _ => None
  end.

(** The text with one more section: a line feed, then [t] with "CSV"
    removed, when there is a text [t]. *)
Definition append_section (text_md : string) (o : option string) : string :=
  match o with
  | Some t => text_md +:+ Py.nl +:+ Py.replace t "CSV" EmptyString
  | None => text_md
  end.

(** The trace of one optional request. *)
Definition optional_events (announce missing prompt : string) (csv_data : content)
    (o : option string) : list event :=
  [EPrint announce; EGenerate gemini prompt csv_data]
    ++ match o with
       | Some _ => []
       | None => [EPrint part_message; EPrint missing]
       end.

Definition announce2 : string :=
  "Generating data visualization techniques for data analysis of this file...".

Definition announce3 : string :=
  "Generating data optimization report in pandas...".

(** The stages of [data_analyzer], each applied to the outcome of the one
    before it. *)
Definition after_report (r : result string * World) : result unit * World :=
  match r with
  | (Ok file_report, w) =>
      (Ok tt, logs [EPrint "Report generated successfully.";
                    EPrint ("Report " +:+ file_report +:+ " saved in the current directory.")] w)
  | (Raise e, w) => (Raise e, w)
  end.

Definition after_analysis (E : Env) (file_name : string) (r : result string * World)
  : result unit * World :=
  match r with
  | (Ok text_md, w) =>
      after_report
        (generate_pdf E file_name text_md
           (logs [EPrint "File data analyzed successfully.";
                  EPrint "Generating the report..."] w))
  | (Raise e, w) => (Raise e, w)
  end.

Definition after_loading (E : Env) (file_name key : string) (r : result unit * World)
  : result unit * World :=
  match r with
  | (Ok _, w) =>
      after_analysis E file_name
        (explain_file E file_name key
           (logs [EPrint "File type analyzed successfully.";
                  EPrint "Analyzing the data of the file. This may take a few minutes..."] w))
  | (Raise e, w) => (Raise e, w)
  end.


(** What the loader may change: it prints, it may write the intermediate
    file when it returns, and it leaves the directory as it was when it
    raises. *)
Definition loader_frame (w : World) (r : result unit) (w' : World) : Prop :=
  (∃ ps, trace w' = trace w ++ ps ∧ forallb is_print ps = true)
  ∧ (∀ p, p ≠ intermediate_path → files w' !! p = files w !! p)
  ∧ match r with
    | Ok _ => is_Some (files w' !! intermediate_path)
    | Raise _ => files w' = files w
    end.

(** The progress lines [data_analyzer] prints before each stage. *)
Definition pipeline_prints : list event :=
  [EPrint "Analyzing the format of the file..."].

Definition analysis_prints : list event :=
  [EPrint "File type analyzed successfully.";
   EPrint "Analyzing the data of the file. This may take a few minutes..."].




(** A table of [n] rows in which every column has [n] cells and no cell is
    missing. *)
Definition tidy (n : nat) (df : DataFrame) : Prop :=
  length (index df) = n
  ∧ Forall (λ c : string * Series,
      length (series_values c.2) = n
      ∧ Forall (λ v, isna v = false) (series_values c.2)) (columns df).

(** A row position at which the table has a row label and every column a
    cell. *)
Definition in_range (df : DataFrame) (p : nat) : Prop :=
  p < nrows df
  ∧ Forall (λ c : string * Series, p < length (series_values c.2)) (columns df).

(** The row positions [dropna] keeps. *)
Definition kept (df : DataFrame) : list nat :=
  filter (λ i, row_complete df i = true) (seq 0 (nrows df)).

(** The label names more than one column of the table. *)
Definition duplicated (df : DataFrame) (name : string) : bool :=
  1 <? length (filter (λ c : string * Series, c.1 = name) (columns df)).

(** The float64 labels the formatting loop assigns before it stops, and
    how the loop ends, on a table [df] that has rows: it goes through the
    float64 columns [cols] in order and stops at the first one whose label
    names several columns of [df], or on which the callback raises. *)
Fixpoint assigned (E : Env) (df : DataFrame) (cols : list (string * Series))
  : list string * result unit :=
  match cols with
  | [] => ([], Ok tt)
  | c :: rest =>
      if decide (series_dtype c.2 = float64) then
        if duplicated df c.1 then ([], Raise series_format_error)
        else
          match series_apply E c.2 with
          | Ok _ => let '(done, r) := assigned E df rest in (c.1 :: done, r)
          | Raise e => ([], Raise e)
          end
      else assigned E df rest
  end.

(** A column after the loop: replaced by the texts when its label was
    assigned, as loaded otherwise. *)
Definition assign (E : Env) (done : list string) (c : string * Series) : string * Series :=
  if decide (c.1 ∈ done) then
    match series_apply E c.2 with
    | Ok s => (c.1, s)
    | Raise _ => c
    end
  else c.

(** A field after the loop: the text the callback returned for the cell
    when the label of its column was assigned, the text [to_csv] writes
    for the value as loaded otherwise. *)
Definition cell_after (E : Env) (done : list string) (c : string * Series) (i : nat) : string :=
  if decide (c.1 ∈ done) then
    match format_cell E (cell c.2 i) with
    | Ok t => t
    | Raise _ => field (float_repr E) c.2 i
    end
  else field (float_repr E) c.2 i.

Definition rows_after (E : Env) (done : list string) (df : DataFrame) : list (list string) :=
  (λ i, (λ c, cell_after E done c i) <$> columns df) <$> seq 0 (nrows df).

#[global] Instance spec_float_eq_dec : EqDecision spec_float.
Proof. solve_decision. Defined.

#[global] Instance value_eq_dec : EqDecision value.
Proof. solve_decision. Defined.

(** C7 as the specification words it: every floating-point cell of the
    intermediate file is the two-decimal text of its value, unless the
    formatting step fails, in which case a message is printed and every
    cell is written as loaded. *)
Definition floating (s : Series) : bool :=
  match s with
  | SFloat64 _ | SFloat32 _ => true
  | _ => false
  end.

Definition rendered (E : Env) (s : Series) (i : nat) : string :=
  match cell s i with
  | VFloat x => format_2f x
  | _ => field (float_repr E) s i
  end.

Definition rows_rendered (E : Env) (df : DataFrame) : list (list string) :=
  (λ i, (λ c : string * Series,
           if floating c.2 then rendered E c.2 i else field (float_repr E) c.2 i)
          <$> columns df)
    <$> seq 0 (nrows df).

(** The records of a table as values, and as [to_csv] writes them. *)
Definition rows_loaded (df : DataFrame) : list (list value) :=
  row_at df <$> seq 0 (nrows df).

Definition rows_written (E : Env) (df : DataFrame) : list (list string) :=
  fields_at (float_repr E) df <$> seq 0 (nrows df).

Definition formatting_claim (E : Env) (file_name : string) (w : World) : Prop :=
  ∀ df w' artifact,
    loads E file_name w df →
    check_file_type E file_name w = (Ok tt, w') →
    files w' !! intermediate_path = Some (CsvText artifact) →
    let d := dropna df in
    match (format_loop E (float64_columns d) d).2 with
    | Ok _ => Forall (λ r, r ∈ rows_rendered E d) (csv_records artifact)
    | Raise _ =>
        EPrint "Cannot format float values." ∈ trace w'
        ∧ Forall (λ r, r ∈ rows_written E d) (csv_records artifact)
    end.

(** The intermediate file a run of the loader leaves, if any. *)
Definition artifact_of (w : World) : csv :=
  match files w !! intermediate_path with
  | Some (CsvText c) => c
  | _ => mkCsv EmptyString [] []
  end.

(** A scanner for the text "CSV": the state counts how many characters of
    it have just been read, 3 meaning that it has been seen. *)
Definition csv_step (q : nat) (c : ascii) : nat :=
  if q =? 3 then 3
  else if Ascii.eqb c "C" then 1
  else if (q =? 1) && Ascii.eqb c "S" then 2
  else if (q =? 2) && Ascii.eqb c "V" then 3
  else 0.

Fixpoint scan (q : nat) (s : string) : nat :=
  match s with
  | EmptyString => q
  | String c s' => scan (csv_step q c) s'
  end.

(** A response in which no removal of "CSV" can bring a "C" or a "CS" in
    front of what completes it. *)
Definition csv_safe (r : string) : Prop :=
  Py.contains r "CCSV" = false ∧ Py.contains r "CSCSV" = false.

(** What the scan of a response may still need when the text produced so
    far ends with "C" (state 1) or "CS" (state 2). *)
Definition compatible (q : nat) (r : string) : Prop :=
  match q with
  | 1 => Py.startswith r "SV" = false ∧ Py.startswith r "CSV" = false
         ∧ Py.startswith r "SCSV" = false
  | 2 => Py.startswith r "V" = false ∧ Py.startswith r "CSV" = false
  | _ => True
  end.

(** Text in which none of the letters C, S, V occurs. *)
Fixpoint plain (s : string) : bool :=
  match s with
  | EmptyString => true
  | String c s' =>
      negb (Ascii.eqb c "C") && negb (Ascii.eqb c "S") && negb (Ascii.eqb c "V")
        && plain s'
  end.

(** Text after which the scanner is back in its initial state. *)
Definition guarded (s : string) : Prop := ∀ q, q ≠ 3 → scan q s = 0.

(** C5 as the specification words it. *)
Definition csv_claim (E : Env) (file_name key : string) (w : World) : Prop :=
  ∀ t w', explain_file E file_name key w = (Ok t, w') → Py.contains t "CSV" = false.

(** The fixed parts of the header, around the date and the file label. *)
Definition header_open : string :=
  "<div style=" +:+ Py.quote +:+ "text-align: right" +:+ Py.quote +:+ "> ".

Definition header_middle : string :=
  " </div><br>" +:+ "<div style=" +:+ Py.quote +:+ "font-style: italic"
    +:+ Py.quote +:+ "> ".

Definition header_close : string :=
  " </div>" +:+ Py.nl +:+ Py.nl +:+ "__________" +:+ Py.nl +:+ Py.nl.

(* ================================================================== *)
(** ** Concrete collaborators and inputs *)
(* ================================================================== *)

(** 1.5, 0.125 and 2.0 as float64 values. *)
Definition f_1_5 : spec_float := S754_finite false 3 (-1).
Definition f_0_125 : spec_float := S754_finite false 1 (-3).
Definition f_2 : spec_float := S754_finite false 1 1.

(** A table of [n] equal rows: two float64 columns, a float32 column, an
    integer column and a text column. *)
Definition table (n : nat) : DataFrame :=
  {| index := seq 0 n;
     columns :=
       [ ("price", SFloat64 (replicate n f_1_5));
         ("ratio", SFloat64 (replicate n f_0_125));
         ("weight", SFloat32 (replicate n f_2));
         ("count", SInt64 (replicate n 7%Z));
         ("label", SObject (replicate n (Some "a"))) ] |}.

(** The same table with a missing label in its first row. *)
Definition table_with_gap (n : nat) : DataFrame :=
  {| index := seq 0 (S n);
     columns :=
       [ ("price", SFloat64 (replicate (S n) f_1_5));
         ("ratio", SFloat64 (replicate (S n) f_0_125));
         ("weight", SFloat32 (replicate (S n) f_2));
         ("count", SInt64 (replicate (S n) 7%Z));
         ("label", SObject (None :: replicate n (Some "a"))) ] |}.

(** A table in which the label of the second float64 column also names an
    integer column. *)
Definition table_dup (n : nat) : DataFrame :=
  {| index := seq 0 n;
     columns :=
       [ ("price", SFloat64 (replicate n f_1_5));
         ("ratio", SFloat64 (replicate n f_0_125));
         ("ratio", SInt64 (replicate n 7%Z));
         ("label", SObject (replicate n (Some "a"))) ] |}.

(** The texts numpy writes for the floats of these tables. *)
Definition float_text (dt : dtype) (x : spec_float) : string :=
  match x with
  | S754_finite false 3 (-1) => "1.5"
  | S754_finite false 1 (-3) => "0.125"
  | S754_finite false 1 1 => "2.0"
  | _ => "0.0"
  end.

Definition help_text : string :=
  "usage: data_analyer_main.py [-h] --file_name FILE_NAME --api_key API_KEY".

(** Model services: one that always answers with [t], one that never
    answers, one that answers the first request only. *)
Definition answers (t : string)
  : nat → GenerativeModel → string → content → result GenerateContentResponse :=
  λ _ _ _ _, Ok (mkResponse (Some t)).

Definition unavailable
  : nat → GenerativeModel → string → content → result GenerateContentResponse :=
  λ _ _ _ _, Raise (LibraryError "503 Service Unavailable").


Definition test_env (df : DataFrame) (fmt : value → result string)
    (service : nat → GenerativeModel → string → content → result GenerateContentResponse)
  : Env :=
  {| now := mkDatetime 2024 5 3 9 30 0;
     pd_read_csv := λ _, Ok df;
     pd_read_parquet := λ _, Ok df;
     pd_read_json := λ _, Ok df;
     format_cell := fmt;
     float_repr := float_text;
     random := λ k, 7 * k + 3;
     generate_content_at := service;
     uuid4_at := λ _, "1b4e28ba-2fa1-41d2-883f-0016d3cca427";
     pdf_initial_meta := ∅;
     pdf_add_section := λ _, Ok tt;
     pdf_save := λ _ _, Ok tt;
     format_help := help_text;
     argparse_other := λ _, UsageError |}.

(** A working directory holding one input file. *)
Definition disk (file_name : string) : World :=
  {| files := {[ file_name := Blob "raw bytes" ]}; trace := []; draws := 0 |}.

(** The working directory after the loader has run on [file_name]. *)
Definition loaded_disk (E : Env) (file_name : string) : World :=
  (check_file_type E file_name (disk file_name)).2.

(** The text of a run of [explain_file], empty when it raises. *)
Definition text_of (r : result string * World) : string :=
  match r.1 with
  | Ok t => t
  | Raise _ => EmptyString
  end.

(* ================================================================== *)
(** ** Vocabulary of the further properties *)
(* ================================================================== *)

(** Seconds spent in [time.sleep] by a list of events. *)
Fixpoint total_sleep (es : list event) : nat :=
  match es with
  | [] => 0
  | ESleep n :: es' => n + total_sleep es'
  | _ :: es' => total_sleep es'
  end.

(** The trace of [w'] is the trace of [w] followed by events that all
    satisfy [P], among them at most [g] requests and pauses of at most [s]
    seconds in total. *)
Definition emits (P : event → Prop) (g s : nat) (w w' : World) : Prop :=
  ∃ es, trace w' = trace w ++ es
    ∧ Forall P es
    ∧ length (List.filter is_generate es) ≤ g
    ∧ total_sleep es ≤ s.

(** [w'] comes from [w] by such events only: the directory and the random
    source are untouched. *)
Definition spends (P : event → Prop) (g s : nat) (w w' : World) : Prop :=
  files w' = files w ∧ draws w' = draws w ∧ emits P g s w w'.

(** A computation that stays within such a budget from every world. *)
Definition costs {A} (P : event → Prop) (g s : nat) (m : M A) : Prop :=
  ∀ w, spends P g s w (m w).2.

(** The events of the analyzer: progress lines, the configuration of the
    client, pauses of five seconds, and requests to the configured model
    that carry one of the three prompts and the intermediate file [o]. *)
Definition service_event (o : option content) (e : event) : Prop :=
  match e with
  | EPrint _ | EConfigure _ => True
  | ESleep n => n = 5
  | EGenerate model prompt data =>
      model = gemini ∧ o = Some data ∧ prompt ∈ [prompt1; prompt2; prompt3]
  | ESavePdf _ => False
  end.

(** The events of a whole run: a request goes to the configured model
    with one of the three prompts and the data [o]. *)
Definition pipeline_event (o : option content) (e : event) : Prop :=
  match e with
  | EGenerate model prompt data =>
      model = gemini ∧ o = Some data ∧ prompt ∈ [prompt1; prompt2; prompt3]
  | _ => True
  end.

(** Every column has one cell per row label. *)
Definition well_formed (df : DataFrame) : Prop :=
  Forall (λ c : string * Series, length (series_values c.2) = nrows df) (columns df).

(** A record in which no cell is missing. *)
Definition complete (r : list value) : bool :=
  forallb (λ v, negb (isna v)) r.

(** A collaborator set whose identifier stream gives a new value at every
    draw. *)
Definition counting_env (df : DataFrame)
    (service : nat → GenerativeModel → string → content → result GenerateContentResponse)
  : Env :=
  {| now := mkDatetime 2024 5 3 9 30 0;
     pd_read_csv := λ _, Ok df;
     pd_read_parquet := λ _, Ok df;
     pd_read_json := λ _, Ok df;
     format_cell := python_format;
     float_repr := float_text;
     random := λ k, 7 * k + 3;
     generate_content_at := service;
     uuid4_at := λ k, Py.zfill 8 k;
     pdf_initial_meta := ∅;
     pdf_add_section := λ _, Ok tt;
     pdf_save := λ _ _, Ok tt;
     format_help := help_text;
     argparse_other := λ _, UsageError |}.

(** Model services that fail [n] times before they answer: with the text
    [t], or with a response whose text cannot be read. *)
Definition answers_after (n : nat) (t : string)
  : nat → GenerativeModel → string → content → result GenerateContentResponse :=
  λ k _ _ _, if k <? n then Raise (LibraryError "503 Service Unavailable")
             else Ok (mkResponse (Some t)).

Definition blocked_after (n : nat)
  : nat → GenerativeModel → string → content → result GenerateContentResponse :=
  λ k _ _ _, if k <? n then Raise (LibraryError "503 Service Unavailable")
             else Ok (mkResponse None).

(** The number a text of decimal digits denotes, read from the left with
    the digits seen so far worth [acc]; none when a character is not a
    digit. *)
Fixpoint digits_value (acc : nat) (s : string) : option nat :=
  match s with
  | EmptyString => Some acc
  | String c s' =>
      if is_digit c then digits_value (10 * acc + (nat_of_ascii c - 48)) s' else None
  end.

Definition decimal_value (s : string) : option nat :=
  match s with
  | EmptyString => None
  | _ => digits_value 0 s
  end.

(* ================================================================== *)
(** ** Evaluations on small inputs *)
(* ================================================================== *)

Example replace_spec_example :
  Py.replace "A CSVfile..." "CSV" EmptyString = "A file...".
Proof. reflexivity. Qed.

Example replace_not_rescanned :
  Py.replace "CCSVSV" "CSV" EmptyString = "CSV".
Proof. reflexivity. Qed.

Example split_head_relative :
  Py.split_head "data/sales.csv" "/" = "data".
Proof. reflexivity. Qed.

Example split_head_absolute :
  Py.split_head "/tmp/sales.csv" "/" = EmptyString.
Proof. reflexivity. Qed.

Example endswith_case :
  Py.endswith "sales.csv" ".csv" = true ∧ Py.endswith "sales.CSV" ".csv" = false.
Proof. split; reflexivity. Qed.

Example zfill_example : Py.zfill 2 7 = "07" ∧ Py.zfill 4 2024 = "2024".
Proof. split; reflexivity. Qed.

Example format_2f_eighth : format_2f (S754_finite false 1 (-3)) = "0.12".
Proof. reflexivity. Qed.

Example format_2f_three_eighths : format_2f (S754_finite false 3 (-3)) = "0.38".
Proof. reflexivity. Qed.

Example format_2f_negative : format_2f (S754_finite true 5 (-1)) = "-2.50".
Proof. reflexivity. Qed.

Example format_2f_large : format_2f (S754_finite false 3 2) = "12.00".
Proof. reflexivity. Qed.

Example strftime_example :
  strftime (mkDatetime 2024 5 3 9 30 0) = "2024-05-03 - 09:30:00".
Proof. reflexivity. Qed.

Example empty_text_written_like_missing repr dt :
  render repr object (VStr EmptyString) = render repr dt VNone.
Proof. reflexivity. Qed.

(* ================================================================== *)
(** ** Worlds and computations *)
(* ================================================================== *)

Lemma logs_nil w : logs [] w = w.
Proof. destruct w. unfold logs. simpl. by rewrite app_nil_r. Qed.

Lemma logs_logs es1 es2 w : logs es2 (logs es1 w) = logs (es1 ++ es2) w.
Proof. unfold logs. simpl. by rewrite app_assoc. Qed.

Lemma log_logs e w : log e w = logs [e] w.
Proof. reflexivity. Qed.

Lemma requests_logs es w :
  requests (logs es w) = requests w + length (List.filter is_generate es).
Proof. unfold requests, logs. simpl. by rewrite List.filter_app, length_app. Qed.

Ltac mstep :=
  unfold mbind, M_bind, mret, M_ret, attempt, try_except, print, sleep, raise, lift;
  simpl.

(* ================================================================== *)
(** ** The loader, step by step *)
(* ================================================================== *)

Section Loader.

Context (E : Env).

Lemma loader_steps df w :
  (let (r, w') := format_floats E (dropna df) w in
   match r with
   | Ok d' =>
       let (r', w'') := sample E d' 250 w' in
       match r' with
       | Ok d'' => to_csv E d'' intermediate_path "," w''
       | Raise e => (Raise e, w'')
       end
   | Raise e => (Raise e, w')
   end) = loader_outcome E w df.
Proof.
  unfold loader_outcome, format_floats.
  destruct (format_loop E (float64_columns (dropna df)) (dropna df)) as [d' [[]|e]];
    mstep; unfold sample, to_csv; destruct (nrows d' <? 250); reflexivity.
Qed.

(** The loader as a decision list: missing file, unsupported extension,
    reader failure, or the outcome of the steps after the read. *)
Lemma check_file_type_unfold file_name w :
  check_file_type E file_name w =
    match files w !! file_name with
    | None => (Raise (FileNotFoundError ("File " +:+ file_name +:+ " not found")), w)
    | Some c =>
        match reader_of E file_name with
        | None => (Raise (ValueError ("File type " +:+ file_name +:+ " not supported")), w)
        | Some reader =>
            match reader c with
            | Raise e => (Raise e, w)
            | Ok df => loader_outcome E w df
            end
        end
    end.
Proof.
  unfold check_file_type, reader_of, path_exists. mstep.
  destruct (files w !! file_name) as [c|] eqn:Hc; simpl; [|reflexivity].
  repeat match goal with
         | |- context [Py.endswith ?f ?x] => destruct (Py.endswith f x)
         end;
    unfold read_with, read_file; mstep; rewrite ?Hc; try reflexivity;
    match goal with |- context [?rd E c] => destruct (rd E c) as [df|e] end;
    try reflexivity; apply loader_steps.
Qed.

End Loader.

(* ================================================================== *)
(** ** The analyzer: the retry loop and the optional requests *)
(* ================================================================== *)

Section Analyzer.
Context (E : Env).

Lemma first_request_exhausted n csv_data w :
  (∀ k, k < n → ∃ e,
     generate_content_at E (requests w + k) gemini prompt1 csv_data = Raise e) →
  first_request E gemini csv_data n w =
    (Ok (0, None), logs (concat (replicate n (failed_attempt csv_data))) w).
Proof.
  revert w. induction n as [|n IH]; intros w Hf.
  - simpl. by rewrite logs_nil.
  - simpl. mstep. unfold generate_content.
    destruct (Hf 0 ltac:(lia)) as [e He]. rewrite Nat.add_0_r in He. rewrite He.
    rewrite !log_logs, !logs_logs. simpl.
    rewrite IH.
    + by rewrite logs_logs.
    + intros k Hk. rewrite requests_logs. simpl.
      replace (requests w + 1 + k) with (requests w + S k) by lia.
      apply Hf. lia.
Qed.

Lemma first_request_answered n k csv_data w r :
  k < n →
  (∀ j, j < k → ∃ e,
     generate_content_at E (requests w + j) gemini prompt1 csv_data = Raise e) →
  generate_content_at E (requests w + k) gemini prompt1 csv_data = Ok r →
  first_request E gemini csv_data n w =
    (Ok (n - k, Some r),
     logs (concat (replicate k (failed_attempt csv_data))
             ++ [EGenerate gemini prompt1 csv_data]) w).
Proof.
  revert w k. induction n as [|n IH]; intros w k Hk Hf Hs; [lia|].
  simpl first_request. mstep. unfold generate_content.
  destruct k as [|k].
  - rewrite Nat.add_0_r in Hs. rewrite Hs. simpl. reflexivity.
  - destruct (Hf 0 ltac:(lia)) as [e He]. rewrite Nat.add_0_r in He. rewrite He.
    rewrite !log_logs, !logs_logs. simpl.
    rewrite (IH _ k).
    + by rewrite logs_logs.
    + lia.
    + intros j Hj. rewrite requests_logs. simpl.
      replace (requests w + 1 + j) with (requests w + S j) by lia. apply Hf. lia.
    + rewrite requests_logs. simpl.
      replace (requests w + 1 + k) with (requests w + S k) by lia. done.
Qed.

Lemma optional_request announce missing prompt csv_data text_md w :
  try_except
    (print announce;;
     response ← generate_content E gemini prompt csv_data;
     t ← response_text response;
     mret (text_md +:+ Py.nl +:+ Py.replace t "CSV" EmptyString))
    (print part_message;; print missing;; mret text_md) w
  = let o := section_text (generate_content_at E (requests w) gemini prompt csv_data) in
    (Ok (append_section text_md o),
     logs (optional_events announce missing prompt csv_data o) w).
Proof.
  unfold optional_events. mstep. unfold generate_content.
  rewrite !log_logs, !requests_logs. simpl. rewrite Nat.add_0_r.
  destruct (generate_content_at E (requests w) gemini prompt csv_data) as [[[t|]]|e];
    simpl; mstep; rewrite ?log_logs, ?logs_logs; reflexivity.
Qed.

#[local] Opaque first_request.

Lemma explain_file_answered file_name key csv_data w k t1 :
  files w !! intermediate_path = Some csv_data →
  k < 3 →
  (∀ j, j < k → ∃ e,
     generate_content_at E (requests w + j) gemini prompt1 csv_data = Raise e) →
  generate_content_at E (requests w + k) gemini prompt1 csv_data
    = Ok (mkResponse (Some t1)) →
  let o2 := section_text
              (generate_content_at E (requests w + k + 1) gemini prompt2 csv_data) in
  let o3 := section_text
              (generate_content_at E (requests w + k + 2) gemini prompt3 csv_data) in
  explain_file E file_name key w =
    (Ok (append_section
           (append_section
              (header E file_name +:+ " " +:+ Py.replace t1 "CSV" EmptyString) o2) o3),
     logs (EConfigure key
             :: concat (replicate k (failed_attempt csv_data))
             ++ [EGenerate gemini prompt1 csv_data]
             ++ optional_events announce2 missing2 prompt2 csv_data o2
             ++ optional_events announce3 missing3 prompt3 csv_data o3) w).
Proof.
  intros Hfile Hk Hf Hs o2 o3.
  unfold explain_file.
  unfold mbind at 1, M_bind at 1. unfold configure at 1.
  unfold mbind at 1, M_bind at 1. unfold read_file at 1. simpl files. rewrite Hfile.
  unfold mbind at 1, M_bind at 1.
  rewrite (first_request_answered 3 k csv_data (log (EConfigure key) w) (mkResponse (Some t1)));
    [|done| |].
  2:{ intros j Hj. rewrite log_logs, requests_logs. simpl. rewrite Nat.add_0_r. by apply Hf. }
  2:{ rewrite log_logs, requests_logs. simpl. by rewrite Nat.add_0_r. }
  destruct (3 - k) as [|m] eqn:Hm; [lia|].
  unfold mbind at 1, M_bind at 1.
  destruct (decide (S m = 0)) as [|_]; [lia|].
  unfold mret at 1, M_ret at 1.
  unfold mbind at 1, M_bind at 1. unfold mret at 1, M_ret at 1.
  unfold mbind at 1, M_bind at 1. unfold response_text at 1.
  cbn [text]. unfold mret at 1, M_ret at 1. cbv beta iota.
  unfold mbind at 1, M_bind at 1.
  rewrite optional_request. cbv beta iota zeta.
  unfold mbind at 1, M_bind at 1.
  rewrite optional_request. cbv beta iota zeta.
  unfold mret, M_ret.
  rewrite !log_logs, !logs_logs, !requests_logs.
  assert (Hc : ∀ n c, length (List.filter is_generate (concat (replicate n (failed_attempt c)))) = n).
  { intros n c. induction n as [|n IH]; simpl; [done|]. by rewrite IH. }
  assert (Ho : ∀ a m p c o, length (List.filter is_generate (optional_events a m p c o)) = 1).
  { intros a m0 p c [t|]; reflexivity. }
  rewrite !List.filter_app, !length_app, Hc, ?Ho. simpl List.filter. simpl length.
  replace (requests w + (0 + (k + 1))) with (requests w + k + 1) by lia.
  replace (requests w + (0 + (k + 1) + 1)) with (requests w + k + 2) by lia.
  fold o2 o3. f_equal. f_equal. simpl. rewrite <- !app_assoc. reflexivity.
Qed.
#[local] Transparent first_request.

End Analyzer.

(* ================================================================== *)
(** ** The pipeline and the reporter, step by step *)
(* ================================================================== *)

Section Pipeline.

Context (E : Env).

Lemma data_analyzer_unfold file_name key w :
  data_analyzer E file_name key w =
    after_loading E file_name key
      (check_file_type E file_name
         (logs [EPrint "Analyzing the format of the file..."] w)).
Proof.
  unfold data_analyzer, after_loading, after_analysis, after_report.
  unfold mbind, M_bind, print. rewrite !log_logs.
  destruct (check_file_type E file_name _) as [[[]|e] w1]; [|reflexivity].
  rewrite !log_logs, logs_logs. simpl app.
  destruct (explain_file E file_name key _) as [[text_md|e] w2]; [|reflexivity].
  rewrite !log_logs, logs_logs. simpl app.
  destruct (generate_pdf E file_name text_md _) as [[path|e] w3]; [|reflexivity].
  rewrite !log_logs, logs_logs. reflexivity.
Qed.

Lemma generate_pdf_unfold file_name text_md w :
  generate_pdf E file_name text_md w =
    match pdf_add_section E (mkSection text_md false) with
    | Raise e => (Raise e, w)
    | Ok _ =>
        match pdf_save E (report_document E file_name text_md) (report_path E w) with
        | Raise e => (Raise e, consume 1 w)
        | Ok _ =>
            (Ok (report_path E w),
             log (ESavePdf (report_path E w))
               (store (report_path E w) (PdfDoc (report_document E file_name text_md))
                  (consume 1 w)))
        end
    end.
Proof.
  unfold generate_pdf, add_section, save, uuid4, write_pdf, set_meta.
  unfold mbind, M_bind, mret, M_ret, lift. simpl.
  destruct (pdf_add_section E _) as [[]|e]; [|reflexivity].
  fold (report_document E file_name text_md). fold (report_path E w).
  destruct (pdf_save E _ _) as [[]|e]; reflexivity.
Qed.

End Pipeline.

(* ================================================================== *)
(** ** What the loader leaves behind *)
(* ================================================================== *)

Section LoaderFrame.

Context (E : Env).

Lemma reader_of_unsupported file_name :
  supported file_name = false → reader_of E file_name = None.
Proof.
  unfold supported, reader_of. simpl. intros H.
  repeat (apply orb_false_elim in H as [-> H]). reflexivity.
Qed.

Lemma print_step {A} (line : string) (k : M A) w :
  (print line ;; k) w = k (logs [EPrint line] w).
Proof. reflexivity. Qed.

Lemma format_loop_index labels df :
  index (format_loop E labels df).1 = index df.
Proof.
  revert df. induction labels as [|col rest IH]; intros df; simpl; [done|].
  destruct (getitem df col) as [|s [|s2 ss]]; [done| |].
  - destruct (series_apply E s) as [s'|e]; [|done]. rewrite IH. reflexivity.
  - destruct (nrows df =? 0); [apply IH|done].
Qed.

Lemma format_loop_nrows labels df :
  nrows (format_loop E labels df).1 = nrows df.
Proof. unfold nrows. by rewrite format_loop_index. Qed.

Lemma check_file_type_loads file_name w df :
  loads E file_name w df →
  check_file_type E file_name w = loader_outcome E w df.
Proof.
  intros (c & reader & Hc & Hr & Hdf).
  rewrite check_file_type_unfold, Hc, Hr, Hdf. reflexivity.
Qed.

Lemma loader_outcome_frame w df :
  loader_frame w (loader_outcome E w df).1 (loader_outcome E w df).2.
Proof.
  unfold loader_outcome, loader_frame.
  destruct (format_loop E _ _) as [d' r].
  destruct (nrows d' <? 250); destruct r; simpl;
    (split; [first [by exists []; rewrite app_nil_r | by eexists [_]]|]);
    (split; [intros p Hp; by rewrite ?lookup_insert_ne|]);
    rewrite ?lookup_insert_eq; eauto.
Qed.

Lemma check_file_type_frame file_name w :
  loader_frame w (check_file_type E file_name w).1 (check_file_type E file_name w).2.
Proof.
  rewrite check_file_type_unfold.
  assert (Hsame : ∀ e, loader_frame w (Raise e) w).
  { intros e. split; [by exists []; rewrite app_nil_r|]. split; done. }
  destruct (files w !! file_name); [|apply Hsame].
  destruct (reader_of E file_name) as [reader|]; [|apply Hsame].
  destruct (reader c); [|apply Hsame].
  apply loader_outcome_frame.
Qed.

Lemma filter_prints (P : event → bool) ps :
  (∀ e, is_print e = true → P e = false) →
  forallb is_print ps = true → List.filter P ps = [].
Proof.
  intros HP. induction ps as [|e ps IH]; simpl; [done|].
  intros [He Hps]%andb_prop. rewrite (HP e He). by apply IH.
Qed.

End LoaderFrame.

Section Fatal.

Context (E : Env).

Lemma explain_file_fatal file_name key csv_data w :
  files w !! intermediate_path = Some csv_data →
  (∀ k, k < 3 → ∃ e,
     generate_content_at E (requests w + k) gemini prompt1 csv_data = Raise e) →
  explain_file E file_name key w =
    (Raise (Exception_ fatal_message),
     logs (EConfigure key :: concat (replicate 3 (failed_attempt csv_data))) w).
Proof.
  intros Hfile Hf. unfold explain_file.
  unfold mbind at 1, M_bind at 1. unfold configure at 1.
  unfold mbind at 1, M_bind at 1. unfold read_file at 1. simpl files. rewrite Hfile.
  unfold mbind at 1, M_bind at 1.
  rewrite (first_request_exhausted E 3 csv_data).
  2:{ intros k Hk. rewrite log_logs, requests_logs. simpl. rewrite Nat.add_0_r. by apply Hf. }
  unfold mbind at 1, M_bind at 1.
  destruct (decide (0 = 0)) as [_|]; [|done].
  unfold raise. rewrite log_logs, logs_logs. reflexivity.
Qed.


End Fatal.






(* ================================================================== *)
(** ** Strings: suffixes and case *)
(* ================================================================== *)

Lemma app_cons c s t : String c s +:+ t = String c (s +:+ t).
Proof. reflexivity. Qed.

Lemma app_empty_l s : EmptyString +:+ s = s.
Proof. reflexivity. Qed.

Lemma chars_app a b :
  list_ascii_of_string (a +:+ b) = list_ascii_of_string a ++ list_ascii_of_string b.
Proof. induction a as [|c a IH]; [done|]. rewrite app_cons. simpl. by rewrite IH. Qed.

Lemma endswith_nil suf :
  Py.endswith EmptyString suf = String.eqb EmptyString suf || false.
Proof. reflexivity. Qed.

Lemma endswith_cons c s suf :
  Py.endswith (String c s) suf = String.eqb (String c s) suf || Py.endswith s suf.
Proof. reflexivity. Qed.

Lemma endswith_spec s suf :
  Py.endswith s suf = true → ∃ p, s = p +:+ suf.
Proof.
  induction s as [|c s IH].
  - rewrite endswith_nil, orb_false_r. intros ->%String.eqb_eq. by exists EmptyString.
  - rewrite endswith_cons. intros [->%String.eqb_eq | H]%orb_prop.
    + by exists EmptyString.
    + destruct (IH H) as [p ->]. by exists (String c p).
Qed.

Lemma endswith_rev p v q e :
  p +:+ v = q +:+ e →
  rev (list_ascii_of_string v) ++ rev (list_ascii_of_string p)
  = rev (list_ascii_of_string e) ++ rev (list_ascii_of_string q).
Proof.
  intros H. apply (f_equal list_ascii_of_string) in H.
  rewrite !chars_app in H. apply (f_equal (@rev ascii)) in H.
  by rewrite !rev_app_distr in H.
Qed.

Ltac spell v H :=
  repeat (destruct v as [|? v]; simpl in H; [discriminate H|injection H as ? H]);
  destruct v; [clear H|discriminate H].

(** A name ending with a case variant of one supported extension ends
    with none of the four. *)
Lemma variant_not_supported p v ext e' :
  ext ∈ supported_extensions → case_variant v ext →
  e' ∈ supported_extensions → Py.endswith (p +:+ v) e' = false.
Proof.
  intros Hext [Hlow Hne] He'.
  destruct (Py.endswith (p +:+ v) e') eqn:Hends; [exfalso|done].
  apply endswith_spec in Hends as [q Hq]. apply endswith_rev in Hq.
  unfold supported_extensions in *.
  repeat (apply elem_of_cons in Hext as [->|Hext]); [| | | |by apply elem_of_nil in Hext];
    spell v Hlow;
    (repeat (apply elem_of_cons in He' as [->|He']); [| | | |by apply elem_of_nil in He']);
    simpl in Hq; simplify_eq; try done;
    repeat match goal with
           | H : Py.lower_char _ = _ |- _ => vm_compute in H; try discriminate H; clear H
           end.
Qed.
Lemma app_assoc_s a b c : (a +:+ b) +:+ c = a +:+ (b +:+ c).
Proof. induction a as [|x a IH]; [done|]. rewrite !app_cons. by rewrite IH. Qed.

Lemma startswith_cons a p b s :
  Py.startswith (String b s) (String a p)
  = if Ascii.eqb a b then Py.startswith s p else false.
Proof. reflexivity. Qed.

Lemma startswith_spec s p : Py.startswith s p = true ↔ ∃ t, s = p +:+ t.
Proof.
  revert s. induction p as [|a p IH]; intros s.
  - split; [intros _; by exists s|by destruct s].
  - destruct s as [|b s].
    + split; [done|]. by intros [t Ht].
    + rewrite startswith_cons. destruct (Ascii.eqb_spec a b) as [->|Hne].
      * rewrite IH. split; intros [t Ht]; exists t.
        -- by rewrite app_cons, Ht.
        -- rewrite app_cons in Ht. by injection Ht.
      * split; [done|]. intros [t Ht]. rewrite app_cons in Ht. by injection Ht.
Qed.

Lemma contains_cons c s sub :
  Py.contains (String c s) sub = Py.startswith (String c s) sub || Py.contains s sub.
Proof. reflexivity. Qed.

Lemma contains_nil sub :
  Py.contains EmptyString sub = Py.startswith EmptyString sub || false.
Proof. reflexivity. Qed.

(** [sub in s] holds exactly when [s] splits around [sub]. *)
Lemma contains_spec s sub : Py.contains s sub = true ↔ Py.occurs sub s.
Proof.
  unfold Py.occurs. induction s as [|c s IH].
  - rewrite contains_nil, orb_false_r, startswith_spec. split.
    + intros [t Ht]. by exists EmptyString, t.
    + intros ([|x pre] & post & H); [by eexists|].
      rewrite app_cons in H. discriminate H.
  - rewrite contains_cons, orb_true_iff, startswith_spec, IH. split.
    + intros [[t Ht]|(pre & post & Hs)].
      * by exists EmptyString, t.
      * exists (String c pre), post. by rewrite app_cons, Hs.
    + intros ([|x pre] & post & H).
      * left. by exists post.
      * right. rewrite app_cons in H. injection H as -> ->. by exists pre, post.
Qed.

Lemma scan_app q a b : scan q (a +:+ b) = scan (scan q a) b.
Proof. revert q. induction a as [|c a IH]; intros q; [done|]. rewrite app_cons. simpl. apply IH. Qed.

Lemma scan_found s : scan 3 s = 3.
Proof. induction s; simpl; auto. Qed.

Lemma csv_step_found q c : csv_step q c = 3 → q = 3 ∨ (q = 2 ∧ c = "V"%char).
Proof.
  unfold csv_step. destruct (Nat.eqb_spec q 3); [auto|].
  destruct (Ascii.eqb c "C"); [done|].
  destruct ((q =? 1) && Ascii.eqb c "S"); [done|].
  destruct (Nat.eqb_spec q 2); simpl; [|done].
  destruct (Ascii.eqb_spec c "V"); [auto|done].
Qed.

Lemma scan_contains s q : Py.contains s "CSV" = true → scan q s = 3.
Proof.
  revert q. induction s as [|c s IH]; intros q; [done|].
  rewrite contains_cons. intros [Hs|Hc]%orb_prop; [|by apply IH].
  apply startswith_spec in Hs as [t Ht]. rewrite Ht.
  destruct q as [|[|[|q]]]; simpl; try apply scan_found.
  destruct q; simpl; apply scan_found.
Qed.
Lemma scan_cons q c s : scan q (String c s) = scan (csv_step q c) s.
Proof. reflexivity. Qed.

Lemma startswith_nil s : Py.startswith s EmptyString = true.
Proof. by destruct s. Qed.

Lemma csv_step_cases q c :
  q ≠ 3 →
  (c = "C"%char ∧ csv_step q c = 1)
  ∨ (c = "S"%char ∧ q = 1 ∧ csv_step q c = 2)
  ∨ (c = "V"%char ∧ q = 2 ∧ csv_step q c = 3)
  ∨ (csv_step q c = 0).
Proof.
  intros Hq. unfold csv_step. destruct (Nat.eqb_spec q 3); [done|].
  destruct (Ascii.eqb_spec c "C"); [by left|].
  destruct (Nat.eqb_spec q 1); simpl.
  { destruct (Ascii.eqb_spec c "S"); [by right; left|].
    destruct (Nat.eqb_spec q 2); [lia|]. by right; right; right. }
  destruct (Nat.eqb_spec q 2); simpl; [|by right; right; right].
  destruct (Ascii.eqb_spec c "V"); [by right; right; left|by right; right; right].
Qed.

Lemma scan_found_inv s q :
  scan q s = 3 →
  q = 3 ∨ Py.contains s "CSV" = true
  ∨ (q = 1 ∧ Py.startswith s "SV" = true)
  ∨ (q = 2 ∧ Py.startswith s "V" = true).
Proof.
  revert q. induction s as [|c s IH]; intros q; [by left|].
  rewrite scan_cons. intros H.
  destruct (decide (q = 3)) as [|Hq]; [by left|]. right.
  rewrite contains_cons, !startswith_cons.
  apply IH in H.
  destruct (csv_step_cases q c Hq) as [[-> Hs]|[(-> & -> & Hs)|[(-> & -> & Hs)|Hs]]];
    rewrite Hs in H; simpl Ascii.eqb; cbv iota;
    destruct H as [H|[H|[[H1 H2]|[H1 H2]]]]; try discriminate;
    rewrite ?H, ?H2, ?orb_true_r, ?startswith_nil; auto.
Qed.

(** The scanner decides ["CSV" in s]. *)
Lemma scan_correct s : scan 0 s = 3 ↔ Py.contains s "CSV" = true.
Proof.
  split; [|apply scan_contains].
  intros H. apply scan_found_inv in H as [H|[H|[[H _]|[H _]]]]; done.
Qed.

Lemma free_contains s : scan 0 s ≠ 3 ↔ Py.contains s "CSV" = false.
Proof. rewrite scan_correct. by destruct (Py.contains s "CSV"). Qed.

Lemma scan_plain s q : plain s = true → q ≠ 3 → scan q s ≠ 3.
Proof.
  revert q. induction s as [|c s IH]; intros q Hp Hq; [done|].
  simpl in Hp. apply andb_prop in Hp as [Hc Hs].
  apply andb_prop in Hc as [Hc HV]. apply andb_prop in Hc as [HC HS].
  rewrite scan_cons. apply IH; [done|]. unfold csv_step.
  destruct (Nat.eqb_spec q 3); [done|].
  apply negb_true_iff in HC, HS, HV. rewrite HC, HS, HV, !andb_false_r. done.
Qed.

Lemma plain_app a b : plain (a +:+ b) = plain a && plain b.
Proof.
  induction a as [|c a IH]; [done|]. rewrite app_cons. simpl. rewrite IH.
  by rewrite !andb_assoc.
Qed.

Lemma plain_zeros k : plain (Py.zeros k) = true.
Proof. induction k; simpl; auto. Qed.

Lemma plain_uint u : plain (NilEmpty.string_of_uint u) = true.
Proof. induction u; simpl; auto. Qed.

Lemma plain_str_nat n : plain (Py.str_nat n) = true.
Proof.
  unfold Py.str_nat, NilZero.string_of_uint.
  destruct (Nat.to_uint n); try apply plain_uint. reflexivity.
Qed.

Lemma plain_zfill k n : plain (Py.zfill k n) = true.
Proof. unfold Py.zfill. by rewrite plain_app, plain_zeros, plain_str_nat. Qed.

Lemma plain_strftime d : plain (strftime d) = true.
Proof. unfold strftime. by rewrite !plain_app, !plain_zfill. Qed.
(** One pass of the removal of "CSV": a match is jumped over, any other
    character is copied. *)
Lemma rm_match t :
  Py.replace ("CSV" +:+ t) "CSV" EmptyString = Py.replace t "CSV" EmptyString.
Proof. reflexivity. Qed.

Lemma rm_keep c t :
  Py.startswith (String c t) "CSV" = false →
  Py.replace (String c t) "CSV" EmptyString
  = String c (Py.replace t "CSV" EmptyString).
Proof.
  intros H. unfold Py.replace.
  change (Py.replace_from "CSV" EmptyString 0 (String c t))
    with (if Py.startswith (String c t) "CSV"
          then EmptyString +:+ Py.replace_from "CSV" EmptyString 2 t
          else String c (Py.replace_from "CSV" EmptyString 0 t)).
  by rewrite H.
Qed.

Lemma contains_tail c s sub :
  Py.contains (String c s) sub = false → Py.contains s sub = false.
Proof. rewrite contains_cons. by intros [_ ?]%orb_false_elim. Qed.

Lemma contains_head c s sub :
  Py.contains (String c s) sub = false → Py.startswith (String c s) sub = false.
Proof. rewrite contains_cons. by intros [? _]%orb_false_elim. Qed.

Lemma csv_safe_tail c s : csv_safe (String c s) → csv_safe s.
Proof. intros [H1 H2]. split; by eapply contains_tail. Qed.

(** On a safe response the text produced by the pass never completes
    "CSV", whatever state (at most "CS") the text before it left. *)
Lemma replace_scan n r q :
  String.length r ≤ n → q ≤ 2 → csv_safe r → compatible q r →
  scan q (Py.replace r "CSV" EmptyString) ≠ 3.
Proof.
  revert r q. induction n as [|n IH]; intros r q Hlen Hq Hsafe Hcompat.
  { destruct r; [simpl; lia|]. simpl in Hlen. lia. }
  destruct r as [|c t]; [simpl; lia|].
  destruct (Py.startswith (String c t) "CSV") eqn:Hm.
  - apply startswith_spec in Hm as [t' Ht']. rewrite Ht' in *. rewrite rm_match.
    change ("CSV" +:+ t') with (String "C" (String "S" (String "V" t'))) in *.
    assert (q = 0) as ->.
    { destruct q as [|[|[|q]]]; [done| | |lia].
      - by destruct Hcompat as (_ & Hc & _).
      - by destruct Hcompat as (_ & Hc). }
    apply IH; [simpl in Hlen; lia|lia| |done].
    by do 3 apply csv_safe_tail in Hsafe.
  - rewrite rm_keep by done. rewrite scan_cons.
    pose proof (csv_safe_tail _ _ Hsafe) as Hsafe'.
    destruct Hsafe as [HCC HCS].
    apply contains_head in HCC, HCS. rewrite startswith_cons in HCC, HCS, Hm.
    destruct (csv_step_cases q c ltac:(lia))
      as [[-> Hs]|[(-> & -> & Hs)|[(-> & -> & Hs)|Hs]]]; rewrite Hs.
    + apply IH; [simpl in Hlen; lia|lia|done|]. simpl in *. auto.
    + apply IH; [simpl in Hlen; lia|lia|done|].
      destruct Hcompat as (H1 & H2 & H3). simpl in *. auto.
    + destruct Hcompat as (H1 & H2). simpl in H1. discriminate H1.
    + apply IH; [simpl in Hlen; lia|lia|done|done].
Qed.

Lemma replace_free r : csv_safe r → scan 0 (Py.replace r "CSV" EmptyString) ≠ 3.
Proof. intros H. apply (replace_scan (String.length r)); [lia|lia|done|exact I]. Qed.
Lemma header_parts E file_name :
  header E file_name
  = header_open +:+ actual_date E +:+ header_middle
      +:+ Py.split_head file_name "/" +:+ header_close.
Proof. reflexivity. Qed.

Lemma guarded_join a b c :
  guarded a → scan 0 b ≠ 3 → guarded c → guarded (a +:+ b +:+ c).
Proof.
  intros Ha Hb Hc q Hq. rewrite !scan_app, (Ha q Hq). by apply Hc.
Qed.

Ltac reset_state := intros [|[|[|[|q]]]] Hq; [reflexivity|reflexivity|reflexivity|done|reflexivity].

Lemma guarded_open : guarded header_open.
Proof. reset_state. Qed.

Lemma guarded_middle : guarded header_middle.
Proof. reset_state. Qed.

Lemma guarded_close : guarded header_close.
Proof. reset_state. Qed.

Lemma guarded_space : guarded " ".
Proof. reset_state. Qed.

Lemma guarded_nl : guarded Py.nl.
Proof. reset_state. Qed.

Lemma header_guarded E file_name :
  Py.contains (Py.split_head file_name "/") "CSV" = false →
  guarded (header E file_name).
Proof.
  intros Hlabel. rewrite header_parts.
  replace (header_open +:+ actual_date E +:+ header_middle
             +:+ Py.split_head file_name "/" +:+ header_close)
    with ((header_open +:+ actual_date E +:+ header_middle)
            +:+ Py.split_head file_name "/" +:+ header_close)
    by (by rewrite !app_assoc_s).
  apply guarded_join; [|by apply free_contains|apply guarded_close].
  apply guarded_join; [apply guarded_open| |apply guarded_middle].
  apply scan_plain; [apply plain_strftime|done].
Qed.

Lemma append_section_free text_md o :
  scan 0 text_md ≠ 3 →
  (∀ t, o = Some t → csv_safe t) →
  scan 0 (append_section text_md o) ≠ 3.
Proof.
  intros Ht Ho. destruct o as [t|]; [|done]. simpl.
  rewrite !scan_app, (guarded_nl _ Ht). by apply replace_free, Ho.
Qed.

Lemma assembled_free E file_name t1 o2 o3 :
  Py.contains (Py.split_head file_name "/") "CSV" = false →
  csv_safe t1 →
  (∀ t, o2 = Some t → csv_safe t) →
  (∀ t, o3 = Some t → csv_safe t) →
  Py.contains
    (append_section
       (append_section
          (header E file_name +:+ " " +:+ Py.replace t1 "CSV" EmptyString) o2) o3)
    "CSV" = false.
Proof.
  intros Hl H1 H2 H3. apply free_contains.
  repeat (apply append_section_free; [|done]).
  rewrite !scan_app, (header_guarded E file_name Hl 0), (guarded_space 0) by done.
  by apply replace_free.
Qed.

(* ================================================================== *)
(** ** Tables: row selection, dropna, the formatting loop, sampling *)
(* ================================================================== *)


Lemma iloc_nil {A} (xs : list A) : iloc [] xs = [].
  Proof. reflexivity. Qed.

Lemma iloc_cons {A} p ps (xs : list A) :
    iloc (p :: ps) xs = match xs !! p with
                        | Some x => x :: iloc ps xs
                        | None => iloc ps xs
                        end.
  Proof. reflexivity. Qed.

Lemma iloc_fmap {A B} (f : A → B) ps (xs : list A) : iloc ps (f <$> xs) = f <$> iloc ps xs.
  Proof.
    induction ps as [|p ps IH]; [done|].
    rewrite !iloc_cons, list_lookup_fmap, IH. by destruct (xs !! p).
  Qed.

Lemma iloc_length {A} ps (xs : list A) :
    Forall (λ p, p < length xs) ps → length (iloc ps xs) = length ps.
  Proof.
    induction 1 as [|p ps Hp _ IH]; [done|].
    rewrite iloc_cons. destruct (lookup_lt_is_Some_2 xs p Hp) as [x ->].
    simpl. by rewrite IH.
  Qed.

Lemma iloc_lookup {A} ps (xs : list A) j p :
    Forall (λ p, p < length xs) ps →
    ps !! j = Some p → iloc ps xs !! j = xs !! p.
  Proof.
    intros Hall. revert j. induction Hall as [|q ps Hq _ IH]; intros j Hj; [done|].
    rewrite iloc_cons. destruct (lookup_lt_is_Some_2 xs q Hq) as [x Hx]. rewrite Hx.
    destruct j as [|j]; simpl in *.
    - by simplify_eq.
    - by apply IH.
  Qed.

Lemma iloc_Forall {A} (P : A → Prop) ps (xs : list A) :
    Forall (λ p, ∀ x, xs !! p = Some x → P x) ps → Forall P (iloc ps xs).
  Proof.
    induction 1 as [|p ps Hp _ IH]; [constructor|].
    rewrite iloc_cons. destruct (xs !! p) as [x|] eqn:Hx; [|done].
    constructor; auto.
  Qed.

Lemma series_values_iloc ps s :
  series_values (series_iloc ps s) = iloc ps (series_values s).
Proof. destruct s; simpl; by rewrite iloc_fmap. Qed.


Lemma row_complete_cell df p c :
  row_complete df p = true → c ∈ columns df →
  ∃ v, series_values c.2 !! p = Some v ∧ isna v = false.
Proof.
  unfold row_complete, row_at. rewrite forallb_forall. intros Hall Hc.
  assert (Hin : In (cell c.2 p) ((λ c, cell c.2 p) <$> columns df)).
  { apply list_elem_of_In, list_elem_of_fmap. eauto. }
  specialize (Hall _ Hin). apply negb_true_iff in Hall.
  unfold cell in Hall. destruct (series_values c.2 !! p) as [v|]; [eauto|discriminate].
Qed.

Lemma kept_spec df p : p ∈ kept df → p < nrows df ∧ row_complete df p = true.
Proof.
  unfold kept. rewrite list_elem_of_filter, elem_of_seq. intros [? ?]. split; [lia|done].
Qed.

Lemma tidy_iloc ps df n :
  length (index df) = n →
  Forall (λ p, p < n) ps →
  Forall (λ c : string * Series,
    Forall (λ p, ∃ v, series_values c.2 !! p = Some v ∧ isna v = false) ps) (columns df) →
  tidy (length ps) (df_iloc ps df).
Proof.
  intros Hidx Hps Hcols. split.
  - simpl. apply iloc_length. by rewrite Hidx.
  - simpl. apply Forall_fmap. eapply Forall_impl; [exact Hcols|].
    intros [name s] Hc. simpl in *. rewrite series_values_iloc. split.
    + apply iloc_length. eapply Forall_impl; [exact Hc|].
      intros p (v & Hv & _). by apply lookup_lt_Some in Hv.
    + apply iloc_Forall. eapply Forall_impl; [exact Hc|].
      intros p (v & Hv & Hna) x Hx. by simplify_eq.
Qed.

(** After [dropna] every column has one cell per kept row and no cell is
    missing, whatever the shape of the table that was read. *)
Lemma dropna_tidy df : tidy (nrows (dropna df)) (dropna df).
Proof.
  assert (Hlen : nrows (dropna df) = length (kept df)).
  { unfold nrows, dropna. simpl. apply iloc_length.
    apply Forall_forall. intros p Hp. by apply kept_spec in Hp as [? _]. }
  rewrite Hlen. apply (tidy_iloc _ _ (nrows df)); [done| |].
  - apply Forall_forall. intros p Hp. by apply kept_spec in Hp as [? _].
  - apply Forall_forall. intros c Hc. apply Forall_forall. intros p Hp.
    apply kept_spec in Hp as [_ Hp]. by apply row_complete_cell with df.
Qed.
Section Fmt.
Context (E : Env).

Lemma apply_cells_length vs ts :
  apply_cells E vs = Ok ts → length ts = length vs.
Proof.
  revert ts. induction vs as [|v vs IH]; intros ts; simpl.
  - by intros [= <-].
  - destruct (format_cell E v) as [t|e]; [|done].
    destruct (apply_cells E vs) as [ts'|e]; [|done].
    intros [= <-]. simpl. by rewrite (IH ts').
Qed.

Lemma series_apply_tidy s s' :
  series_apply E s = Ok s' →
  length (series_values s') = length (series_values s)
  ∧ Forall (λ v, isna v = false) (series_values s').
Proof.
  unfold series_apply.
  destruct (apply_cells E (series_values s)) as [ts|e] eqn:Hts; [|done].
  intros [= <-]. simpl. rewrite <- list_fmap_compose, length_fmap. split.
  - by apply apply_cells_length.
  - apply Forall_fmap, Forall_true. done.
Qed.

Lemma getitem_elem df col s : s ∈ getitem df col → (col, s) ∈ columns df.
Proof.
  unfold getitem. intros ([n s0] & -> & Hin)%list_elem_of_fmap.
  apply list_elem_of_filter in Hin as [Hn Hin]. simpl in *. by subst.
Qed.

Lemma setitem_tidy n df col s :
  tidy n df →
  length (series_values s) = n → Forall (λ v, isna v = false) (series_values s) →
  tidy n (setitem df col s).
Proof.
  intros [Hidx Hcols] Hlen Hna. split; [done|]. simpl.
  apply Forall_fmap. eapply Forall_impl; [exact Hcols|].
  intros c Hc. simpl. destruct (decide (c.1 = col)); simpl; auto.
Qed.

Lemma format_loop_tidy n labels df :
  tidy n df → tidy n (format_loop E labels df).1.
Proof.
  revert df. induction labels as [|col rest IH]; intros df Ht; simpl; [done|].
  destruct (getitem df col) as [|s [|s2 ss]] eqn:Hg; [done| |].
  - destruct (series_apply E s) as [s'|e] eqn:Hs; [|done].
    apply IH. apply series_apply_tidy in Hs as [Hlen Hna].
    apply setitem_tidy; [done| |done].
    rewrite Hlen. assert (Hin : (col, s) ∈ columns df).
    { apply getitem_elem. rewrite Hg. left. }
    destruct Ht as [_ Hcols]. rewrite Forall_forall in Hcols.
    by destruct (Hcols _ Hin).
  - destruct (nrows df =? 0); [by apply IH|done].
Qed.


End Fmt.

Lemma choose_length rand k n pool :
  n ≤ length pool → length (choose rand k n pool) = n.
Proof.
  revert k pool. induction n as [|n IH]; intros k pool Hn; [done|].
  unfold choose; fold choose.
  assert (Hi : rand k mod length pool < length pool) by (apply Nat.mod_upper_bound; lia).
  destruct (lookup_lt_is_Some_2 pool _ Hi) as [p ->].
  simpl. rewrite IH; [done|]. rewrite length_delete; [lia|].
  by apply lookup_lt_is_Some_2.
Qed.

Lemma choose_subseteq rand k n pool : choose rand k n pool ⊆ pool.
Proof.
  revert k pool. induction n as [|n IH]; intros k pool; [apply list_subseteq_nil|].
  unfold choose; fold choose.
  destruct (pool !! _) as [p|] eqn:Hp; [|apply list_subseteq_nil].
  intros x [->|Hx]%elem_of_cons.
  - by eapply list_elem_of_lookup_2.
  - apply IH in Hx. revert Hx. apply sublist_subseteq, sublist_delete.
Qed.

Lemma tidy_cell n df c i :
  tidy n df → c ∈ columns df → i < n →
  ∃ v, series_values c.2 !! i = Some v ∧ isna v = false.
Proof.
  intros [_ Hcols] Hc Hi. rewrite Forall_forall in Hcols.
  destruct (Hcols _ Hc) as [Hlen Hna].
  destruct (lookup_lt_is_Some_2 (series_values c.2) i) as [v Hv]; [lia|].
  exists v. split; [done|]. by eapply Forall_lookup_1 in Hna.
Qed.



Section LoopSpec.
Context (E : Env).

Lemma assign_other done c : c.1 ∉ done → assign E done c = c.
Proof. intros H. unfold assign. by rewrite decide_False. Qed.

Lemma assign_nil (cols : list (string * Series)) : assign E [] <$> cols = cols.
Proof.
  rewrite <- (list_fmap_id cols) at 2. apply list_fmap_ext.
  intros i c _. apply assign_other, not_elem_of_nil.
Qed.

Lemma assign_name done c : (assign E done c).1 = c.1.
Proof.
  unfold assign. destruct (decide (c.1 ∈ done)); [|done].
  by destruct (series_apply E c.2).
Qed.

Lemma filter_assign done l (cols : list (string * Series)) :
  filter (λ c : string * Series, c.1 = l) (assign E done <$> cols)
  = assign E done <$> filter (λ c : string * Series, c.1 = l) cols.
Proof.
  induction cols as [|c cols IH]; [done|].
  rewrite fmap_cons, !filter_cons, assign_name.
  destruct (decide (c.1 = l)); [rewrite fmap_cons|]; by rewrite IH.
Qed.

(** A label that is not duplicated names one column. *)
Lemma unique_column d l x y :
  duplicated d l = false → x ∈ columns d → y ∈ columns d →
  x.1 = l → y.1 = l → x = y.
Proof.
  unfold duplicated. intros Hd%Nat.ltb_ge Hx Hy Hxl Hyl.
  assert (Hx' : x ∈ filter (λ c : string * Series, c.1 = l) (columns d))
    by by apply list_elem_of_filter.
  assert (Hy' : y ∈ filter (λ c : string * Series, c.1 = l) (columns d))
    by by apply list_elem_of_filter.
  destruct (filter _ (columns d)) as [|z [|z2 zs]]; simpl in Hd.
  - by apply elem_of_nil in Hx'.
  - apply list_elem_of_singleton in Hx', Hy'. congruence.
  - lia.
Qed.

(** The labels [assigned] lists are not duplicated, and the callback
    returned on their columns. *)
Lemma assigned_sound d cols l :
  l ∈ (assigned E d cols).1 →
  duplicated d l = false
  ∧ ∃ c s, c ∈ cols ∧ c.1 = l ∧ series_apply E c.2 = Ok s.
Proof.
  induction cols as [|c rest IH]; simpl; [by intros ?%elem_of_nil|].
  destruct (decide (series_dtype c.2 = float64)) as [Hf|Hf].
  - destruct (duplicated d c.1) eqn:Hd; [by intros ?%elem_of_nil|].
    destruct (series_apply E c.2) as [s|e] eqn:Hs; [|by intros ?%elem_of_nil].
    destruct (assigned E d rest) as [done r]. simpl in *.
    intros [->|Hl]%elem_of_cons.
    + split; [done|]. exists c, s. split; [left|done].
    + destruct (IH Hl) as (Hdup & c' & s' & Hc' & Hn & Hs'). split; [done|].
      exists c', s'. split; [by right|done].
  - intros Hl. destruct (IH Hl) as (Hdup & c' & s' & Hc' & Hn & Hs'). split; [done|].
    exists c', s'. split; [by right|done].
Qed.

(** The loop over the float64 labels of [post], run on the table [d]
    (which has rows) after the labels [dn] of columns of [pre] have been
    assigned: it assigns in addition the labels [assigned] lists. *)
Lemma format_loop_split d pre post dn :
  0 < nrows d →
  columns d = pre ++ post →
  (∀ l, l ∈ dn → ∃ c, c ∈ pre ∧ c.1 = l) →
  format_loop E ((filter (λ c : string * Series, series_dtype c.2 = float64) post).*1)
    {| index := index d; columns := assign E dn <$> columns d |}
  = ({| index := index d;
        columns := assign E (dn ++ (assigned E d post).1) <$> columns d |},
     (assigned E d post).2).
Proof.
  intros Hrows. revert pre dn. induction post as [|c rest IH]; intros pre dn Hcols Hdn.
  { simpl. by rewrite app_nil_r. }
  assert (Hcols' : columns d = (pre ++ [c]) ++ rest) by by rewrite <- app_assoc.
  assert (Hdn' : ∀ l, l ∈ dn → ∃ c0, c0 ∈ pre ++ [c] ∧ c0.1 = l).
  { intros l Hl. destruct (Hdn l Hl) as (c0 & Hc0 & Hn). exists c0.
    split; [|done]. apply elem_of_app. by left. }
  rewrite filter_cons. simpl assigned.
  destruct (decide (series_dtype c.2 = float64)) as [Hf|Hf]; [|by apply (IH (pre ++ [c]))].
  rewrite fmap_cons. unfold format_loop; fold (format_loop E).
  unfold getitem. cbn [columns]. rewrite filter_assign.
  assert (Hsplit : filter (λ x : string * Series, x.1 = c.1) (columns d)
                   = filter (λ x : string * Series, x.1 = c.1) pre
                     ++ c :: filter (λ x : string * Series, x.1 = c.1) rest).
  { rewrite Hcols, filter_app, filter_cons. by rewrite decide_True. }
  unfold duplicated. destruct (Nat.ltb_spec 1 (length (filter (λ x : string * Series, x.1 = c.1) (columns d)))) as [Hdup|Hdup].
  - destruct (filter _ (columns d)) as [|z [|z2 zs]]; simpl in Hdup; [lia|lia|].
    rewrite !fmap_cons. change (nrows {| index := index d; columns := _ |}) with (nrows d).
    destruct (Nat.eqb_spec (nrows d) 0) as [H0|_]; [lia|].
    by rewrite app_nil_r.
  - rewrite Hsplit, length_app in Hdup. simpl in Hdup.
    assert (Hpre : filter (λ x : string * Series, x.1 = c.1) pre = []).
    { destruct (filter (λ x : string * Series, x.1 = c.1) pre);
        [done|simpl in Hdup; lia]. }
    assert (Hrest : filter (λ x : string * Series, x.1 = c.1) rest = []).
    { destruct (filter (λ x : string * Series, x.1 = c.1) rest);
        [done|simpl in Hdup; lia]. }
    clear Hdup.
    assert (Hnot : c.1 ∉ dn).
    { intros Hin. destruct (Hdn _ Hin) as (c0 & Hc0 & Hn).
      assert (c0 ∈ filter (λ x : string * Series, x.1 = c.1) pre)
        by by apply list_elem_of_filter.
      rewrite Hpre in H. by apply elem_of_nil in H. }
    rewrite Hsplit, Hpre, Hrest. cbn [app fmap list_fmap].
    rewrite (assign_other dn c Hnot).
    destruct (series_apply E c.2) as [s'|e] eqn:Hs; [|by rewrite app_nil_r].
    assert (Hset : setitem {| index := index d; columns := assign E dn <$> columns d |} c.1 s'
                   = {| index := index d; columns := assign E (dn ++ [c.1]) <$> columns d |}).
    { unfold setitem. cbn [index columns]. f_equal.
      rewrite <- list_fmap_compose. apply list_fmap_ext. intros i x Hx. simpl.
      apply list_elem_of_lookup_2 in Hx. rewrite assign_name.
      destruct (decide (x.1 = c.1)) as [Heq|Hne].
      - assert (x ∈ filter (λ x : string * Series, x.1 = c.1) (columns d))
          by by apply list_elem_of_filter.
        rewrite Hsplit, Hpre, Hrest in H. apply list_elem_of_singleton in H. subst x.
        unfold assign. rewrite decide_True by (apply elem_of_app; right; left).
        by rewrite Hs.
      - unfold assign. destruct (decide (x.1 ∈ dn)) as [Hd|Hd].
        + rewrite decide_True by (apply elem_of_app; by left). done.
        + rewrite decide_False; [done|].
          intros [?|?%list_elem_of_singleton]%elem_of_app; done. }
    rewrite Hset. rewrite (IH (pre ++ [c]) (dn ++ [c.1]) Hcols').
    + destruct (assigned E d rest) as [done r]. cbn [fst snd].
      by rewrite <- app_assoc.
    + intros l [Hl|Hl%list_elem_of_singleton]%elem_of_app; [by apply Hdn'|].
      subst l. exists c. split; [|done]. apply elem_of_app. right. left.
Qed.

Lemma format_loop_spec d :
  0 < nrows d →
  format_loop E (float64_columns d) d
  = ({| index := index d;
        columns := assign E (assigned E d (columns d)).1 <$> columns d |},
     (assigned E d (columns d)).2).
Proof.
  intros Hrows.
  pose proof (format_loop_split d [] (columns d) [] Hrows eq_refl) as H.
  rewrite assign_nil in H. destruct d as [idx cols]. apply H.
  by intros l ?%elem_of_nil.
Qed.
End LoopSpec.
Section Cells.
Context (E : Env).

Lemma apply_cells_lookup vs ts i v :
  apply_cells E vs = Ok ts → vs !! i = Some v →
  ∃ t, ts !! i = Some t ∧ format_cell E v = Ok t.
Proof.
  revert ts i. induction vs as [|v0 vs IH]; intros ts i; simpl; [done|].
  destruct (format_cell E v0) as [t0|e] eqn:Ht0; [|done].
  destruct (apply_cells E vs) as [ts'|e]; [|done].
  intros [= <-]. destruct i as [|i]; simpl.
  - intros [= <-]. eauto.
  - by apply IH.
Qed.

Lemma assigned_ok d c :
  c ∈ columns d → c.1 ∈ (assigned E d (columns d)).1 →
  ∃ s, series_apply E c.2 = Ok s.
Proof.
  intros Hc Hin.
  destruct (assigned_sound E d (columns d) c.1 Hin) as (Hdup & c' & s & Hc' & Hn & Hs).
  assert (c' = c) as -> by by apply (unique_column d c.1).
  eauto.
Qed.

(** What [cell_after] says for a float and for a column left alone. *)
Lemma cell_after_float done c i x :
  c.1 ∈ done → cell c.2 i = VFloat x →
  format_cell E (VFloat x) = Ok (format_2f x) →
  cell_after E done c i = format_2f x.
Proof.
  intros Hd Hc Hf. unfold cell_after. rewrite decide_True by done.
  by rewrite Hc, Hf.
Qed.

Lemma cell_after_other done c i :
  c.1 ∉ done → cell_after E done c i = field (float_repr E) c.2 i.
Proof. intros Hd. unfold cell_after. by rewrite decide_False. Qed.

Lemma cell_assign done c i :
  (c.1 ∈ done → ∃ s, series_apply E c.2 = Ok s) →
  i < length (series_values c.2) →
  field (float_repr E) (assign E done c).2 i = cell_after E done c i.
Proof.
  intros Hok Hi. unfold assign, cell_after.
  destruct (decide (c.1 ∈ done)) as [Hd|]; [|done].
  destruct (Hok Hd) as [s Hs]. rewrite Hs. simpl.
  unfold series_apply in Hs.
  destruct (apply_cells E (series_values c.2)) as [ts|] eqn:Hts; [|done].
  injection Hs as <-.
  destruct (lookup_lt_is_Some_2 _ _ Hi) as [v Hv].
  destruct (apply_cells_lookup _ _ _ _ Hts Hv) as (t & Ht & Hf).
  unfold cell. rewrite Hv. simpl. rewrite Hf.
  unfold field, cell. simpl. rewrite !list_lookup_fmap, Ht. reflexivity.
Qed.

Lemma assigned_prefix d cols :
  (assigned E d cols).1
    `prefix_of` (filter (λ c : string * Series, series_dtype c.2 = float64) cols).*1.
Proof.
  induction cols as [|c rest IH]; simpl; [done|].
  rewrite filter_cons.
  destruct (decide (series_dtype c.2 = float64)); [|done].
  destruct (duplicated d c.1); [apply prefix_nil|].
  destruct (series_apply E c.2); [|apply prefix_nil].
  destruct (assigned E d rest) as [done r]. simpl in *.
  by apply prefix_cons.
Qed.

Lemma assigned_all d cols :
  (assigned E d cols).2 = Ok tt →
  (assigned E d cols).1
  = (filter (λ c : string * Series, series_dtype c.2 = float64) cols).*1.
Proof.
  induction cols as [|c rest IH]; simpl; [done|].
  rewrite filter_cons.
  destruct (decide (series_dtype c.2 = float64)); [|done].
  destruct (duplicated d c.1); [done|].
  destruct (series_apply E c.2); [|done].
  destruct (assigned E d rest) as [done r]. simpl in *.
  intros Hr. f_equal. by apply IH.
Qed.

Lemma apply_cells_floats xs :
  (∀ x, format_cell E (VFloat x) = Ok (format_2f x)) →
  apply_cells E (VFloat <$> xs) = Ok (format_2f <$> xs).
Proof.
  intros Hf. induction xs as [|x xs IH]; [done|].
  rewrite !fmap_cons. cbn [apply_cells]. by rewrite Hf, IH.
Qed.

(** With CPython's formatter the loop raises exactly when the label of a
    float64 column names several columns. *)
Lemma assigned_python d cols :
  (∀ x, format_cell E (VFloat x) = Ok (format_2f x)) →
  (assigned E d cols).2 = Ok tt
  ↔ Forall (λ l, duplicated d l = false)
      (filter (λ c : string * Series, series_dtype c.2 = float64) cols).*1.
Proof.
  intros Hf. induction cols as [|[n s] rest IH]; simpl; [by split; [constructor|]|].
  rewrite filter_cons. simpl.
  destruct (decide (series_dtype s = float64)) as [Hd|]; [|done].
  rewrite fmap_cons, Forall_cons. simpl.
  destruct (duplicated d n); [by split; [|intros [? _]]|].
  destruct s; try discriminate Hd.
  unfold series_apply. simpl. rewrite apply_cells_floats by done.
  destruct (assigned E d rest) as [done r]. simpl in *. rewrite IH. tauto.
Qed.
End Cells.

Lemma series_dtype_iloc ps s : series_dtype (series_iloc ps s) = series_dtype s.
Proof. by destruct s. Qed.

(** Selecting rows that every column has gives the records of these rows,
    in the order asked, as values and as written. *)
Lemma cell_iloc ps df j p c :
  Forall (in_range df) ps → ps !! j = Some p → c ∈ columns df →
  cell (series_iloc ps c.2) j = cell c.2 p.
Proof.
  intros Hps Hj Hc. unfold cell. rewrite series_values_iloc.
  rewrite (iloc_lookup ps _ j p); [done| |done].
  eapply Forall_impl; [exact Hps|]. intros q [_ Hq]. rewrite Forall_forall in Hq.
  by apply (Hq c).
Qed.

Lemma row_at_iloc ps df j p :
  Forall (in_range df) ps → ps !! j = Some p →
  row_at (df_iloc ps df) j = row_at df p.
Proof.
  intros Hps Hj. unfold row_at. simpl.
  rewrite <- list_fmap_compose. apply list_fmap_ext. intros i c Hc. simpl.
  apply (cell_iloc ps df); [done|done|]. by eapply list_elem_of_lookup_2.
Qed.

Lemma fields_at_iloc repr ps df j p :
  Forall (in_range df) ps → ps !! j = Some p →
  fields_at repr (df_iloc ps df) j = fields_at repr df p.
Proof.
  intros Hps Hj. unfold fields_at, field. simpl.
  rewrite <- list_fmap_compose. apply list_fmap_ext. intros i c Hc. simpl.
  rewrite series_dtype_iloc. f_equal.
  apply (cell_iloc ps df); [done|done|]. by eapply list_elem_of_lookup_2.
Qed.

Lemma nrows_iloc ps df : Forall (in_range df) ps → nrows (df_iloc ps df) = length ps.
Proof.
  intros Hps. unfold nrows. simpl. apply iloc_length.
  eapply Forall_impl; [exact Hps|]. by intros p [? _].
Qed.

Lemma rows_iloc ps df :
  Forall (in_range df) ps → rows_loaded (df_iloc ps df) = row_at df <$> ps.
Proof.
  intros Hps. unfold rows_loaded. rewrite (nrows_iloc _ _ Hps).
  apply list_eq. intros j. rewrite !list_lookup_fmap.
  destruct (ps !! j) as [p|] eqn:Hj.
  - rewrite lookup_seq_lt by (by eapply lookup_lt_Some). simpl. f_equal.
    by apply row_at_iloc.
  - rewrite lookup_seq_ge by (by apply lookup_ge_None). done.
Qed.

Lemma written_iloc repr ps df sep :
  Forall (in_range df) ps →
  csv_records (to_csv_text repr (df_iloc ps df) sep) = fields_at repr df <$> ps.
Proof.
  intros Hps. simpl. rewrite (nrows_iloc _ _ Hps).
  apply list_eq. intros j. rewrite !list_lookup_fmap.
  destruct (ps !! j) as [p|] eqn:Hj.
  - rewrite lookup_seq_lt by (by eapply lookup_lt_Some). simpl. f_equal.
    by apply fields_at_iloc.
  - rewrite lookup_seq_ge by (by apply lookup_ge_None). done.
Qed.

Lemma tidy_in_range n df ps :
  tidy n df → Forall (λ p, p < n) ps → Forall (in_range df) ps.
Proof.
  intros [Hidx Hcols] Hps. eapply Forall_impl; [exact Hps|]. intros p Hp.
  simpl in Hp. split; [unfold nrows; lia|]. eapply Forall_impl; [exact Hcols|].
  intros c [Hlen _]. simpl in *. lia.
Qed.

Lemma Forall_head {A} (P : A → Prop) (l : list A) x :
  Forall P l → head l = Some x → P x.
Proof. destruct l; [done|]. intros HP [= <-]. by inversion HP. Qed.


(* ================================================================== *)
(** ** The text a successful analysis returns *)
(* ================================================================== *)

Section Results.
Context (E : Env).

Lemma first_request_cases n csv_data w :
  (∀ k, k < n → ∃ e,
     generate_content_at E (requests w + k) gemini prompt1 csv_data = Raise e)
  ∨ ∃ k r, k < n
      ∧ (∀ j, j < k → ∃ e,
           generate_content_at E (requests w + j) gemini prompt1 csv_data = Raise e)
      ∧ generate_content_at E (requests w + k) gemini prompt1 csv_data = Ok r.
Proof.
  induction n as [|n IH]; [left; intros; lia|].
  destruct IH as [Hall|(k & r & Hk & Hf & Hr)].
  - destruct (generate_content_at E (requests w + n) gemini prompt1 csv_data)
      as [r|e] eqn:Hn.
    + right. exists n, r. auto.
    + left. intros k Hk. destruct (decide (k = n)) as [->|]; [eauto|].
      apply Hall. lia.
  - right. exists k, r. split; [lia|done].
Qed.

#[local] Opaque first_request.

Lemma explain_file_unreadable file_name key csv_data w k :
  files w !! intermediate_path = Some csv_data →
  k < 3 →
  (∀ j, j < k → ∃ e,
     generate_content_at E (requests w + j) gemini prompt1 csv_data = Raise e) →
  generate_content_at E (requests w + k) gemini prompt1 csv_data
    = Ok (mkResponse None) →
  ∃ e w', explain_file E file_name key w = (Raise e, w').
Proof.
  intros Hfile Hk Hf Hs. unfold explain_file.
  unfold mbind at 1, M_bind at 1. unfold configure at 1.
  unfold mbind at 1, M_bind at 1. unfold read_file at 1. simpl files. rewrite Hfile.
  unfold mbind at 1, M_bind at 1.
  rewrite (first_request_answered E 3 k csv_data (log (EConfigure key) w) (mkResponse None));
    [|done| |].
  2:{ intros j Hj. rewrite log_logs, requests_logs. simpl. rewrite Nat.add_0_r. by apply Hf. }
  2:{ rewrite log_logs, requests_logs. simpl. by rewrite Nat.add_0_r. }
  destruct (3 - k) as [|m] eqn:Hm; [lia|].
  unfold mbind at 1, M_bind at 1.
  destruct (decide (S m = 0)) as [|_]; [lia|].
  unfold mret at 1, M_ret at 1.
  unfold mbind at 1, M_bind at 1. unfold mret at 1, M_ret at 1.
  unfold mbind at 1, M_bind at 1. unfold response_text at 1.
  cbn [text]. unfold raise. eauto.
Qed.

#[local] Transparent first_request.

Lemma explain_file_result file_name key w t w' :
  explain_file E file_name key w = (Ok t, w') →
  ∃ csv_data k t1,
    files w !! intermediate_path = Some csv_data
    ∧ k < 3
    ∧ generate_content_at E (requests w + k) gemini prompt1 csv_data
        = Ok (mkResponse (Some t1))
    ∧ t = append_section
            (append_section
               (header E file_name +:+ " " +:+ Py.replace t1 "CSV" EmptyString)
               (section_text
                  (generate_content_at E (requests w + k + 1) gemini prompt2 csv_data)))
            (section_text
               (generate_content_at E (requests w + k + 2) gemini prompt3 csv_data)).
Proof.
  intros Hrun.
  destruct (files w !! intermediate_path) as [csv_data|] eqn:Hfile.
  2:{ unfold explain_file, mbind, M_bind, configure, read_file in Hrun.
      simpl in Hrun. rewrite Hfile in Hrun. discriminate Hrun. }
  destruct (first_request_cases 3 csv_data w) as [Hall|(k & [[t1|]] & Hk & Hf & Hr)].
  - rewrite (explain_file_fatal E _ _ csv_data) in Hrun by done. discriminate Hrun.
  - rewrite (explain_file_answered E _ _ csv_data w k t1) in Hrun by done.
    injection Hrun as <- _. exists csv_data, k, t1. auto.
  - destruct (explain_file_unreadable file_name key csv_data w k) as (e & w1 & He);
      try done.
    rewrite He in Hrun. discriminate Hrun.
Qed.
End Results.

(* ================================================================== *)
(** ** The choice of the reader, and the command line *)
(* ================================================================== *)

Lemma extensions_exclusive f e1 e2 :
  e1 ∈ supported_extensions → e2 ∈ supported_extensions →
  Py.endswith f e1 = true → Py.endswith f e2 = true → e1 = e2.
Proof.
  intros H1 H2 [p Hp]%endswith_spec [q Hq]%endswith_spec.
  rewrite Hp in Hq. apply endswith_rev in Hq.
  unfold supported_extensions in *.
  repeat (apply elem_of_cons in H1 as [->|H1]); [| | | |by apply elem_of_nil in H1];
    (repeat (apply elem_of_cons in H2 as [->|H2]); [| | | |by apply elem_of_nil in H2]);
    try reflexivity; simpl in Hq; discriminate Hq.
Qed.

Lemma reader_of_extension E f ext reader :
  (ext, reader) ∈ [(".csv", pd_read_csv E); (".parquet", pd_read_parquet E);
                   (".avro", no_read_avro); (".json", pd_read_json E)] →
  Py.endswith f ext = true → reader_of E f = Some reader.
Proof.
  intros Hin Hext.
  assert (Hother : ∀ e, e ∈ supported_extensions → e ≠ ext → Py.endswith f e = false).
  { intros e He Hne. destruct (Py.endswith f e) eqn:Hf; [|done].
    exfalso. apply Hne. apply (extensions_exclusive f); try done.
    unfold supported_extensions.
    repeat (apply elem_of_cons in Hin as [[= -> _]|Hin]); rewrite ?elem_of_cons; auto 10.
    by apply elem_of_nil in Hin. }
  unfold reader_of.
  repeat (apply elem_of_cons in Hin as [[= -> ->]|Hin]); [| | | |by apply elem_of_nil in Hin];
    rewrite ?Hext;
    rewrite ?(Hother ".csv"), ?(Hother ".parquet"), ?(Hother ".avro"), ?(Hother ".json");
    try reflexivity; try discriminate;
    unfold supported_extensions; rewrite !elem_of_cons; auto 10.
Qed.


Lemma plain_is_value s : Py.startswith s "-" = false → classify parser s = Some (AValue s).
Proof.
  intros Hs. unfold classify. destruct s as [|c s]; [reflexivity|].
  rewrite startswith_cons, startswith_nil in Hs.
  destruct (Ascii.eqb_spec "-" c) as [|Hc]; [discriminate|]. clear Hs.
  assert (String.eqb (String c s) "--" = false) as ->.
  { apply String.eqb_neq. intros [= ->]. done. }
  destruct c as [[] [] [] [] [] [] [] []]; try reflexivity. done.
Qed.

Lemma parse_both f k :
  classify parser f = Some (AValue f) →
  classify parser k = Some (AValue k) →
  argparse_core parser ["--file_name"; f; "--api_key"; k]
  = Some (Namespace (<["api_key" := k]> (<["file_name" := f]> ∅))).
Proof.
  intros Hf Hk. unfold argparse_core.
  assert (Hargs : mapM (classify parser) ["--file_name"; f; "--api_key"; k]
                  = Some [AStore "--file_name" None; AValue f;
                          AStore "--api_key" None; AValue k]).
  { cbn [mapM]. change (classify parser "--file_name") with (Some (AStore "--file_name" None)).
    change (classify parser "--api_key") with (Some (AStore "--api_key" None)).
    rewrite Hf, Hk. reflexivity. }
  rewrite Hargs. cbn [mbind option_bind consume_args].
  change (dest "--file_name") with "file_name". change (dest "--api_key") with "api_key".
  unfold finish, parser. cbn [forallb].
  change (dest "--file_name") with "file_name". change (dest "--api_key") with "api_key".
  rewrite lookup_insert_eq, lookup_insert_ne by done. rewrite lookup_insert_eq.
  rewrite !bool_decide_eq_true_2 by eauto. reflexivity.
Qed.

Lemma classify_long_store s flag e :
  classify_long parser s = Some (AStore flag e) → flag ∈ parser.
Proof.
  unfold classify_long. destruct (split_eq s) as [p x].
  assert (Hact : ∀ o, o ∈ long_options parser →
            (if String.eqb o "--help" then AHelp x else AStore o x) = AStore flag e →
            flag ∈ parser).
  { intros o Ho. destruct (String.eqb_spec o "--help") as [|Hne]; [done|].
    intros [= <- _]. unfold long_options in Ho. by apply elem_of_cons in Ho as [|]. }
  destruct (existsb (String.eqb p) (long_options parser)) eqn:Hex.
  - intros [= H]. apply (Hact p); [|done].
    apply existsb_exists in Hex as (o & Ho & ->%String.eqb_eq). by apply list_elem_of_In.
  - destruct (filter _ (long_options parser)) as [|o [|o2 os]] eqn:Hfil; [| |done].
    + by destruct (Py.contains s " ").
    + intros [= H]. apply (Hact o); [|done].
      assert (Hin : o ∈ filter (λ o, Py.startswith o p = true) (long_options parser))
        by (rewrite Hfil; left).
      by apply list_elem_of_filter in Hin as [_ ?].
Qed.

Lemma classify_store s flag e :
  classify parser s = Some (AStore flag e) → flag ∈ parser.
Proof.
  unfold classify. destruct (String.eqb s "--"); [done|].
  destruct s as [|a s]; [done|].
  destruct (Ascii.eqb_spec a "-") as [->|Ha].
  - destruct s as [|b s]; [done|].
    destruct (Ascii.eqb_spec b "-") as [->|Hb]; [apply classify_long_store|].
    assert (Hshort : classify_short (String "-" (String b s)) b = Some (AStore flag e)
                     → flag ∈ parser).
    { unfold classify_short. destruct (String.eqb _ "-h"); [done|].
      destruct (_ || _); [done|]. by destruct (Py.contains _ " "). }
    destruct b as [[] [] [] [] [] [] [] []]; try exact Hshort. done.
  - destruct a as [[] [] [] [] [] [] [] []]; try done.
Qed.

Lemma mapM_classify_store argv args flag e :
  mapM (classify parser) argv = Some args → AStore flag e ∈ args → flag ∈ parser.
Proof.
  intros Hm Hin. apply mapM_Some in Hm.
  apply list_elem_of_lookup in Hin as [i Hi].
  destruct (Forall2_lookup_r _ _ _ _ _ Hm Hi) as (s & _ & Hs).
  by apply classify_store in Hs.
Qed.

Lemma dest_parser flag : flag ∈ parser → dest flag ≠ "google_api_key".
Proof.
  unfold parser. rewrite !elem_of_cons, elem_of_nil.
  intros [->|[->|[]]]; vm_compute; discriminate.
Qed.

Lemma consume_args_attribute args ns extras ns' extras' :
  (∀ flag e, AStore flag e ∈ args → flag ∈ parser) →
  ns !! "google_api_key" = None →
  consume_args args ns extras = Scanned ns' extras' →
  ns' !! "google_api_key" = None.
Proof.
  remember (length args) as n eqn:Hn. revert args ns extras Hn.
  induction n as [n IH] using lt_wf_ind. intros args ns extras -> Hargs Hns.
  destruct args as [|a rest]; [by intros [= <- _]|].
  assert (Hrest : ∀ flag e, AStore flag e ∈ rest → flag ∈ parser).
  { intros flag e Hin. apply (Hargs flag e). by right. }
  destruct a as [v|[x|]|flag [v|]|]; simpl.
  - apply (IH (length rest)); simpl; auto.
  - done.
  - done.
  - apply (IH (length rest)); simpl; auto.
    rewrite lookup_insert_ne; [done|]. apply dest_parser, (Hargs flag (Some v)). left.
  - destruct rest as [|[v| | |] rest']; try done.
    apply (IH (length rest')); simpl; auto.
    + intros fl e Hin. apply (Hrest fl e). by right.
    + rewrite lookup_insert_ne; [done|]. apply dest_parser, (Hargs flag None). left.
  - apply (IH (length rest)); simpl; auto.
Qed.

(** A namespace argparse returns has the attribute [file_name] and no
    attribute [google_api_key]. *)
Lemma namespace_attributes E argv ns :
  default (outcome_of parser (argparse_other E argv)) (argparse_core parser argv)
    = Namespace ns →
  is_Some (ns !! "file_name") ∧ ns !! "google_api_key" = None.
Proof.
  unfold argparse_core.
  destruct (mapM (classify parser) argv) as [args|] eqn:Hargs; simpl.
  - unfold finish.
    destruct (consume_args args ∅ false) as [ns' extras| |] eqn:Hscan; try done.
    destruct extras; [done|].
    destruct (forallb _ parser) eqn:Hall; [|done]. intros [= <-].
    split.
    + unfold parser in Hall. cbn [forallb] in Hall.
      apply andb_prop in Hall as [Hf _]. by apply bool_decide_eq_true in Hf.
    + apply (consume_args_attribute args ∅ false ns' false); [|done|done].
      intros flag e. by apply mapM_classify_store with argv.
  - destruct (argparse_other E argv) as [value| |]; try done.
    simpl. intros [= <-]. unfold namespace_of, parser. simpl.
    change (dest "--file_name") with "file_name". change (dest "--api_key") with "api_key".
    split; [by rewrite lookup_insert_eq|].
    by rewrite !lookup_insert_ne, lookup_empty.
Qed.

(* ================================================================== *)
(** ** The claims *)
(* ================================================================== *)

(** C1.  When the first three requests sent to the model fail,
    [explain_file] makes exactly three attempts, sleeps 5 seconds after
    each of them and raises the fatal exception; [data_analyzer] then
    stops with an exception, records no [save] of a PDF and leaves every
    path other than the intermediate file as it was. *)
Theorem mandatory_request_exhausted (E : Env) file_name key w :
  (∀ k d, k < 3 → ∃ e,
     generate_content_at E (requests w + k) gemini prompt1 d = Raise e) →
  (∀ csv_data, files w !! intermediate_path = Some csv_data →
     explain_file E file_name key w =
       (Raise (Exception_ fatal_message),
        logs (EConfigure key :: concat (replicate 3 (failed_attempt csv_data))) w))
  ∧ ∃ e w', data_analyzer E file_name key w = (Raise e, w')
      ∧ List.filter is_save (trace w') = List.filter is_save (trace w)
      ∧ (∀ p, p ≠ intermediate_path → files w' !! p = files w !! p)
      ∧ (∀ w1, check_file_type E file_name (logs pipeline_prints w) = (Ok tt, w1) →
           e = Exception_ fatal_message
           ∧ ∃ csv_data, files w1 !! intermediate_path = Some csv_data
               ∧ w' = logs (analysis_prints ++ EConfigure key
                              :: concat (replicate 3 (failed_attempt csv_data))) w1).
Proof.
  intros Hf. split.
  { intros csv_data Hc. apply explain_file_fatal; [done|]. intros k Hk. by apply Hf. }
  rewrite data_analyzer_unfold. fold pipeline_prints.
  pose proof (check_file_type_frame E file_name (logs pipeline_prints w)) as Hframe.
  destruct (check_file_type E file_name (logs pipeline_prints w)) as [r w1].
  destruct Hframe as ((ps & Htr & Hps) & Hfiles & Hr). simpl in *.
  assert (Hsave1 : List.filter is_save (trace w1) = List.filter is_save (trace w)).
  { rewrite Htr, !List.filter_app. simpl.
    rewrite (filter_prints is_save ps), !app_nil_r; [done| |done]. by intros []. }
  destruct r as [[]|e]; simpl.
  - destruct Hr as [csv_data Hcsv]. fold analysis_prints.
    rewrite (explain_file_fatal E _ _ csv_data); [| done |].
    + simpl. eexists _, _. split; [reflexivity|]. rewrite logs_logs.
      split; [|split].
      * unfold logs. cbn [trace]. rewrite List.filter_app, Hsave1.
        simpl. by rewrite app_nil_r.
      * done.
      * intros w1' [= <-]. split; [done|]. exists csv_data. done.
    + intros k Hk. rewrite requests_logs. simpl. rewrite Nat.add_0_r.
      assert (Hreq : requests w1 = requests w).
      { unfold requests. rewrite Htr, !List.filter_app. simpl.
        rewrite (filter_prints is_generate ps), !app_nil_r; [done| |done]. by intros []. }
      rewrite Hreq. by apply Hf.
  - eexists _, _. split; [reflexivity|]. split; [done|]. split; [done|].
    intros w1' [=].
Qed.


(** C6.  [check_file_type] raises FileNotFoundError for a path that does
    not exist and ValueError (the unsupported-format error) for an
    existing path with none of the four extensions; with such an extension
    [data_analyzer] stops after its first progress line, before any
    request to the model. *)
Theorem loader_rejects (E : Env) file_name key w :
  (files w !! file_name = None →
     check_file_type E file_name w =
       (Raise (FileNotFoundError ("File " +:+ file_name +:+ " not found")), w))
  ∧ (is_Some (files w !! file_name) → supported file_name = false →
     check_file_type E file_name w =
       (Raise (ValueError ("File type " +:+ file_name +:+ " not supported")), w))
  ∧ (supported file_name = false →
     ∃ e w', data_analyzer E file_name key w = (Raise e, w')
       ∧ trace w' = trace w ++ [EPrint "Analyzing the format of the file..."]
       ∧ requests w' = requests w
       ∧ files w' = files w).
Proof.
  split; [|split].
  - intros Hn. rewrite check_file_type_unfold, Hn. reflexivity.
  - intros [c Hc] Hs. rewrite check_file_type_unfold, Hc, (reader_of_unsupported E) by done.
    reflexivity.
  - intros Hs. unfold data_analyzer. rewrite print_step.
    unfold mbind, M_bind. rewrite check_file_type_unfold.
    rewrite (reader_of_unsupported E) by done.
    destruct (files (logs _ w) !! file_name); eexists _, _; (split; [reflexivity|]);
      rewrite requests_logs; simpl; auto with lia.
Qed.


(** C10.  When fewer than 250 rows are left after [dropna], the sampling
    step raises, [to_csv] is not reached, and the working directory is
    exactly what it was: no intermediate file is created and an existing
    one is not touched. *)
Theorem sample_too_small (E : Env) file_name w df :
  loads E file_name w df →
  nrows (dropna df) < 250 →
  ∃ w', check_file_type E file_name w = (Raise (ValueError sample_error), w')
    ∧ files w' = files w.
Proof.
  intros Hl Hn. rewrite (check_file_type_loads E _ _ _ Hl).
  unfold loader_outcome.
  pose proof (format_loop_nrows E (float64_columns (dropna df)) (dropna df)) as Hrows.
  destruct (format_loop E (float64_columns (dropna df)) (dropna df)) as [d' r].
  simpl in Hrows.
  destruct (Nat.ltb_spec (nrows d') 250) as [_|Hge]; [|lia].
  destruct r; eexists; split; reflexivity.
Qed.




(** C2.  With both flags given, each followed by a text that argparse
    reads as a value (any text that does not start with a dash is one),
    the entry point reads the attribute [google_api_key], which the parser
    never defines (the flag is [--api_key]): it raises AttributeError
    before [data_analyzer] is called, whatever the two values are. *)
Theorem main_attribute_error E f k w :
  classify parser f = Some (AValue f) →
  classify parser k = Some (AValue k) →
  main E ["--file_name"; f; "--api_key"; k] w =
    (Raise (AttributeError "'Namespace' object has no attribute 'google_api_key'"), w).
Proof.
  intros Hf Hk. unfold main, parse_args. rewrite (parse_both f k Hf Hk).
  cbn [default]. set (ns := <["api_key" := k]> (<["file_name" := f]> ∅)).
  assert (H1 : getattr ns "file_name" = mret f).
  { unfold getattr, ns. rewrite lookup_insert_ne by done. by rewrite lookup_insert_eq. }
  assert (H2 : getattr ns "google_api_key"
               = raise (AttributeError "'Namespace' object has no attribute 'google_api_key'")).
  { unfold getattr, ns. rewrite !lookup_insert_ne by done. by rewrite lookup_empty. }
  change (id (Namespace ns)) with (Namespace ns). cbv iota.
  unfold mbind, M_bind. unfold mret at 1, M_ret at 1. rewrite H1.
  unfold mret at 1, M_ret at 1. rewrite H2. reflexivity.
Qed.

(** C9.  The extension test is a case-sensitive suffix test: an existing
    file whose name ends with a supported extension spelled with an upper
    case letter is refused with the unsupported-format error. *)
Theorem case_sensitive_extension (E : Env) p v ext w :
  ext ∈ supported_extensions →
  case_variant v ext →
  is_Some (files w !! (p +:+ v)) →
  check_file_type E (p +:+ v) w =
    (Raise (ValueError ("File type " +:+ (p +:+ v) +:+ " not supported")), w).
Proof.
  intros Hext Hv [c Hc].
  rewrite check_file_type_unfold, Hc, (reader_of_unsupported E); [done|].
  unfold supported, supported_extensions. simpl.
  rewrite !(variant_not_supported p v ext)
    by first [done | unfold supported_extensions; rewrite !elem_of_cons; auto 10].
  reflexivity.
Qed.


(** C3.  A file whose name ends with ".avro" is never loaded: pandas has
    no [read_avro], so that branch raises AttributeError for every existing
    file, whatever it holds.  Nothing is written, and [data_analyzer] stops
    after its first line without sending a request. *)
Theorem avro_files_are_refused (E : Env) file_name key w :
  is_Some (files w !! file_name) →
  Py.endswith file_name ".avro" = true →
  check_file_type E file_name w
    = (Raise (AttributeError "module 'pandas' has no attribute 'read_avro'"), w)
  ∧ data_analyzer E file_name key w
    = (Raise (AttributeError "module 'pandas' has no attribute 'read_avro'"),
       logs pipeline_prints w).
Proof.
  intros [c Hc] Hext.
  assert (Hload : ∀ w0, files w0 = files w →
            check_file_type E file_name w0
            = (Raise (AttributeError "module 'pandas' has no attribute 'read_avro'"), w0)).
  { intros w0 Hw0. rewrite check_file_type_unfold, Hw0, Hc.
    rewrite (reader_of_extension E file_name ".avro" no_read_avro); [done| |done].
    rewrite !elem_of_cons. auto 10. }
  split; [by apply Hload|].
  rewrite data_analyzer_unfold. change [EPrint _] with pipeline_prints.
  by rewrite Hload.
Qed.

(** C7 (amended).  With at least 250 complete rows the loader returns, and
    in the intermediate file every field of a float64 column that the loop
    assigned is the text the callback returned for its value; every other
    field (other dtypes, float32 included, and the float64 columns from the
    failing one on) is the text [to_csv] writes for the value as loaded.
    The loop assigns the float64 columns in order up to the first one
    whose label names several columns or on which the callback raises;
    only then is "Cannot format float values." printed.  With CPython's
    formatter, which renders every float with two decimals, the loop
    raises exactly when the label of a float64 column is duplicated. *)
Theorem float64_columns_formatted (E : Env) file_name w df :
  loads E file_name w df →
  250 ≤ nrows (dropna df) →
  let d := dropna df in
  let done := (assigned E d (columns d)).1 in
  let outcome := (assigned E d (columns d)).2 in
  ∃ w' artifact,
    check_file_type E file_name w = (Ok tt, w')
    ∧ files w' !! intermediate_path = Some (CsvText artifact)
    ∧ trace w' = trace w ++ match outcome with
                            | Ok _ => []
                            | Raise _ => [EPrint "Cannot format float values."]
                            end
    ∧ Forall (λ r, r ∈ rows_after E done d) (csv_records artifact)
    ∧ done `prefix_of` float64_columns d
    ∧ (outcome = Ok tt → done = float64_columns d)
    ∧ ((∀ x, format_cell E (VFloat x) = Ok (format_2f x)) →
       (outcome = Ok tt ↔ Forall (λ l, duplicated d l = false) (float64_columns d))).
Proof.
  intros Hl Hn d done outcome. change (250 ≤ nrows d) in Hn.
  pose proof (dropna_tidy df) as Ht. fold d in Ht.
  rewrite (check_file_type_loads E _ _ _ Hl). unfold loader_outcome. fold d.
  pose proof (format_loop_tidy E _ (float64_columns d) _ Ht) as Ht'.
  rewrite (format_loop_spec E d) in * by lia. fold done outcome in Ht' |- *.
  cbn [fst] in Ht'.
  set (d' := {| index := index d; columns := assign E done <$> columns d |}) in *.
  assert (Hrows : nrows d' = nrows d) by done. rewrite Hrows.
  destruct (Nat.ltb_spec (nrows d) 250) as [Hlt|_]; [lia|].
  set (w1 := match outcome with Ok _ => w | Raise _ => _ end).
  assert (Hps : Forall (λ p, p < nrows d)
                  (choose (random E) (draws w1) 250 (seq 0 (nrows d)))).
  { apply Forall_forall. intros p Hp%choose_subseteq. apply elem_of_seq in Hp. lia. }
  revert Hps. generalize (choose (random E) (draws w1) 250 (seq 0 (nrows d))).
  intros ps Hps.
  eexists _, _. split; [reflexivity|]. split; [simpl; by rewrite lookup_insert_eq|].
  split; [|split; [|split; [|split]]].
  - unfold w1. destruct outcome; simpl; [by rewrite app_nil_r|done].
  - rewrite (written_iloc _ ps d' ",") by (by apply (tidy_in_range (nrows d))).
    apply Forall_fmap, Forall_forall. intros p Hp. simpl.
    rewrite Forall_forall in Hps. specialize (Hps p Hp). simpl in Hps.
    unfold rows_after. apply list_elem_of_fmap.
    exists p. split; [|apply elem_of_seq; lia].
    unfold fields_at, d'. simpl. rewrite <- list_fmap_compose.
    apply list_fmap_ext. intros i c Hc. simpl.
    apply list_elem_of_lookup_2 in Hc.
    apply cell_assign.
    + intros Hd. by apply (assigned_ok E d).
    + destruct Ht as [_ Hcols]. rewrite Forall_forall in Hcols.
      destruct (Hcols _ Hc) as [-> _]. done.
  - apply assigned_prefix.
  - apply assigned_all.
  - intros Hf. by apply assigned_python.
Qed.

(** C7, as stated, fails twice.  A float32 column is not selected by
    [select_dtypes(include='float64')], so its cells are written as
    loaded; and when the label of the second float64 column names two
    columns, the loop raises there with CPython's own formatter after the
    first column has been replaced by texts, so the values do not all pass
    through unchanged. *)
Lemma formatting_claim_fails :
  ¬ formatting_claim (test_env (table 300) python_format unavailable)
      "sales.parquet" (disk "sales.parquet")
  ∧ ¬ formatting_claim (test_env (table_dup 300) python_format unavailable)
      "sales.parquet" (disk "sales.parquet").
Proof.
  split; intros H.
  - set (E := test_env (table 300) python_format unavailable) in *.
    set (w' := (check_file_type E "sales.parquet" (disk "sales.parquet")).2).
    specialize (H (table 300) w' (artifact_of w')).
    assert (Hl : loads E "sales.parquet" (disk "sales.parquet") (table 300)).
    { eexists _, _. split; [reflexivity|]. split; reflexivity. }
    assert (H1 : check_file_type E "sales.parquet" (disk "sales.parquet") = (Ok tt, w')).
    { vm_compute. reflexivity. }
    assert (H2 : files w' !! intermediate_path = Some (CsvText (artifact_of w'))).
    { vm_compute. reflexivity. }
    specialize (H Hl H1 H2). cbv zeta in H.
    assert (HX : (format_loop E (float64_columns (dropna (table 300))) (dropna (table 300))).2 = Ok tt).
    { vm_compute. reflexivity. }
    rewrite HX in H.
    assert (Hh : head (csv_records (artifact_of w'))
                 = Some ["1.50"; "0.12"; "2.0"; "7"; "a"]).
    { vm_compute. reflexivity. }
    pose proof (Forall_head _ _ _ H Hh) as Hin.
    assert (Hno : bool_decide (["1.50"; "0.12"; "2.0"; "7"; "a"]
                                 ∈ rows_rendered E (dropna (table 300))) = false).
    { vm_compute. reflexivity. }
    apply bool_decide_eq_false in Hno. contradiction.
  - set (E := test_env (table_dup 300) python_format unavailable) in *.
    set (w' := (check_file_type E "sales.parquet" (disk "sales.parquet")).2).
    specialize (H (table_dup 300) w' (artifact_of w')).
    assert (Hl : loads E "sales.parquet" (disk "sales.parquet") (table_dup 300)).
    { eexists _, _. split; [reflexivity|]. split; reflexivity. }
    assert (H1 : check_file_type E "sales.parquet" (disk "sales.parquet") = (Ok tt, w')).
    { vm_compute. reflexivity. }
    assert (H2 : files w' !! intermediate_path = Some (CsvText (artifact_of w'))).
    { vm_compute. reflexivity. }
    specialize (H Hl H1 H2). cbv zeta in H.
    assert (HX : (format_loop E (float64_columns (dropna (table_dup 300)))
                    (dropna (table_dup 300))).2
                 = Raise series_format_error).
    { vm_compute. reflexivity. }
    rewrite HX in H. destruct H as [_ H].
    assert (Hh : head (csv_records (artifact_of w'))
                 = Some ["1.50"; "0.125"; "7"; "a"]).
    { vm_compute. reflexivity. }
    pose proof (Forall_head _ _ _ H Hh) as Hin.
    assert (Hno : bool_decide (["1.50"; "0.125"; "7"; "a"]
                                 ∈ rows_written E (dropna (table_dup 300))) = false).
    { vm_compute. reflexivity. }
    apply bool_decide_eq_false in Hno. contradiction.
Qed.

(** C5 (amended).  The text [explain_file] returns is the header, a space
    and the first response, then a line feed and the response for each
    optional request that was answered, every response having gone through
    one left-to-right pass that removes "CSV".  That pass does not
    look again at what it has produced, and the header carries the file
    label as given: the text is free of "CSV" when the label is and when
    no response contains "CCSV" or "CSCSV", the two ways in which a removal
    can bring the letters of "CSV" together. *)
Theorem csv_removed_in_one_pass (E : Env) file_name key w t w' :
  explain_file E file_name key w = (Ok t, w') →
  ∃ csv_data k t1,
    let o2 := section_text
                (generate_content_at E (requests w + k + 1) gemini prompt2 csv_data) in
    let o3 := section_text
                (generate_content_at E (requests w + k + 2) gemini prompt3 csv_data) in
    generate_content_at E (requests w + k) gemini prompt1 csv_data
      = Ok (mkResponse (Some t1))
    ∧ t = append_section
            (append_section
               (header E file_name +:+ " " +:+ Py.replace t1 "CSV" EmptyString) o2) o3
    ∧ (Py.contains (Py.split_head file_name "/") "CSV" = false →
       csv_safe t1 →
       (∀ t2, o2 = Some t2 → csv_safe t2) →
       (∀ t3, o3 = Some t3 → csv_safe t3) →
       Py.contains t "CSV" = false).
Proof.
  intros Hrun.
  destruct (explain_file_result E _ _ _ _ _ Hrun) as (csv_data & k & t1 & _ & _ & Hr & ->).
  exists csv_data, k, t1. cbv zeta. split; [done|]. split; [done|].
  apply assembled_free.
Qed.


(** C5, as stated, fails: the response "CCSVSV" leaves "CSV" behind, and
    a file label containing "CSV" is copied into the header. *)
Lemma csv_claim_fails :
  ¬ csv_claim (test_env (table 300) python_format (answers "CCSVSV"))
      "sales.csv" "key"
      (loaded_disk (test_env (table 300) python_format (answers "CCSVSV")) "sales.csv")
  ∧ ¬ csv_claim (test_env (table 300) python_format (answers "Two columns."))
      "CSV_export.csv" "key"
      (loaded_disk (test_env (table 300) python_format (answers "Two columns."))
         "CSV_export.csv").
Proof.
  split; intros H.
  - set (E := test_env (table 300) python_format (answers "CCSVSV")) in *.
    set (run := explain_file E "sales.csv" "key" (loaded_disk E "sales.csv")).
    assert (Hrun : run = (Ok (text_of run), run.2)) by (vm_compute; reflexivity).
    apply H in Hrun.
    assert (Hin : Py.contains (text_of run) "CSV" = true) by (vm_compute; reflexivity).
    congruence.
  - set (E := test_env (table 300) python_format (answers "Two columns.")) in *.
    set (run := explain_file E "CSV_export.csv" "key" (loaded_disk E "CSV_export.csv")).
    assert (Hrun : run = (Ok (text_of run), run.2)) by (vm_compute; reflexivity).
    apply H in Hrun.
    assert (Hin : Py.contains (text_of run) "CSV" = true) by (vm_compute; reflexivity).
    congruence.
Qed.

(* ================================================================== *)
(** ** Further properties of the loader, the analyzer, the reporter, the
       pipeline and the command line *)
(* ================================================================== *)

Lemma total_sleep_app es1 es2 : total_sleep (es1 ++ es2) = total_sleep es1 + total_sleep es2.
Proof.
  induction es1 as [|e es1 IH]; [done|]. destruct e; simpl; rewrite IH; lia.
Qed.

Section Budget.
Context (P : event → Prop).

Lemma spends_refl w : spends P 0 0 w w.
Proof.
  split; [done|]. split; [done|]. exists []. rewrite app_nil_r. repeat split; auto.
Qed.

Lemma spends_log e w :
  P e →
  spends P (if is_generate e then 1 else 0) (total_sleep [e]) w (log e w).
Proof.
  intros He. split; [done|]. split; [done|]. exists [e]. split; [done|].
  split; [by constructor|]. simpl. split; [|done]. by destruct (is_generate e).
Qed.

Lemma spends_trans g1 s1 g2 s2 w1 w2 w3 :
  spends P g1 s1 w1 w2 → spends P g2 s2 w2 w3 → spends P (g1 + g2) (s1 + s2) w1 w3.
Proof.
  intros (Hf1 & Hd1 & es1 & Ht1 & Hs1 & Hg1 & Hz1) (Hf2 & Hd2 & es2 & Ht2 & Hs2 & Hg2 & Hz2).
  split; [congruence|]. split; [congruence|]. exists (es1 ++ es2).
  split; [by rewrite Ht2, Ht1, app_assoc|].
  split; [by apply Forall_app|].
  rewrite !List.filter_app, length_app, total_sleep_app. lia.
Qed.

Lemma spends_weaken g s g' s' w w' :
  spends P g s w w' → g ≤ g' → s ≤ s' → spends P g' s' w w'.
Proof.
  intros (Hf & Hd & es & Ht & Hs & Hg & Hz) ? ?.
  split; [done|]. split; [done|]. exists es. repeat split; auto; lia.
Qed.

Lemma costs_weaken {A} g s g' s' (m : M A) :
  costs P g s m → g ≤ g' → s ≤ s' → costs P g' s' m.
Proof. intros Hm ? ? w. by eapply spends_weaken. Qed.

Lemma costs_ret {A} (a : A) : costs P 0 0 (mret a).
Proof. intros w. apply spends_refl. Qed.

Lemma costs_raise {A} e : costs P 0 0 (raise e : M A).
Proof. intros w. apply spends_refl. Qed.

Lemma costs_print line : P (EPrint line) → costs P 0 0 (print line).
Proof. intros H w. by apply (spends_log (EPrint line)). Qed.

Lemma costs_sleep n : P (ESleep n) → costs P 0 n (sleep n).
Proof.
  intros H w. eapply spends_weaken; [by apply (spends_log (ESleep n))|done|simpl; lia].
Qed.

Lemma costs_generate E model prompt data :
  P (EGenerate model prompt data) → costs P 1 0 (generate_content E model prompt data).
Proof. intros H w. by apply (spends_log (EGenerate model prompt data)). Qed.

Lemma costs_response_text r : costs P 0 0 (response_text r).
Proof. unfold response_text. destruct (text r); [apply costs_ret|apply costs_raise]. Qed.

Lemma spends_bind {A B} g1 s1 g2 s2 (m : M A) (f : A → M B) w :
  spends P g1 s1 w (m w).2 →
  (∀ a w1, m w = (Ok a, w1) → spends P g2 s2 w1 (f a w1).2) →
  spends P (g1 + g2) (s1 + s2) w ((m ≫= f) w).2.
Proof.
  intros Hm Hf. unfold mbind, M_bind.
  destruct (m w) as [[a|e] w1]; simpl in *.
  - eapply spends_trans; [exact Hm|]. by apply Hf.
  - eapply spends_weaken; [exact Hm|lia|lia].
Qed.

Lemma costs_bind {A B} g1 s1 g2 s2 (m : M A) (f : A → M B) :
  costs P g1 s1 m → (∀ a, costs P g2 s2 (f a)) → costs P (g1 + g2) (s1 + s2) (m ≫= f).
Proof. intros Hm Hf w. apply spends_bind; [apply Hm|]. intros a w1 _. apply Hf. Qed.

Lemma costs_try_except {A} g1 s1 g2 s2 (body handler : M A) :
  costs P g1 s1 body → costs P g2 s2 handler →
  costs P (g1 + g2) (s1 + s2) (try_except body handler).
Proof.
  intros Hb Hh w. unfold try_except. specialize (Hb w).
  destruct (body w) as [[a|e] w1]; simpl in *.
  - eapply spends_weaken; [exact Hb|lia|lia].
  - eapply spends_trans; [exact Hb|]. apply Hh.
Qed.

Lemma costs_attempt {A} g s (m : M A) : costs P g s m → costs P g s (attempt m).
Proof. intros Hm w. unfold attempt. specialize (Hm w). by destruct (m w). Qed.

End Budget.

Section AnalyzerBudget.
Context (E : Env) (csv_data : content).

Lemma service_generate prompt :
  prompt ∈ [prompt1; prompt2; prompt3] → service_event (Some csv_data) (EGenerate gemini prompt csv_data).
Proof. by intros H. Qed.

Lemma costs_first_request n :
  costs (service_event (Some csv_data)) n (5 * n) (first_request E gemini csv_data n).
Proof.
  induction n as [|n IH]; [apply costs_ret|].
  simpl first_request.
  eapply costs_weaken; [apply (costs_bind _ 1 0 n (5 + 5 * n))| |]; [| |lia|lia].
  - apply costs_attempt, costs_generate, service_generate. rewrite !elem_of_cons. auto.
  - intros [r|e]; [eapply costs_weaken; [apply costs_ret|lia|lia]|].
    eapply costs_weaken; [apply (costs_bind _ 0 0 n (5 + 5 * n))| |]; [| |lia|lia].
    + by apply costs_print.
    + intros _. eapply costs_weaken; [apply (costs_bind _ 0 5 n (5 * n))| |]; [| |lia|lia].
      * by apply costs_sleep.
      * intros _. apply IH.
Qed.

Lemma costs_optional prompt (text_md line missing : string) :
  prompt ∈ [prompt1; prompt2; prompt3] →
  costs (service_event (Some csv_data)) 1 0 (try_except
    (print line;;
     response ← generate_content E gemini prompt csv_data;
     t ← response_text response;
     mret (text_md +:+ Py.nl +:+ Py.replace t "CSV" EmptyString))
    (print part_message;;
     print missing;;
     mret text_md)).
Proof.
  intros Hp. apply (costs_try_except _ 1 0 0 0).
  - apply (costs_bind _ 0 0 1 0); [by apply costs_print|]. intros _.
    apply (costs_bind _ 1 0 0 0); [by apply costs_generate, service_generate|]. intros r.
    apply (costs_bind _ 0 0 0 0); [apply costs_response_text|]. intros t.
    apply costs_ret.
  - apply (costs_bind _ 0 0 0 0); [by apply costs_print|]. intros _.
    apply (costs_bind _ 0 0 0 0); [by apply costs_print|]. intros _.
    apply costs_ret.
Qed.

End AnalyzerBudget.

Lemma explain_file_events E file_name key w :
  spends (service_event (files w !! intermediate_path)) 5 15 w
    (explain_file E file_name key w).2.
Proof.
  unfold explain_file.
  apply (spends_bind _ 0 0 5 15); [by apply (spends_log _ (EConfigure key))|].
  intros [] w1 [= <-].
  change (files (log (EConfigure key) w)) with (files w).
  apply (spends_bind _ 0 0 5 15).
  { unfold read_file. change (files (log (EConfigure key) w)) with (files w).
    destruct (files w !! intermediate_path); apply spends_refl. }
  intros csv_data w1 Hread. unfold read_file in Hread.
  change (files (log (EConfigure key) w)) with (files w) in Hread.
  destruct (files w !! intermediate_path) as [d|]; [|discriminate].
  injection Hread as Hd Hw. subst csv_data w1.
  revert d. intros csv_data. generalize (log (EConfigure key) w). intros w1. revert w1.
  change (costs (service_event (Some csv_data)) 5 15
    ('(response_try, response) ← first_request E gemini csv_data 3;
     (if decide (response_try = 0) then raise (Exception_ fatal_message) else mret tt);;
     response ← match response with
                | Some r => mret r
                | None => raise (NameError "response")
                end;
     let text_md := header E file_name in
     t ← response_text response;
     let text_md := text_md +:+ " " +:+ Py.replace t "CSV" EmptyString in
     text_md ← try_except
       (print "Generating data visualization techniques for data analysis of this file...";;
        response ← generate_content E gemini prompt2 csv_data;
        t ← response_text response;
        mret (text_md +:+ Py.nl +:+ Py.replace t "CSV" EmptyString))
       (print part_message;;
        print missing2;;
        mret text_md);
     text_md ← try_except
       (print "Generating data optimization report in pandas...";;
        response ← generate_content E gemini prompt3 csv_data;
        t ← response_text response;
        mret (text_md +:+ Py.nl +:+ Py.replace t "CSV" EmptyString))
       (print part_message;;
        print missing3;;
        mret text_md);
     mret text_md)).
  apply (costs_bind _ 3 15 2 0); [apply (costs_first_request E csv_data 3)|].
  intros [k r].
  apply (costs_bind _ 0 0 2 0).
  { destruct (decide (k = 0)); [apply costs_raise|apply costs_ret]. }
  intros _.
  apply (costs_bind _ 0 0 2 0).
  { destruct r; [apply costs_ret|apply costs_raise]. }
  intros r1.
  apply (costs_bind _ 0 0 2 0); [apply costs_response_text|]. intros t.
  apply (costs_bind _ 1 0 1 0);
    [apply costs_optional; rewrite !elem_of_cons; auto|]. intros t2.
  apply (costs_bind _ 1 0 0 0);
    [apply costs_optional; rewrite !elem_of_cons; auto|]. intros t3.
  apply costs_ret.
Qed.

Lemma service_events_no_save o es :
  Forall (service_event o) es → List.filter is_save es = [].
Proof.
  induction 1 as [|e es He _ IH]; [done|]. destruct e; simpl; try done.
Qed.

(** X13.  Whatever the service and the directory do, [explain_file] leaves
    the directory and the random source untouched, saves no PDF, sends at
    most five requests (three attempts of the first, one of each optional
    one) and sleeps at most fifteen seconds. *)
Theorem explain_file_budget E file_name key w :
  let w' := (explain_file E file_name key w).2 in
  files w' = files w
  ∧ draws w' = draws w
  ∧ ∃ es, trace w' = trace w ++ es
      ∧ List.filter is_save es = []
      ∧ length (List.filter is_generate es) ≤ 5
      ∧ total_sleep es ≤ 15.
Proof.
  destruct (explain_file_events E file_name key w) as (Hf & Hd & es & Ht & HP & Hg & Hs).
  split; [exact Hf|]. split; [exact Hd|]. exists es.
  split; [exact Ht|]. split; [by eapply service_events_no_save|]. split; [exact Hg|exact Hs].
Qed.

(** X14.  Every request [explain_file] sends goes to the configured Gemini
    model, carries one of the three prompts of the source, and carries the
    content the intermediate file had when the function was entered. *)
Theorem requests_carry_the_sample E file_name key w :
  ∃ es, trace (explain_file E file_name key w).2 = trace w ++ es
    ∧ ∀ model prompt data, EGenerate model prompt data ∈ es →
        model = gemini
        ∧ files w !! intermediate_path = Some data
        ∧ prompt ∈ [prompt1; prompt2; prompt3].
Proof.
  destruct (explain_file_events E file_name key w) as (_ & _ & es & Ht & HP & _).
  exists es. split; [exact Ht|]. intros model prompt data Hin.
  rewrite Forall_forall in HP. exact (HP _ Hin).
Qed.

Lemma explain_file_unreadable_exact E file_name key csv_data w k :
  files w !! intermediate_path = Some csv_data →
  k < 3 →
  (∀ j, j < k → ∃ e,
     generate_content_at E (requests w + j) gemini prompt1 csv_data = Raise e) →
  generate_content_at E (requests w + k) gemini prompt1 csv_data
    = Ok (mkResponse None) →
  explain_file E file_name key w =
    (Raise (ValueError "response.text"),
     logs (EConfigure key
             :: concat (replicate k (failed_attempt csv_data))
             ++ [EGenerate gemini prompt1 csv_data]) w).
Proof.
  intros Hfile Hk Hf Hs. unfold explain_file.
  unfold mbind at 1, M_bind at 1. unfold configure at 1.
  unfold mbind at 1, M_bind at 1. unfold read_file at 1. simpl files. rewrite Hfile.
  unfold mbind at 1, M_bind at 1.
  rewrite (first_request_answered E 3 k csv_data (log (EConfigure key) w) (mkResponse None));
    [|done| |].
  2:{ intros j Hj. rewrite log_logs, requests_logs. simpl. rewrite Nat.add_0_r. by apply Hf. }
  2:{ rewrite log_logs, requests_logs. simpl. by rewrite Nat.add_0_r. }
  destruct (3 - k) as [|m] eqn:Hm; [lia|].
  unfold mbind at 1, M_bind at 1.
  destruct (decide (S m = 0)) as [|_]; [lia|].
  unfold mret at 1, M_ret at 1.
  unfold mbind at 1, M_bind at 1. unfold mret at 1, M_ret at 1.
  unfold mbind at 1, M_bind at 1. unfold response_text at 1.
  cbn [text]. unfold raise. rewrite log_logs, logs_logs. reflexivity.
Qed.

Lemma failed_attempts_requests n c :
  length (List.filter is_generate (concat (replicate n (failed_attempt c)))) = n.
Proof. induction n as [|n IH]; simpl; [done|]. by rewrite IH. Qed.

Lemma failed_attempts_sleep n c :
  total_sleep (concat (replicate n (failed_attempt c))) = 5 * n.
Proof. induction n as [|n IH]; simpl; [done|]. simpl in IH. rewrite IH. lia. Qed.

Lemma failed_attempts_prints n c :
  List.filter is_print (concat (replicate n (failed_attempt c)))
  = replicate n (EPrint retry_message).
Proof. induction n as [|n IH]; simpl; [done|]. by rewrite IH. Qed.

(** X10.  [explain_file] returns normally exactly when the intermediate
    file exists and, among the first three requests, the first one that
    does not raise comes back with a readable text.  The optional requests
    play no part. *)
Theorem explain_file_succeeds_iff E file_name key w :
  (∃ t w', explain_file E file_name key w = (Ok t, w'))
  ↔ ∃ csv_data k t1,
      files w !! intermediate_path = Some csv_data
      ∧ k < 3
      ∧ (∀ j, j < k → ∃ e,
           generate_content_at E (requests w + j) gemini prompt1 csv_data = Raise e)
      ∧ generate_content_at E (requests w + k) gemini prompt1 csv_data
          = Ok (mkResponse (Some t1)).
Proof.
  split.
  - intros (t & w' & Hrun).
    destruct (files w !! intermediate_path) as [csv_data|] eqn:Hfile.
    2:{ unfold explain_file, mbind, M_bind, configure, read_file in Hrun.
        simpl in Hrun. rewrite Hfile in Hrun. discriminate Hrun. }
    destruct (first_request_cases E 3 csv_data w) as [Hall|(k & [[t1|]] & Hk & Hf & Hr)].
    + rewrite (explain_file_fatal E _ _ csv_data) in Hrun by done. discriminate Hrun.
    + exists csv_data, k, t1. auto.
    + rewrite (explain_file_unreadable_exact E _ _ csv_data w k) in Hrun by done.
      discriminate Hrun.
  - intros (csv_data & k & t1 & Hfile & Hk & Hf & Hr).
    rewrite (explain_file_answered E _ _ csv_data w k t1) by done. eauto.
Qed.

(** X11.  When the first request fails [k] times (k < 3) and is then
    answered, and both optional requests are answered, [explain_file]
    returns the header, a space and the three texts in order (each with
    "CSV" removed, joined by line feeds), after [k + 3] requests, [5 * k]
    seconds of sleep and [k] retry lines followed by the two
    announcements. *)
Theorem retry_then_full_report E file_name key csv_data w k t1 t2 t3 :
  files w !! intermediate_path = Some csv_data →
  k < 3 →
  (∀ j, j < k → ∃ e,
     generate_content_at E (requests w + j) gemini prompt1 csv_data = Raise e) →
  generate_content_at E (requests w + k) gemini prompt1 csv_data
    = Ok (mkResponse (Some t1)) →
  generate_content_at E (requests w + k + 1) gemini prompt2 csv_data
    = Ok (mkResponse (Some t2)) →
  generate_content_at E (requests w + k + 2) gemini prompt3 csv_data
    = Ok (mkResponse (Some t3)) →
  ∃ w',
    explain_file E file_name key w =
      (Ok (header E file_name +:+ " " +:+ Py.replace t1 "CSV" EmptyString
             +:+ Py.nl +:+ Py.replace t2 "CSV" EmptyString
             +:+ Py.nl +:+ Py.replace t3 "CSV" EmptyString), w')
    ∧ requests w' = requests w + k + 3
    ∧ ∃ es, trace w' = trace w ++ es
        ∧ total_sleep es = 5 * k
        ∧ List.filter is_print es
          = replicate k (EPrint retry_message) ++ [EPrint announce2; EPrint announce3].
Proof.
  intros Hfile Hk Hf H1 H2 H3.
  rewrite (explain_file_answered E _ _ csv_data w k t1) by done.
  rewrite H2, H3. cbn [section_text text append_section optional_events].
  eexists. split.
  { f_equal. rewrite <- !app_assoc_s. reflexivity. }
  split.
  { rewrite requests_logs. cbn [List.filter is_generate length].
    rewrite !List.filter_app, !length_app, failed_attempts_requests. simpl. lia. }
  eexists. split; [reflexivity|]. split.
  - cbn [total_sleep]. rewrite !total_sleep_app, failed_attempts_sleep. simpl. lia.
  - cbn [List.filter is_print]. rewrite !List.filter_app, failed_attempts_prints.
    reflexivity.
Qed.

(** X12.  A first response whose text cannot be read is fatal even when
    attempts are left: [response.text] is read outside the retry loop, so
    the exception leaves [explain_file] after [k + 1] requests and no
    optional request is sent. *)
Theorem unreadable_first_response_is_fatal E file_name key csv_data w k :
  files w !! intermediate_path = Some csv_data →
  k < 3 →
  (∀ j, j < k → ∃ e,
     generate_content_at E (requests w + j) gemini prompt1 csv_data = Raise e) →
  generate_content_at E (requests w + k) gemini prompt1 csv_data
    = Ok (mkResponse None) →
  ∃ w',
    explain_file E file_name key w = (Raise (ValueError "response.text"), w')
    ∧ requests w' = requests w + k + 1
    ∧ ∃ es, trace w' = trace w ++ es
        ∧ total_sleep es = 5 * k
        ∧ List.filter is_print es = replicate k (EPrint retry_message).
Proof.
  intros Hfile Hk Hf Hs.
  rewrite (explain_file_unreadable_exact E _ _ csv_data w k) by done.
  eexists. split; [reflexivity|]. split.
  { rewrite requests_logs. cbn [List.filter is_generate length].
    rewrite !List.filter_app, !length_app, failed_attempts_requests. simpl. lia. }
  eexists. split; [reflexivity|]. split.
  - cbn [total_sleep]. rewrite !total_sleep_app, failed_attempts_sleep. simpl. lia.
  - cbn [List.filter is_print]. rewrite !List.filter_app, failed_attempts_prints.
    simpl. by rewrite app_nil_r.
Qed.
Lemma choose_NoDup rand k n pool : NoDup pool → NoDup (choose rand k n pool).
Proof.
  revert k pool. induction n as [|n IH]; intros k pool Hnd; [constructor|].
  unfold choose; fold choose.
  destruct (pool !! _) as [p|] eqn:Hp; [|constructor].
  pose proof (delete_Permutation pool _ p Hp) as Hperm.
  rewrite Hperm in Hnd. apply NoDup_cons in Hnd as [Hnot Hnd].
  constructor; [|by apply IH].
  intros Hin. apply Hnot. by apply choose_subseteq in Hin.
Qed.

Lemma choose_all rand k pool : choose rand k (length pool) pool ≡ₚ pool.
Proof.
  remember (length pool) as n eqn:Hn. revert k pool Hn.
  induction n as [|n IH]; intros k pool Hn.
  - destruct pool; [done|discriminate].
  - unfold choose; fold choose.
    assert (Hi : rand k mod length pool < length pool) by (apply Nat.mod_upper_bound; lia).
    destruct (lookup_lt_is_Some_2 pool _ Hi) as [p Hp]. rewrite Hp.
    etrans; [|symmetry; apply (delete_Permutation pool _ p Hp)]. constructor.
    apply IH. rewrite length_delete; [lia|]. by apply lookup_lt_is_Some_2.
Qed.

Lemma kept_in_range df : Forall (in_range df) (kept df).
Proof.
  apply Forall_forall. intros p [Hp Hc]%kept_spec. split; [done|].
  apply Forall_forall. intros c Hin.
  destruct (row_complete_cell df p c Hc Hin) as (v & Hv & _).
  by apply lookup_lt_Some in Hv.
Qed.

(** X4.  [dropna] keeps exactly the records in which no cell is missing,
    in their original order, whatever the shape of the table. *)
Theorem dropna_keeps_complete_rows df :
  rows_loaded (dropna df) = filter (λ r, complete r = true) (rows_loaded df).
Proof.
  change (dropna df) with (df_iloc (kept df) df).
  rewrite rows_iloc by apply kept_in_range.
  unfold rows_loaded, kept.
  generalize (seq 0 (nrows df)). intros l.
  induction l as [|i l IH]; [done|].
  rewrite fmap_cons, !filter_cons. change (complete (row_at df i)) with (row_complete df i).
  destruct (decide (row_complete df i = true)); [rewrite fmap_cons; f_equal|]; exact IH.
Qed.

Lemma iloc_app {A} ps qs (xs : list A) : iloc (ps ++ qs) xs = iloc ps xs ++ iloc qs xs.
Proof.
  induction ps as [|p ps IH]; [done|].
  rewrite <- app_comm_cons, !iloc_cons, IH. by destruct (xs !! p).
Qed.

Lemma iloc_ext {A} ps (xs ys : list A) :
  Forall (λ p, xs !! p = ys !! p) ps → iloc ps xs = iloc ps ys.
Proof.
  induction 1 as [|p ps Hp _ IH]; [done|]. by rewrite !iloc_cons, Hp, IH.
Qed.

Lemma iloc_all {A} (xs : list A) : iloc (seq 0 (length xs)) xs = xs.
Proof.
  induction xs as [|x xs IH] using rev_ind; [done|].
  rewrite length_app. simpl. rewrite Nat.add_1_r, seq_S. simpl.
  rewrite iloc_app, iloc_cons, iloc_nil.
  rewrite lookup_app_r by lia. rewrite Nat.sub_diag. simpl. f_equal.
  etrans; [|exact IH]. apply iloc_ext, Forall_forall.
  intros p Hp%elem_of_seq. apply lookup_app_l. lia.
Qed.

Lemma series_iloc_all n s :
  length (series_values s) = n → series_iloc (seq 0 n) s = s.
Proof.
  intros <-. destruct s; simpl; rewrite length_fmap; by rewrite iloc_all.
Qed.

Lemma kept_tidy n df : tidy n df → kept df = seq 0 n.
Proof.
  intros Ht. unfold kept. assert (Hn : nrows df = n) by apply Ht. rewrite Hn.
  assert (Hall : Forall (λ i, row_complete df i = true) (seq 0 n)).
  { apply Forall_forall. intros i Hi%elem_of_seq.
    unfold row_complete, row_at. apply forallb_forall.
    intros v Hv%list_elem_of_In%list_elem_of_fmap. destruct Hv as (c & -> & Hc).
    destruct (tidy_cell n df c i Ht Hc) as (v & Hv & Hna); [lia|].
    unfold cell. rewrite Hv. simpl. by rewrite Hna. }
  induction Hall as [|i l Hi _ IH]; [done|].
  rewrite filter_cons. destruct (decide (row_complete df i = true)); [|done].
  by rewrite IH.
Qed.

(** X5.  [dropna] is idempotent: a table that went through it loses no
    further row. *)
Theorem dropna_idempotent df : dropna (dropna df) = dropna df.
Proof.
  pose proof (dropna_tidy df) as Ht. set (d := dropna df) in *.
  change (dropna d) with (df_iloc (kept d) d).
  rewrite (kept_tidy _ _ Ht).
  destruct Ht as [Hidx Hcols]. destruct d as [idx cols]. unfold df_iloc, nrows. simpl in *.
  f_equal.
  - apply iloc_all.
  - rewrite <- (list_fmap_id cols) at 2. apply list_fmap_ext.
    intros i [name s] Hc. simpl. unfold prod_map. simpl. f_equal.
    apply series_iloc_all. rewrite Forall_forall in Hcols.
    destruct (Hcols (name, s)) as [Hlen _]; [by eapply list_elem_of_lookup_2|]. done.
Qed.
(** X1.  The loader returns normally exactly when the file exists, has one
    of the four extensions, its reader returns a table, and at least 250
    rows of that table are complete. *)
Theorem loader_succeeds_iff E file_name w :
  (∃ w', check_file_type E file_name w = (Ok tt, w'))
  ↔ ∃ df, loads E file_name w df ∧ 250 ≤ nrows (dropna df).
Proof.
  rewrite check_file_type_unfold. unfold loads. split.
  - intros (w' & Hrun).
    destruct (files w !! file_name) as [c|]; [|discriminate].
    destruct (reader_of E file_name) as [reader|]; [|discriminate].
    destruct (reader c) as [df|e] eqn:Hr; [|discriminate].
    exists df. split; [eauto|].
    unfold loader_outcome in Hrun.
    pose proof (format_loop_nrows E (float64_columns (dropna df)) (dropna df)) as Hrows.
    destruct (format_loop E _ _) as [d' r]. cbn [fst] in Hrows.
    destruct (Nat.ltb_spec (nrows d') 250) as [Hlt|Hge]; [discriminate|lia].
  - intros (df & (c & reader & -> & -> & ->) & Hn).
    unfold loader_outcome.
    pose proof (format_loop_nrows E (float64_columns (dropna df)) (dropna df)) as Hrows.
    destruct (format_loop E _ _) as [d' r]. cbn [fst] in Hrows.
    destruct (Nat.ltb_spec (nrows d') 250) as [Hlt|Hge]; [lia|eauto].
Qed.


Lemma artifact_of_store c w : artifact_of (store intermediate_path (CsvText c) w) = c.
Proof. unfold artifact_of, store. cbn [files]. by rewrite lookup_insert_eq. Qed.

Lemma loader_outcome_ok E w df :
  250 ≤ nrows (dropna df) →
  let d := dropna df in
  let d' := (format_loop E (float64_columns d) d).1 in
  let w1 := match (format_loop E (float64_columns d) d).2 with
            | Ok _ => w
            | Raise _ => log (EPrint "Cannot format float values.") w
            end in
  loader_outcome E w df =
    (Ok tt,
     store intermediate_path
       (CsvText (to_csv_text (float_repr E)
          (df_iloc (choose (random E) (draws w1) 250 (seq 0 (nrows d'))) d') ","))
       (consume 250 w1)).
Proof.
  intros Hn d d' w1. unfold loader_outcome. fold d. subst d' w1.
  pose proof (format_loop_nrows E (float64_columns d) d) as Hrows.
  destruct (format_loop E (float64_columns d) d) as [d' r]. cbn [fst snd] in *.
  change (250 ≤ nrows d) in Hn.
  destruct (Nat.ltb_spec (nrows d') 250) as [Hlt|_]; [lia|]. reflexivity.
Qed.

Lemma sampled_positions E df k :
  250 ≤ nrows (dropna df) →
  let d := dropna df in
  let d' := (format_loop E (float64_columns d) d).1 in
  let ps := choose (random E) k 250 (seq 0 (nrows d')) in
  NoDup ps ∧ length ps = 250 ∧ Forall (λ p, p < nrows d) ps
  ∧ csv_records (to_csv_text (float_repr E) (df_iloc ps d') ",")
    = fields_at (float_repr E) d' <$> ps.
Proof.
  intros Hn d d' ps.
  assert (Hrows : nrows d' = nrows d) by apply format_loop_nrows.
  assert (Ht : tidy (nrows d) d') by apply format_loop_tidy, dropna_tidy.
  change (250 ≤ nrows d) in Hn.
  clearbody d'. clearbody d.
  assert (Hps : Forall (λ p, p < nrows d) ps).
  { apply Forall_forall. intros p Hp%choose_subseteq. apply elem_of_seq in Hp. lia. }
  assert (Hlen : length ps = 250).
  { apply choose_length. rewrite length_seq. lia. }
  assert (Hnd : NoDup ps) by apply choose_NoDup, NoDup_seq.
  clearbody ps.
  split; [exact Hnd|]. split; [exact Hlen|]. split; [exact Hps|].
  apply written_iloc. apply (tidy_in_range (nrows d)); [exact Ht|exact Hps].
Qed.

(** X6.  The 250 records of the intermediate file are the rows of the
    formatted table, as [to_csv] writes them, at 250 pairwise distinct
    positions: no row is written twice. *)
Theorem sample_without_replacement E file_name w df :
  loads E file_name w df →
  250 ≤ nrows (dropna df) →
  let d := dropna df in
  let d' := (format_loop E (float64_columns d) d).1 in
  ∃ w' ps,
    check_file_type E file_name w = (Ok tt, w')
    ∧ NoDup ps
    ∧ length ps = 250
    ∧ Forall (λ p, p < nrows d) ps
    ∧ csv_records (artifact_of w') = fields_at (float_repr E) d' <$> ps.
Proof.
  intros Hl Hn d d'.
  rewrite (check_file_type_loads E _ _ _ Hl), (loader_outcome_ok E w df Hn).
  cbv zeta. fold d. fold d'.
  set (w1 := match (format_loop E (float64_columns d) d).2 with Ok _ => w | Raise _ => _ end).
  destruct (sampled_positions E df (draws w1) Hn) as (Hnd & Hlen & Hps & Hrec).
  fold d in Hnd, Hlen, Hps, Hrec. fold d' in Hnd, Hlen, Hps, Hrec.
  revert Hnd Hlen Hps Hrec.
  generalize (choose (random E) (draws w1) 250 (seq 0 (nrows d'))). intros ps Hnd Hlen Hps Hrec.
  eexists _, ps. split; [reflexivity|].
  split; [exact Hnd|]. split; [exact Hlen|]. split; [exact Hps|].
  rewrite artifact_of_store. exact Hrec.
Qed.

Lemma choose_seq_all rand k n : choose rand k n (seq 0 n) ≡ₚ seq 0 n.
Proof. pose proof (choose_all rand k (seq 0 n)) as H. rewrite length_seq in H. exact H. Qed.

(** X7.  With exactly 250 complete rows the intermediate file holds every
    row of the formatted table once, in some order. *)
Theorem exact_population_is_shuffled E file_name w df :
  loads E file_name w df →
  nrows (dropna df) = 250 →
  let d := dropna df in
  let d' := (format_loop E (float64_columns d) d).1 in
  ∃ w',
    check_file_type E file_name w = (Ok tt, w')
    ∧ csv_records (artifact_of w') ≡ₚ rows_written E d'.
Proof.
  intros Hl Hn d d'.
  assert (Hge : 250 ≤ nrows (dropna df)) by (rewrite Hn; constructor).
  rewrite (check_file_type_loads E _ _ _ Hl), (loader_outcome_ok E w df Hge).
  cbv zeta. fold d. fold d'.
  set (w1 := match (format_loop E (float64_columns d) d).2 with Ok _ => w | Raise _ => _ end).
  destruct (sampled_positions E df (draws w1) Hge) as (_ & _ & _ & Hrec).
  fold d in Hrec. fold d' in Hrec.
  assert (Hperm : choose (random E) (draws w1) 250 (seq 0 (nrows d')) ≡ₚ seq 0 (nrows d')).
  { assert (Hrows : nrows d' = 250).
    { unfold d'. rewrite format_loop_nrows. exact Hn. }
    rewrite Hrows. apply choose_seq_all. }
  revert Hrec Hperm.
  generalize (choose (random E) (draws w1) 250 (seq 0 (nrows d'))). intros ps Hrec Hperm.
  eexists. split; [reflexivity|].
  rewrite artifact_of_store, Hrec.
  unfold rows_written. apply fmap_Permutation. exact Hperm.
Qed.
Lemma prints_only_requests ps w w' :
  trace w' = trace w ++ ps → forallb is_print ps = true →
  requests w' = requests w
  ∧ List.filter is_save (trace w') = List.filter is_save (trace w)
  ∧ total_sleep (trace w') = total_sleep (trace w).
Proof.
  intros Ht Hps. unfold requests. rewrite Ht, !List.filter_app, total_sleep_app.
  rewrite (filter_prints is_generate ps), (filter_prints is_save ps); try done;
    try (by intros []).
  rewrite !app_nil_r. split; [done|]. split; [done|].
  assert (total_sleep ps = 0) as ->; [|lia].
  clear Ht. induction ps as [|e ps IH]; [done|].
  simpl in Hps. apply andb_prop in Hps as [He Hps]. destruct e; try discriminate.
  simpl. by apply IH.
Qed.

Lemma loader_outcome_draws E w df :
  match (loader_outcome E w df).1 with
  | Ok _ => draws (loader_outcome E w df).2 = draws w + 250
            ∧ ∃ c, files (loader_outcome E w df).2 !! intermediate_path = Some (CsvText c)
  | Raise _ => draws (loader_outcome E w df).2 = draws w
  end.
Proof.
  unfold loader_outcome.
  destruct (format_loop E _ _) as [d' r].
  destruct (nrows d' <? 250); destruct r; cbn [fst snd draws consume store log files];
    try done; (split; [done|]); eexists; apply lookup_insert_eq.
Qed.

Lemma loader_effects E file_name w :
  let r := (check_file_type E file_name w).1 in
  let w' := (check_file_type E file_name w).2 in
  List.filter is_save (trace w') = List.filter is_save (trace w)
  ∧ (∀ p, p ≠ intermediate_path → files w' !! p = files w !! p)
  ∧ match r with
    | Ok _ => draws w' = draws w + 250
              ∧ ∃ c, files w' !! intermediate_path = Some (CsvText c)
    | Raise _ => draws w' = draws w ∧ files w' = files w
    end.
Proof.
  intros r w'.
  destruct (check_file_type_frame E file_name w) as ((ps & Ht & Hps) & Hother & Hfiles).
  fold r w' in Ht, Hother, Hfiles.
  destruct (prints_only_requests ps w w' Ht Hps) as (_ & Hs & _).
  split; [exact Hs|]. split; [exact Hother|].
  subst r w'. revert Hfiles. rewrite check_file_type_unfold.
  destruct (files w !! file_name); [|done].
  destruct (reader_of E file_name) as [reader|]; [|done].
  destruct (reader c) as [df|e]; [|done].
  pose proof (loader_outcome_draws E w df) as Hd.
  destruct (loader_outcome E w df) as [[[]|e] w1]; cbn [fst snd] in *; intros Hf; auto.
Qed.

(** X2.  For every input the loader sends no request, saves no PDF, does
    not sleep, and leaves every path but the intermediate file as it was;
    when it returns it has written a CSV there and taken 250 draws from
    the random source, and when it raises the directory and the random
    source are unchanged. *)
Theorem loader_is_atomic E file_name w :
  let r := (check_file_type E file_name w).1 in
  let w' := (check_file_type E file_name w).2 in
  requests w' = requests w
  ∧ List.filter is_save (trace w') = List.filter is_save (trace w)
  ∧ total_sleep (trace w') = total_sleep (trace w)
  ∧ (∀ p, p ≠ intermediate_path → files w' !! p = files w !! p)
  ∧ match r with
    | Ok _ => draws w' = draws w + 250
              ∧ ∃ c, files w' !! intermediate_path = Some (CsvText c)
    | Raise _ => draws w' = draws w ∧ files w' = files w
    end.
Proof.
  intros r w'.
  destruct (check_file_type_frame E file_name w) as ((ps & Ht & Hps) & _).
  fold w' in Ht.
  destruct (prints_only_requests ps w w' Ht Hps) as (Hr & Hs & Hz).
  destruct (loader_effects E file_name w) as (_ & Hother & Hend).
  fold r w' in Hother, Hend.
  split; [exact Hr|]. split; [exact Hs|]. split; [exact Hz|].
  split; [exact Hother|exact Hend].
Qed.

Lemma generate_pdf_effects E file_name text_md w :
  let r := (generate_pdf E file_name text_md w).1 in
  let w' := (generate_pdf E file_name text_md w).2 in
  match r with
  | Ok file_pdf =>
      file_pdf = report_path E w
      ∧ trace w' = trace w ++ [ESavePdf (report_path E w)]
      ∧ files w' = <[report_path E w := PdfDoc (report_document E file_name text_md)]> (files w)
      ∧ draws w' = draws w + 1
  | Raise _ => trace w' = trace w ∧ files w' = files w
  end.
Proof.
  rewrite generate_pdf_unfold.
  destruct (pdf_add_section E _) as [[]|e]; [|done].
  destruct (pdf_save E _ _) as [[]|e]; done.
Qed.

Lemma report_path_fresh id : "data-analysis-" +:+ id +:+ ".pdf" ≠ intermediate_path.
Proof. unfold intermediate_path. rewrite app_cons. intros [=]. Qed.

(** X17.  [data_analyzer] saves a report exactly when it returns normally:
    then one PDF is saved, under the name built from the draw that follows
    the 250 draws of the sample, its last line names that file, and only
    that path and the intermediate file changed; when it raises, no PDF is
    saved and only the intermediate file may have changed. *)
Theorem report_saved_iff_success E file_name key w :
  let r := (data_analyzer E file_name key w).1 in
  let w' := (data_analyzer E file_name key w).2 in
  let path := "data-analysis-" +:+ uuid4_at E (draws w + 250) +:+ ".pdf" in
  match r with
  | Ok _ =>
      List.filter is_save (trace w') = List.filter is_save (trace w) ++ [ESavePdf path]
      ∧ (∃ text_md, files w' !! path = Some (PdfDoc (report_document E file_name text_md)))
      ∧ (∃ c, files w' !! intermediate_path = Some (CsvText c))
      ∧ (∀ p, p ≠ path → p ≠ intermediate_path → files w' !! p = files w !! p)
      ∧ last (trace w')
        = Some (EPrint ("Report " +:+ path +:+ " saved in the current directory."))
  | Raise _ =>
      List.filter is_save (trace w') = List.filter is_save (trace w)
      ∧ (∀ p, p ≠ intermediate_path → files w' !! p = files w !! p)
  end.
Proof.
  intros r w' path. subst r w'. rewrite data_analyzer_unfold.
  set (w0 := logs [EPrint "Analyzing the format of the file..."] w).
  assert (H0 : files w0 = files w ∧ draws w0 = draws w
               ∧ List.filter is_save (trace w0) = List.filter is_save (trace w)).
  { unfold w0, logs. cbn [files draws trace]. rewrite List.filter_app. simpl.
    by rewrite app_nil_r. }
  destruct H0 as (Hf0 & Hd0 & Hs0). clearbody w0.
  destruct (loader_effects E file_name w0) as (Hs1 & Hf1 & Hr1).
  rewrite Hs0 in Hs1. rewrite Hf0 in Hf1.
  destruct (check_file_type E file_name w0) as [[[]|e1] w1]; cbn [fst snd after_loading] in *.
  2:{ split; [exact Hs1|exact Hf1]. }
  destruct Hr1 as (Hd1 & c & Hc). rewrite Hd0 in Hd1.
  match goal with |- context [explain_file E file_name key ?x] => set (w1' := x) end.
  assert (H1 : files w1' = files w1 ∧ draws w1' = draws w1
               ∧ List.filter is_save (trace w1') = List.filter is_save (trace w1)).
  { unfold w1', logs. cbn [files draws trace]. rewrite List.filter_app. simpl.
    by rewrite app_nil_r. }
  destruct H1 as (Hf1' & Hd1' & Hs1'). clearbody w1'.
  destruct (explain_file_events E file_name key w1') as (Hf2 & Hd2 & es & Ht2 & Hs2 & _).
  apply service_events_no_save in Hs2.
  assert (Hsave2 : List.filter is_save (trace (explain_file E file_name key w1').2)
                   = List.filter is_save (trace w)).
  { by rewrite Ht2, List.filter_app, Hs2, app_nil_r, Hs1', Hs1. }
  rewrite Hf1' in Hf2. rewrite Hd1', Hd1 in Hd2. clear Ht2 Hs2 es.
  destruct (explain_file E file_name key w1') as [[text_md|e2] w2];
    cbn [fst snd after_analysis] in *.
  2:{ split; [exact Hsave2|]. intros p Hp. rewrite Hf2. by apply Hf1. }
  match goal with |- context [generate_pdf E file_name text_md ?x] => set (w2' := x) end.
  assert (H2 : files w2' = files w2 ∧ draws w2' = draws w2
               ∧ List.filter is_save (trace w2') = List.filter is_save (trace w2)).
  { unfold w2', logs. cbn [files draws trace]. rewrite List.filter_app. simpl.
    by rewrite app_nil_r. }
  destruct H2 as (Hf2' & Hd2' & Hs2'). clearbody w2'.
  assert (Hpath : report_path E w2' = path).
  { unfold report_path, path. by rewrite Hd2', Hd2. }
  pose proof (generate_pdf_effects E file_name text_md w2') as Hg. cbv zeta in Hg.
  rewrite Hpath, Hf2', Hf2 in Hg.
  destruct (generate_pdf E file_name text_md w2') as [[file_pdf|e3] w3];
    cbn [fst snd after_report] in *.
  - destruct Hg as (-> & Ht3 & Hf3 & _). cbn [logs trace files].
    split.
    { rewrite Ht3, !List.filter_app, Hs2', Hsave2. simpl. by rewrite !app_nil_r. }
    split; [exists text_md; rewrite Hf3; apply lookup_insert_eq|].
    split.
    { exists c. rewrite Hf3, lookup_insert_ne by apply report_path_fresh. exact Hc. }
    split.
    { intros p Hp Hip. rewrite Hf3, lookup_insert_ne by done. by apply Hf1. }
    change [?a; ?b] with ([a] ++ [b]). rewrite !app_assoc. apply last_snoc.
  - destruct Hg as (Ht3 & Hf3). split.
    + by rewrite Ht3, Hs2', Hsave2.
    + intros p Hp. rewrite Hf3. by apply Hf1.
Qed.


Lemma string_of_chars_inj a b : list_ascii_of_string a = list_ascii_of_string b → a = b.
Proof.
  revert b. induction a as [|c a IH]; intros [|d b] H; try done.
  simpl in H. injection H as -> H. f_equal. by apply IH.
Qed.

Lemma app_inv_tail_s a b s : a +:+ s = b +:+ s → a = b.
Proof.
  intros H. apply (f_equal list_ascii_of_string) in H. rewrite !chars_app in H.
  apply app_inv_tail in H. by apply string_of_chars_inj.
Qed.

Lemma report_path_inj E w1 w2 :
  report_path E w1 = report_path E w2 → uuid4_at E (draws w1) = uuid4_at E (draws w2).
Proof.
  unfold report_path. intros H.
  apply (f_equal list_ascii_of_string) in H. rewrite !chars_app in H.
  apply app_inv_head in H. rewrite <- !chars_app in H.
  apply string_of_chars_inj in H. by apply app_inv_tail_s in H.
Qed.

(** X19.  Two reports generated one after the other are both kept when the
    two identifiers drawn differ: the names differ and the second save
    does not overwrite the first. *)
Theorem successive_reports_are_kept E file1 text1 file2 text2 w p1 w1 p2 w2 :
  generate_pdf E file1 text1 w = (Ok p1, w1) →
  generate_pdf E file2 text2 w1 = (Ok p2, w2) →
  uuid4_at E (draws w) ≠ uuid4_at E (draws w + 1) →
  p1 ≠ p2
  ∧ files w2 !! p1 = Some (PdfDoc (report_document E file1 text1))
  ∧ files w2 !! p2 = Some (PdfDoc (report_document E file2 text2))
  ∧ List.filter is_save (trace w2)
    = List.filter is_save (trace w) ++ [ESavePdf p1; ESavePdf p2].
Proof.
  intros H1 H2 Hid.
  pose proof (generate_pdf_effects E file1 text1 w) as G1.
  pose proof (generate_pdf_effects E file2 text2 w1) as G2.
  rewrite H1 in G1. rewrite H2 in G2. cbn [fst snd] in *.
  destruct G1 as (-> & Ht1 & Hf1 & Hd1). destruct G2 as (-> & Ht2 & Hf2 & Hd2).
  assert (Hne : report_path E w ≠ report_path E w1).
  { intros Heq%report_path_inj. by rewrite Hd1 in Heq. }
  split; [exact Hne|]. split.
  { by rewrite Hf2, lookup_insert_ne, Hf1, lookup_insert_eq. }
  split; [by rewrite Hf2, lookup_insert_eq|].
  rewrite Ht2, Ht1, !List.filter_app. simpl. by rewrite <- app_assoc.
Qed.

(** X20.  For every command line the entry point stops before
    [data_analyzer] is called: argparse shows its help and exits with
    status 0, or exits with status 2, or returns a namespace, on which
    [args.google_api_key] raises AttributeError.  The standard output
    gets nothing but the help message, no request is sent and nothing is
    written (the message of a usage error goes to the standard error,
    which the world does not record). *)
Theorem main_never_runs_pipeline E argv w :
  main E argv w = (Raise (SystemExit 0), logs [EPrint (format_help E)] w)
  ∨ main E argv w = (Raise (SystemExit 2), w)
  ∨ main E argv w =
      (Raise (AttributeError "'Namespace' object has no attribute 'google_api_key'"), w).
Proof.
  unfold main, parse_args.
  pose proof (namespace_attributes E argv) as Hns.
  destruct (default _ (argparse_core parser argv)) as [ns| |].
  - right. right. destruct (Hns ns eq_refl) as [[f Hf] Hkey].
    unfold mbind, M_bind, mret, M_ret, getattr. rewrite Hf, Hkey. reflexivity.
  - left. reflexivity.
  - right. left. reflexivity.
Qed.

Section Emits.
Context (P : event → Prop).

Lemma emits_refl w : emits P 0 0 w w.
Proof. exists []. rewrite app_nil_r. repeat split; auto. Qed.

Lemma emits_trans g1 s1 g2 s2 w1 w2 w3 :
  emits P g1 s1 w1 w2 → emits P g2 s2 w2 w3 → emits P (g1 + g2) (s1 + s2) w1 w3.
Proof.
  intros (es1 & Ht1 & Hs1 & Hg1 & Hz1) (es2 & Ht2 & Hs2 & Hg2 & Hz2).
  exists (es1 ++ es2).
  split; [by rewrite Ht2, Ht1, app_assoc|].
  split; [by apply Forall_app|].
  rewrite !List.filter_app, length_app, total_sleep_app. lia.
Qed.

Lemma emits_weaken g s g' s' w w' :
  emits P g s w w' → g ≤ g' → s ≤ s' → emits P g' s' w w'.
Proof.
  intros (es & Ht & HP & Hg & Hs) ? ?. exists es. repeat split; auto; lia.
Qed.

Lemma emits_prints ps w w' :
  (∀ line, P (EPrint line)) →
  trace w' = trace w ++ ps → forallb is_print ps = true → emits P 0 0 w w'.
Proof.
  intros HP Ht Hps. exists ps. split; [exact Ht|].
  assert (Hall : Forall (λ e, is_print e = true) ps).
  { apply Forall_forall. intros e He. rewrite forallb_forall in Hps.
    by apply Hps, list_elem_of_In. }
  clear Ht Hps. induction Hall as [|e ps He _ IH]; [repeat split; auto|].
  destruct e; try discriminate. destruct IH as (? & ? & ?).
  split; [constructor; [apply HP|done]|]. simpl. split; done.
Qed.

Lemma emits_event e w w' :
  P e → is_generate e = false → total_sleep [e] = 0 →
  trace w' = trace w ++ [e] → emits P 0 0 w w'.
Proof.
  intros He Hg Hs Ht. exists [e]. split; [exact Ht|]. split; [by constructor|].
  simpl. rewrite Hg. simpl. split; [done|]. simpl in Hs. lia.
Qed.

End Emits.

Lemma emits_impl (P Q : event → Prop) g s w w' :
  (∀ e, P e → Q e) → emits P g s w w' → emits Q g s w w'.
Proof.
  intros HPQ (es & Ht & HP & Hg). exists es. split; [exact Ht|]. split; [|exact Hg].
  eapply Forall_impl; [exact HP|exact HPQ].
Qed.

Lemma service_pipeline_event o e : service_event o e → pipeline_event o e.
Proof. by destruct e. Qed.

Lemma pipeline_requests E file_name key w :
  let w' := (data_analyzer E file_name key w).2 in
  ∃ o, emits (pipeline_event o) 5 15 w w'
    ∧ match o with
      | Some data => files w' !! intermediate_path = Some data ∧ ∃ c, data = CsvText c
      | None => True
      end.
Proof.
  intros w'. subst w'. rewrite data_analyzer_unfold.
  set (w0 := logs [EPrint "Analyzing the format of the file..."] w).
  assert (H0 : ∀ o, emits (pipeline_event o) 0 0 w w0).
  { intros o. by apply (emits_prints _ [EPrint "Analyzing the format of the file..."]). }
  clearbody w0.
  destruct (check_file_type_frame E file_name w0) as ((ps & Ht1 & Hps1) & _ & _).
  destruct (loader_effects E file_name w0) as (_ & _ & Hr1).
  assert (H1 : ∀ o, emits (pipeline_event o) 0 0 w (check_file_type E file_name w0).2).
  { intros o. apply (emits_trans _ 0 0 0 0 _ w0); [apply H0|].
    by apply (emits_prints _ ps). }
  clear H0 Ht1 Hps1 ps.
  destruct (check_file_type E file_name w0) as [[[]|e1] w1]; cbn [fst snd after_loading] in *.
  2:{ exists None. split; [|done].
      eapply emits_weaken; [apply H1|lia|lia]. }
  destruct Hr1 as (_ & c & Hd).
  match goal with |- context [explain_file E file_name key ?x] => set (w1' := x) end.
  assert (H1' : emits (pipeline_event (Some (CsvText c))) 0 0 w w1' ∧ files w1' = files w1).
  { split; [|done]. apply (emits_trans _ 0 0 0 0 _ w1); [apply H1|].
    by eapply (emits_prints _ _ w1 w1'). }
  destruct H1' as [H1' Hf1']. clearbody w1'. clear H1.
  destruct (explain_file_events E file_name key w1') as (Hf2 & _ & He2).
  rewrite Hf1', Hd in He2. rewrite Hf1' in Hf2.
  apply (emits_impl _ (pipeline_event (Some (CsvText c)))) in He2;
    [|apply service_pipeline_event].
  pose proof (emits_trans _ _ _ _ _ _ _ _ H1' He2) as H2. clear H1' He2.
  exists (Some (CsvText c)).
  destruct (explain_file E file_name key w1') as [[text_md|e2] w2];
    cbn [fst snd after_analysis] in *.
  2:{ split; [exact H2|]. rewrite Hf2, Hd. eauto. }
  match goal with |- context [generate_pdf E file_name text_md ?x] => set (w2' := x) end.
  assert (H2' : emits (pipeline_event (Some (CsvText c))) 5 15 w w2' ∧ files w2' = files w2).
  { split; [|done]. apply (emits_trans _ 5 15 0 0 _ w2); [exact H2|].
    by eapply (emits_prints _ _ w2 w2'). }
  destruct H2' as [H2' Hf2']. clearbody w2'. clear H2.
  pose proof (generate_pdf_effects E file_name text_md w2') as Hg. cbv zeta in Hg.
  destruct (generate_pdf E file_name text_md w2') as [[file_pdf|e3] w3];
    cbn [fst snd after_report] in *.
  - destruct Hg as (-> & Ht3 & Hf3 & _). cbn [logs trace files].
    split.
    + apply (emits_trans _ 5 15 0 0 _ w2'); [exact H2'|].
      eapply (emits_trans _ 0 0 0 0 _ w3).
      * by apply (emits_event _ (ESavePdf (report_path E w2'))).
      * by eapply (emits_prints _ _ w3 (logs _ w3)).
    + rewrite Hf3, lookup_insert_ne by apply report_path_fresh.
      rewrite Hf2', Hf2, Hd. eauto.
  - destruct Hg as (Ht3 & Hf3). split.
    + apply (emits_trans _ 5 15 0 0 _ w2'); [exact H2'|].
      exists []. rewrite app_nil_r. repeat split; auto.
    + rewrite Hf3, Hf2', Hf2, Hd. eauto.
Qed.

(** X18.  A whole run sends at most five requests and sleeps at most
    fifteen seconds, and every request carries the CSV text that is in the
    intermediate file when the run ends: the sample, never the original
    file. *)
Theorem pipeline_sends_only_the_sample E file_name key w :
  let w' := (data_analyzer E file_name key w).2 in
  ∃ es, trace w' = trace w ++ es
    ∧ length (List.filter is_generate es) ≤ 5
    ∧ total_sleep es ≤ 15
    ∧ ∀ model prompt data, EGenerate model prompt data ∈ es →
        model = gemini
        ∧ prompt ∈ [prompt1; prompt2; prompt3]
        ∧ files w' !! intermediate_path = Some data
        ∧ ∃ c, data = CsvText c.
Proof.
  destruct (pipeline_requests E file_name key w) as (o & (es & Ht & HP & Hg & Hs) & Ho).
  exists es. split; [exact Ht|]. split; [exact Hg|]. split; [exact Hs|].
  intros model prompt data Hin. rewrite Forall_forall in HP.
  destruct (HP _ Hin) as (-> & -> & Hp). destruct Ho as [Hfile Hc]. auto.
Qed.
Lemma replace_length n r :
  String.length r ≤ n →
  String.length (Py.replace r "CSV" EmptyString) ≤ String.length r
  ∧ (Py.contains r "CSV" = true →
     String.length (Py.replace r "CSV" EmptyString) < String.length r).
Proof.
  revert r. induction n as [|n IH]; intros r Hlen.
  { destruct r; [split; [done|discriminate]|simpl in Hlen; lia]. }
  destruct r as [|c t]; [split; [done|discriminate]|].
  destruct (Py.startswith (String c t) "CSV") eqn:Hm.
  - apply startswith_spec in Hm as [t' Ht']. rewrite Ht' in *. rewrite rm_match.
    change ("CSV" +:+ t') with (String "C" (String "S" (String "V" t'))) in *.
    simpl String.length in *. destruct (IH t') as [Hle _]; [lia|]. split; [lia|]. intros _. lia.
  - rewrite (rm_keep _ _ Hm). simpl String.length in *.
    destruct (IH t) as [Hle Hlt]; [lia|]. split; [lia|].
    rewrite contains_cons, Hm. simpl. intros Hc. apply Hlt in Hc. lia.
Qed.

Lemma replace_absent r :
  Py.contains r "CSV" = false → Py.replace r "CSV" EmptyString = r.
Proof.
  induction r as [|c t IH]; [done|]. intros Hc.
  rewrite (rm_keep _ _ (contains_head _ _ _ Hc)). f_equal.
  apply IH. by eapply contains_tail.
Qed.

(** X15.  The filter [replace("CSV", "")] leaves a text unchanged exactly
    when "CSV" does not occur in it, and never makes a text longer. *)
Theorem filter_changes_exactly_csv_texts r :
  (Py.replace r "CSV" EmptyString = r ↔ Py.contains r "CSV" = false)
  ∧ String.length (Py.replace r "CSV" EmptyString) ≤ String.length r.
Proof.
  destruct (replace_length (String.length r) r) as [Hle Hlt]; [done|].
  split; [|exact Hle]. split; [|apply replace_absent].
  intros Heq. destruct (Py.contains r "CSV"); [|done].
  rewrite Heq in Hlt. specialize (Hlt eq_refl). lia.
Qed.





(** X3.  The reader is chosen by the extension alone: a name ends with at
    most one of the four extensions, so each extension gets its own branch
    whatever the order of the tests (the branch of [.avro] always raises);
    an exception of the reader comes out unchanged with the world
    untouched. *)
Theorem reader_follows_extension E f w c ext reader :
  (ext, reader) ∈ [(".csv", pd_read_csv E); (".parquet", pd_read_parquet E);
                   (".avro", no_read_avro); (".json", pd_read_json E)] →
  files w !! f = Some c →
  Py.endswith f ext = true →
  check_file_type E f w =
    match reader c with
    | Ok df => loader_outcome E w df
    | Raise e => (Raise e, w)
    end.
Proof.
  intros Hin Hc Hext.
  rewrite check_file_type_unfold, Hc, (reader_of_extension E f ext reader Hin Hext).
  by destruct (reader c).
Qed.
Lemma round_half_even_nearest num den :
  (0 ≤ num)%Z → (0 < den)%Z →
  (0 ≤ round_half_even num den)%Z
  ∧ (Z.abs (2 * (round_half_even num den * den - num)) ≤ den)%Z.
Proof.
  intros Hnum Hden. unfold round_half_even.
  pose proof (Z.div_mod num den ltac:(lia)) as Hdm.
  pose proof (Z.mod_pos_bound num den Hden) as Hr.
  pose proof (Z.div_pos num den Hnum Hden) as Hq.
  destruct (Z.compare_spec (2 * (num mod den)) den) as [Heq|Hlt|Hgt].
  - destruct (Z.even (num / den)); split; nia.
  - split; nia.
  - split; nia.
Qed.

Lemma tail_mul_10 acc : Nat.tail_mul 10 acc = 10 * acc.
Proof. apply Nat.tail_mul_spec. Qed.

Lemma digits_value_uint d acc :
  digits_value acc (NilEmpty.string_of_uint d) = Some (Nat.of_uint_acc d acc).
Proof.
  revert acc. induction d as [|d IH|d IH|d IH|d IH|d IH|d IH|d IH|d IH|d IH|d IH];
    intros acc; [reflexivity|..];
    cbn [NilEmpty.string_of_uint digits_value Nat.of_uint_acc];
    change (is_digit _) with true; cbv iota; rewrite IH, tail_mul_10; f_equal;
    vm_compute (nat_of_ascii _ - 48); f_equal; lia.
Qed.

Lemma decimal_value_str_nat n : decimal_value (Py.str_nat n) = Some n.
Proof.
  unfold Py.str_nat.
  assert (Hv : decimal_value (NilZero.string_of_uint (Nat.to_uint n))
               = Some (Nat.of_uint (Nat.to_uint n))).
  { destruct (Nat.to_uint n) as [|d|d|d|d|d|d|d|d|d|d]; [reflexivity|..];
      unfold decimal_value, Nat.of_uint;
      cbn [NilZero.string_of_uint NilEmpty.string_of_uint];
      rewrite <- digits_value_uint; reflexivity. }
  rewrite Hv. f_equal. apply DecimalNat.Unsigned.of_to.
Qed.

Lemma zfill_2_cents k :
  k < 100 → String.length (Py.zfill 2 k) = 2 ∧ decimal_value (Py.zfill 2 k) = Some k.
Proof.
  intros Hk.
  assert (Hall : forallb (λ k, (String.length (Py.zfill 2 k) =? 2)
                               && bool_decide (decimal_value (Py.zfill 2 k) = Some k))
                   (seq 0 100) = true)
    by (vm_compute; reflexivity).
  rewrite forallb_forall in Hall.
  specialize (Hall k ltac:(apply in_seq; lia)).
  apply andb_prop in Hall as [Hlen Hval].
  split; [by apply Nat.eqb_eq|by apply bool_decide_eq_true in Hval].
Qed.

(** X9.  The text written for a finite float64 value is its sign, a
    decimal numeral, a point and two decimal digits, and the number it
    shows, in hundredths, is the value times 100 rounded to a nearest
    integer (exact when the exponent is not negative). *)
Theorem two_decimals_nearest s m e :
  let n := hundredths m e in
  (∃ whole cents a b,
      format_2f (S754_finite s m e) = sign_text s +:+ whole +:+ "." +:+ cents
      ∧ String.length cents = 2
      ∧ decimal_value whole = Some a
      ∧ decimal_value cents = Some b
      ∧ Z.of_nat (100 * a + b) = n)
  ∧ (0 ≤ n)%Z
  ∧ if (0 <=? e)%Z then n = (Z.pos m * 2 ^ e * 100)%Z
    else (Z.abs (2 * (n * 2 ^ (- e) - Z.pos m * 100)) ≤ 2 ^ (- e))%Z.
Proof.
  intros n.
  assert (Hn : (0 ≤ n)%Z
               ∧ if (0 <=? e)%Z then n = (Z.pos m * 2 ^ e * 100)%Z
                 else (Z.abs (2 * (n * 2 ^ (- e) - Z.pos m * 100)) ≤ 2 ^ (- e))%Z).
  { subst n. unfold hundredths. destruct (Z.leb_spec 0 e) as [He|He].
    - split; [|done]. assert (0 < 2 ^ e)%Z by (apply Z.pow_pos_nonneg; lia). nia.
    - apply round_half_even_nearest; [lia|]. apply Z.pow_pos_nonneg; lia. }
  split; [|exact Hn]. destruct Hn as [Hn _].
  pose proof (Z.mod_pos_bound n 100 ltac:(lia)) as Hmod.
  destruct (zfill_2_cents (Z.to_nat (n mod 100))) as [Hlen Hval]; [lia|].
  exists (Py.str_nat (Z.to_nat (n / 100))), (Py.zfill 2 (Z.to_nat (n mod 100))),
    (Z.to_nat (n / 100)), (Z.to_nat (n mod 100)).
  split; [reflexivity|]. split; [exact Hlen|].
  split; [apply decimal_value_str_nat|]. split; [exact Hval|].
  pose proof (Z.div_mod n 100 ltac:(lia)) as Hdm.
  assert (0 ≤ n / 100)%Z by (apply Z.div_pos; lia). lia.
Qed.

(* ================================================================== *)
(** ** The statements at concrete inputs *)
(* ================================================================== *)

Lemma case_sensitive_extension_witness :
  check_file_type (test_env (table 300) python_format unavailable)
    ("sales" +:+ ".CSV") (disk "sales.CSV") =
    (Raise (ValueError ("File type " +:+ ("sales" +:+ ".CSV") +:+ " not supported")),
     disk "sales.CSV").
Proof.
  apply (case_sensitive_extension _ "sales" ".CSV" ".csv").
  - unfold supported_extensions. rewrite !elem_of_cons. auto.
  - split; [reflexivity|discriminate].
  - eexists. reflexivity.
Defined.
Lemma mandatory_request_exhausted_witness :
  ∃ e w',
    data_analyzer (test_env (table 300) python_format unavailable)
      "sales.csv" "key" (disk "sales.csv") = (Raise e, w')
    ∧ List.filter is_save (trace w') = []
    ∧ e = Exception_ fatal_message.
Proof.
  destruct (mandatory_request_exhausted
              (test_env (table 300) python_format unavailable)
              "sales.csv" "key" (disk "sales.csv"))
    as (_ & e & w' & Hrun & Hsave & _ & Hfatal).
  { intros k d _. by eexists. }
  exists e, w'. split; [done|]. split; [done|].
  destruct (Hfatal (check_file_type (test_env (table 300) python_format unavailable)
                      "sales.csv" (logs pipeline_prints (disk "sales.csv"))).2) as [He _].
  { vm_compute. reflexivity. }
  exact He.
Defined.

Lemma sample_too_small_witness :
  ∃ w',
    check_file_type (test_env (table 100) python_format unavailable)
      "sales.csv" (disk "sales.csv") = (Raise (ValueError sample_error), w')
    ∧ files w' = files (disk "sales.csv").
Proof.
  apply (sample_too_small (test_env (table 100) python_format unavailable)
           "sales.csv" (disk "sales.csv") (table 100)).
  - eexists _, _. split; [reflexivity|]. split; reflexivity.
  - apply Nat.ltb_lt. vm_compute. reflexivity.
Defined.

Lemma loader_rejects_witness :
  check_file_type (test_env (table 300) python_format unavailable)
    "notes.txt" (disk "notes.txt")
  = (Raise (ValueError ("File type " +:+ "notes.txt" +:+ " not supported")),
     disk "notes.txt")
  ∧ check_file_type (test_env (table 300) python_format unavailable)
      "absent.csv" (disk "notes.txt")
    = (Raise (FileNotFoundError ("File " +:+ "absent.csv" +:+ " not found")),
       disk "notes.txt").
Proof.
  split.
  - apply (loader_rejects (test_env (table 300) python_format unavailable)
             "notes.txt" "key" (disk "notes.txt")).
    + eexists. reflexivity.
    + reflexivity.
  - apply (loader_rejects (test_env (table 300) python_format unavailable)
             "absent.csv" "key" (disk "notes.txt")).
    reflexivity.
Defined.

Lemma csv_removed_in_one_pass_witness :
  let E := test_env (table 300) python_format (answers "A CSVfile...") in
  let w := loaded_disk E "sales.csv" in
  ∃ csv_data k t1,
    generate_content_at E (requests w + k) gemini prompt1 csv_data
      = Ok (mkResponse (Some t1))
    ∧ text_of (explain_file E "sales.csv" "key" w)
      = append_section
          (append_section
             (header E "sales.csv" +:+ " " +:+ Py.replace t1 "CSV" EmptyString)
             (section_text
                (generate_content_at E (requests w + k + 1) gemini prompt2 csv_data)))
          (section_text
             (generate_content_at E (requests w + k + 2) gemini prompt3 csv_data)).
Proof.
  intros E w.
  destruct (csv_removed_in_one_pass E "sales.csv" "key" w
              (text_of (explain_file E "sales.csv" "key" w))
              (explain_file E "sales.csv" "key" w).2)
    as (csv_data & k & t1 & Hr & Ht & _).
  - vm_compute. reflexivity.
  - exists csv_data, k, t1. split; [exact Hr|exact Ht].
Defined.

Lemma float64_columns_formatted_witness :
  let E := test_env (table_dup 300) python_format unavailable in
  let d := dropna (table_dup 300) in
  ∃ w' artifact,
    check_file_type E "sales.parquet" (disk "sales.parquet") = (Ok tt, w')
    ∧ files w' !! intermediate_path = Some (CsvText artifact)
    ∧ Forall (λ r, r ∈ rows_after E (assigned E d (columns d)).1 d) (csv_records artifact)
    ∧ (assigned E d (columns d)).1 `prefix_of` float64_columns d.
Proof.
  intros E d.
  destruct (float64_columns_formatted E "sales.parquet" (disk "sales.parquet") (table_dup 300))
    as (w' & artifact & Hrun & Hfile & _ & Hrows & Hpre & _).
  - eexists _, _. split; [reflexivity|]. split; reflexivity.
  - apply Nat.leb_le. vm_compute. reflexivity.
  - exists w', artifact. auto.
Defined.

Lemma main_attribute_error_witness :
  main (test_env (table 300) python_format unavailable)
    ["--file_name"; "sales.csv"; "--api_key"; "KEY"] (disk "sales.csv") =
    (Raise (AttributeError "'Namespace' object has no attribute 'google_api_key'"),
     disk "sales.csv").
Proof.
  apply (main_attribute_error _ "sales.csv" "KEY"); reflexivity.
Defined.

Lemma avro_files_are_refused_witness :
  let E := test_env (table 300) python_format unavailable in
  check_file_type E "sales.avro" (disk "sales.avro")
    = (Raise (AttributeError "module 'pandas' has no attribute 'read_avro'"),
       disk "sales.avro")
  ∧ data_analyzer E "sales.avro" "key" (disk "sales.avro")
    = (Raise (AttributeError "module 'pandas' has no attribute 'read_avro'"),
       logs pipeline_prints (disk "sales.avro")).
Proof.
  intros E. apply (avro_files_are_refused E "sales.avro" "key" (disk "sales.avro")).
  - eexists. reflexivity.
  - reflexivity.
Defined.

(* ================================================================== *)
(** ** The further properties at concrete inputs *)
(* ================================================================== *)

Lemma successive_reports_are_kept_witness :
  let E := counting_env (table 300) unavailable in
  let w := disk "sales.csv" in
  "data-analysis-00000000.pdf" ≠ "data-analysis-00000001.pdf"
  ∧ files (generate_pdf E "b.csv" "second"
             (generate_pdf E "a.csv" "first" w).2).2 !! "data-analysis-00000000.pdf"
    = Some (PdfDoc (report_document E "a.csv" "first")).
Proof.
  intros E w.
  destruct (successive_reports_are_kept E "a.csv" "first" "b.csv" "second" w
              "data-analysis-00000000.pdf" (generate_pdf E "a.csv" "first" w).2
              "data-analysis-00000001.pdf"
              (generate_pdf E "b.csv" "second" (generate_pdf E "a.csv" "first" w).2).2)
    as (Hne & Hfirst & _).
  - reflexivity.
  - reflexivity.
  - vm_compute. discriminate.
  - split; [exact Hne|exact Hfirst].
Defined.


Lemma reader_follows_extension_witness :
  let E := test_env (table 300) python_format unavailable in
  check_file_type E "sales.json" (disk "sales.json") =
    match pd_read_json E (Blob "raw bytes") with
    | Ok df => loader_outcome E (disk "sales.json") df
    | Raise e => (Raise e, disk "sales.json")
    end.
Proof.
  intros E.
  refine (reader_follows_extension E "sales.json" (disk "sales.json") (Blob "raw bytes")
            ".json" (pd_read_json E) _ _ _).
  - rewrite !elem_of_cons. auto 10.
  - reflexivity.
  - reflexivity.
Defined.

Lemma retry_then_full_report_witness :
  let E := test_env (table 300) python_format (answers_after 1 "An answer") in
  let w := loaded_disk E "sales.csv" in
  ∃ w',
    explain_file E "sales.csv" "key" w =
      (Ok (header E "sales.csv" +:+ " " +:+ Py.replace "An answer" "CSV" EmptyString
             +:+ Py.nl +:+ Py.replace "An answer" "CSV" EmptyString
             +:+ Py.nl +:+ Py.replace "An answer" "CSV" EmptyString), w')
    ∧ requests w' = requests w + 1 + 3
    ∧ ∃ es, trace w' = trace w ++ es
        ∧ total_sleep es = 5 * 1
        ∧ List.filter is_print es
          = replicate 1 (EPrint retry_message) ++ [EPrint announce2; EPrint announce3].
Proof.
  intros E w.
  apply (retry_then_full_report E "sales.csv" "key" (CsvText (artifact_of w)) w 1
           "An answer" "An answer" "An answer").
  - vm_compute. reflexivity.
  - lia.
  - intros j Hj. exists (LibraryError "503 Service Unavailable").
    destruct j; [reflexivity|lia].
  - reflexivity.
  - reflexivity.
  - reflexivity.
Defined.

Lemma unreadable_first_response_is_fatal_witness :
  let E := test_env (table 300) python_format (blocked_after 1) in
  let w := loaded_disk E "sales.csv" in
  ∃ w',
    explain_file E "sales.csv" "key" w = (Raise (ValueError "response.text"), w')
    ∧ requests w' = requests w + 1 + 1
    ∧ ∃ es, trace w' = trace w ++ es
        ∧ total_sleep es = 5 * 1
        ∧ List.filter is_print es = replicate 1 (EPrint retry_message).
Proof.
  intros E w.
  apply (unreadable_first_response_is_fatal E "sales.csv" "key" (CsvText (artifact_of w)) w 1).
  - vm_compute. reflexivity.
  - lia.
  - intros j Hj. exists (LibraryError "503 Service Unavailable").
    destruct j; [reflexivity|lia].
  - reflexivity.
Defined.

Lemma sample_without_replacement_witness :
  let E := test_env (table_with_gap 300) python_format unavailable in
  let d := dropna (table_with_gap 300) in
  let d' := (format_loop E (float64_columns d) d).1 in
  ∃ w' ps,
    check_file_type E "sales.json" (disk "sales.json") = (Ok tt, w')
    ∧ NoDup ps
    ∧ length ps = 250
    ∧ Forall (λ p, p < nrows d) ps
    ∧ csv_records (artifact_of w') = fields_at (float_repr E) d' <$> ps.
Proof.
  intros E.
  apply (sample_without_replacement E "sales.json" (disk "sales.json") (table_with_gap 300)).
  - eexists _, _. split; [reflexivity|]. split; reflexivity.
  - apply Nat.leb_le. vm_compute. reflexivity.
Defined.

Lemma exact_population_is_shuffled_witness :
  let E := test_env (table_with_gap 250) python_format unavailable in
  let d := dropna (table_with_gap 250) in
  let d' := (format_loop E (float64_columns d) d).1 in
  ∃ w',
    check_file_type E "sales.csv" (disk "sales.csv") = (Ok tt, w')
    ∧ csv_records (artifact_of w') ≡ₚ rows_written E d'.
Proof.
  intros E.
  apply (exact_population_is_shuffled E "sales.csv" (disk "sales.csv") (table_with_gap 250)).
  - eexists _, _. split; [reflexivity|]. split; reflexivity.
  - vm_compute. reflexivity.
Defined.


